(** * Peer heartbeat bookkeeping and the ESDT system smart contract

    A shallow embedding of two pieces of the node:
    - [Heartbeat]: the per-peer record [heartbeatMessageInfo] of package
      [heartbeat], with its up-time / down-time accounting;
    - [ESDT]: the token-issuing system smart contract of package
      [systemSmartContracts].

    Definitions come first, the theorems about them follow. *)

From Stdlib Require Import ZArith Bool List Ascii String Lia DecimalString.
From stdpp Require Import base gmap strings.
Import ListNotations.
Local Open Scope Z_scope.

(* ===================================================================== *)
(** * Package [heartbeat] *)
(* ===================================================================== *)

Module Heartbeat.

(** ** Go's [time] package, as far as the record uses it

    A [time.Time] is an instant, here the number of nanoseconds on one time
    line: wall clock and monotonic clock readings are not told apart.  A
    [time.Duration] is a signed 64-bit count of nanoseconds. *)

Definition Time := Z.
Definition Duration := Z.

Definition time_minDuration : Duration := - 2 ^ 63.
Definition time_maxDuration : Duration := 2 ^ 63 - 1.

(** [t.Sub(u)]: the difference [t - u], saturated to the range of
    [Duration] as the Go library does. *)
Definition Sub (t u : Time) : Duration :=
  if t - u <? time_minDuration then time_minDuration
  else if time_maxDuration <? t - u then time_maxDuration
  else t - u.

(** [+=] on a [Duration]: two's complement addition on 64 bits. *)
Definition wrap64 (z : Z) : Duration := (z + 2 ^ 63) mod 2 ^ 64 - 2 ^ 63.
Definition addDuration (a b : Duration) : Duration := wrap64 (a + b).

(** ** The record *)

Record heartbeatMessageInfo := mkInfo {
  maxDurationPeerUnresponsive : Duration;
  maxInactiveTime : Duration;
  totalUpTime : Duration;
  totalDownTime : Duration;
  timeStamp : Time;
  isActive : bool;
  receivedShardID : Z;
  computedShardID : Z;
  versionNumber : string;
  nodeDisplayName : string;
  isValidator : bool;
  lastUptimeDowntime : Time;
  genesisTime : Time
}.

Definition set_isActive (b : bool) (h : heartbeatMessageInfo) :=
  mkInfo (maxDurationPeerUnresponsive h) (maxInactiveTime h) (totalUpTime h)
    (totalDownTime h) (timeStamp h) b (receivedShardID h) (computedShardID h)
    (versionNumber h) (nodeDisplayName h) (isValidator h)
    (lastUptimeDowntime h) (genesisTime h).

Definition set_maxInactiveTime (d : Duration) (h : heartbeatMessageInfo) :=
  mkInfo (maxDurationPeerUnresponsive h) d (totalUpTime h)
    (totalDownTime h) (timeStamp h) (isActive h) (receivedShardID h)
    (computedShardID h) (versionNumber h) (nodeDisplayName h) (isValidator h)
    (lastUptimeDowntime h) (genesisTime h).

Definition set_totalUpTime (d : Duration) (h : heartbeatMessageInfo) :=
  mkInfo (maxDurationPeerUnresponsive h) (maxInactiveTime h) d
    (totalDownTime h) (timeStamp h) (isActive h) (receivedShardID h)
    (computedShardID h) (versionNumber h) (nodeDisplayName h) (isValidator h)
    (lastUptimeDowntime h) (genesisTime h).

Definition set_totalDownTime (d : Duration) (h : heartbeatMessageInfo) :=
  mkInfo (maxDurationPeerUnresponsive h) (maxInactiveTime h) (totalUpTime h)
    d (timeStamp h) (isActive h) (receivedShardID h)
    (computedShardID h) (versionNumber h) (nodeDisplayName h) (isValidator h)
    (lastUptimeDowntime h) (genesisTime h).

Definition set_lastUptimeDowntime (t : Time) (h : heartbeatMessageInfo) :=
  mkInfo (maxDurationPeerUnresponsive h) (maxInactiveTime h) (totalUpTime h)
    (totalDownTime h) (timeStamp h) (isActive h) (receivedShardID h)
    (computedShardID h) (versionNumber h) (nodeDisplayName h) (isValidator h)
    t (genesisTime h).

(** The five fields a received message overwrites. *)
Definition set_message (computed received : Z) (crtTime : Time)
    (version name : string) (h : heartbeatMessageInfo) :=
  mkInfo (maxDurationPeerUnresponsive h) (maxInactiveTime h) (totalUpTime h)
    (totalDownTime h) crtTime (isActive h) received computed version name
    (isValidator h) (lastUptimeDowntime h) (genesisTime h).

Inductive error :=
  | ErrInvalidMaxDurationPeerUnresponsive
  | ErrNilTimer.

(** [newHeartbeatMessageInfo].  The [timer] argument is [None] for a nil
    timer and [Some now] for a timer whose [Now()] reads [now] when the
    record is built. *)
Definition newHeartbeatMessageInfo (maxDurationPeerUnresponsive : Duration)
    (isValidator : bool) (genesisTime : Time) (timer : option Time)
    : error + heartbeatMessageInfo :=
  if maxDurationPeerUnresponsive =? 0 then
    inl ErrInvalidMaxDurationPeerUnresponsive
  else
    match timer with
    | None => inl ErrNilTimer
    | Some now =>
        inr {| maxDurationPeerUnresponsive := maxDurationPeerUnresponsive;
               maxInactiveTime := 0;
               isActive := false;
               receivedShardID := 0;
               computedShardID := 0;
               timeStamp := genesisTime;
               lastUptimeDowntime := now;
               totalUpTime := 0;
               totalDownTime := 0;
               versionNumber := "";
               nodeDisplayName := "";
               isValidator := isValidator;
               genesisTime := genesisTime |}
    end.

Definition maxDuration (first second : Duration) : Duration :=
  if second <? first then first else second.

Definition computeValidDuration (crtTime : Time) (hbmi : heartbeatMessageInfo)
    : bool :=
  let crtDuration := Sub crtTime (timeStamp hbmi) in
  let crtDuration := maxDuration 0 crtDuration in
  crtDuration <=? maxDurationPeerUnresponsive hbmi.

Definition updateMaxInactiveTimeDuration (currentTime : Time)
    (hbmi : heartbeatMessageInfo) : heartbeatMessageInfo :=
  let crtDuration := Sub currentTime (timeStamp hbmi) in
  let crtDuration := maxDuration 0 crtDuration in
  let greaterDurationThanMax := maxInactiveTime hbmi <? crtDuration in
  let currentTimeAfterGenesis := Sub (genesisTime hbmi) currentTime <? 0 in
  if greaterDurationThanMax && currentTimeAfterGenesis
  then set_maxInactiveTime crtDuration hbmi
  else hbmi.

Definition updateUpAndDownTime (previousActive : bool) (crtTime : Time)
    (hbmi : heartbeatMessageInfo) : heartbeatMessageInfo :=
  let hbmi :=
    if Sub (lastUptimeDowntime hbmi) (genesisTime hbmi) <? 0
    then set_lastUptimeDowntime (genesisTime hbmi) hbmi
    else hbmi in
  let lastDuration := Sub crtTime (lastUptimeDowntime hbmi) in
  let lastDuration := maxDuration 0 lastDuration in
  let hbmi :=
    if previousActive && isActive hbmi
    then set_totalUpTime (addDuration (totalUpTime hbmi) lastDuration) hbmi
    else set_totalDownTime (addDuration (totalDownTime hbmi) lastDuration) hbmi
  in
  set_lastUptimeDowntime crtTime hbmi.

Definition updateTimes (crtTime : Time) (previousActive : bool)
    (hbmi : heartbeatMessageInfo) : heartbeatMessageInfo :=
  if Sub crtTime (genesisTime hbmi) <? 0 then hbmi
  else
    let hbmi := updateMaxInactiveTimeDuration crtTime hbmi in
    updateUpAndDownTime previousActive crtTime hbmi.

Definition updateFields (crtTime : Time) (hbmi : heartbeatMessageInfo)
    : heartbeatMessageInfo :=
  let validDuration := computeValidDuration crtTime hbmi in
  let previousActive := isActive hbmi && validDuration in
  let hbmi := set_isActive true hbmi in
  updateTimes crtTime previousActive hbmi.

(** [computeActive] is the periodic re-evaluation; its mutex has no
    counterpart in a sequential model. *)
Definition computeActive (crtTime : Time) (hbmi : heartbeatMessageInfo)
    : heartbeatMessageInfo :=
  let validDuration := computeValidDuration crtTime hbmi in
  let hbmi := set_isActive (isActive hbmi && validDuration) hbmi in
  updateTimes crtTime (isActive hbmi) hbmi.

(** [HeartbeatReceived]; [crtTime] is what [hbmi.getTimeHandler()] returns
    during the call. *)
Definition HeartbeatReceived (crtTime : Time)
    (computedShardID receivedshardID : Z) (version nodeDisplayName : string)
    (hbmi : heartbeatMessageInfo) : heartbeatMessageInfo :=
  let hbmi := updateFields crtTime hbmi in
  set_message computedShardID receivedshardID crtTime version nodeDisplayName
    hbmi.

(** ** Sequences of calls on one record *)

Inductive call :=
  | CallHeartbeatReceived (crtTime : Time) (computedShardID receivedShardID : Z)
      (version nodeDisplayName : string)
  | CallComputeActive (crtTime : Time).

Definition callTime (c : call) : Time :=
  match c with
  | CallHeartbeatReceived t _ _ _ _ => t
  | CallComputeActive t => t
  end.

Definition step (hbmi : heartbeatMessageInfo) (c : call)
    : heartbeatMessageInfo :=
  match c with
  | CallHeartbeatReceived t comp recv v n =>
      HeartbeatReceived t comp recv v n hbmi
  | CallComputeActive t => computeActive t hbmi
  end.

Definition run (hbmi : heartbeatMessageInfo) (cs : list call)
    : heartbeatMessageInfo :=
  fold_left step cs hbmi.

(** The calls happen at clock readings that never go back, starting from
    the reading [t]. *)
Fixpoint chronological (t : Time) (cs : list call) : bool :=
  match cs with
  | [] => true
  | c :: cs' => (t <=? callTime c) && chronological (callTime c) cs'
  end.

(** ** The accounting invariant, and a record for examples *)

(** The totals account for exactly the time from the later of the
    construction reading [t0] and genesis [g] up to [lastUptimeDowntime]. *)
Definition accounted (t0 g : Time) (h : heartbeatMessageInfo) : Prop :=
  genesisTime h = g
  /\ t0 <= lastUptimeDowntime h
  /\ 0 <= totalUpTime h
  /\ 0 <= totalDownTime h
  /\ totalUpTime h + totalDownTime h
     = Z.max (lastUptimeDowntime h) g - Z.max t0 g.

(** A record that heard a message at 1s, threshold 5s, looked at again at
    60s. *)
Definition silent_peer : heartbeatMessageInfo :=
  mkInfo 5000000000 0 0 0 1000000000 true 0 0 "" "" true 1000000000 0.

(** The time of the last call of a sequence, [t] if there is none. *)
Definition lastCallTime (t : Time) (cs : list call) : Time :=
  fold_left (fun _ c => callTime c) cs t.

(** A peer that never falls silent: the calls happen at clock readings that
    never go back from [lastCall], each at most [threshold] after the
    latest message, which was at [lastMessage] before the first call. *)
Fixpoint steady (threshold : Duration) (lastMessage lastCall : Time)
    (cs : list call) : bool :=
  match cs with
  | [] => true
  | c :: cs' =>
      (lastCall <=? callTime c)
      && (callTime c - lastMessage <=? threshold)
      && steady threshold
           (match c with
            | CallHeartbeatReceived t _ _ _ _ => t
            | CallComputeActive _ => lastMessage
            end)
           (callTime c) cs'
  end.

(** What holds of an active record between two calls of a steady peer. *)
Definition live (thr : Duration) (g m l : Time) (h : heartbeatMessageInfo)
    : Prop :=
  isActive h = true /\ timeStamp h = m /\ lastUptimeDowntime h = l
  /\ genesisTime h = g /\ maxDurationPeerUnresponsive h = thr
  /\ g <= l /\ m <= l /\ 0 <= totalUpTime h.

End Heartbeat.

(* ===================================================================== *)
(** * Package [systemSmartContracts]: the ESDT contract *)
(* ===================================================================== *)

Module ESDT.

Local Open Scope string_scope.
Local Open Scope Z_scope.

(** A Go [[]byte] is a [string] of 8-bit characters; the contract converts
    between the two freely. *)
Abbreviation bytes := string (only parsing).

Definition len (b : bytes) : Z := Z.of_nat (String.length b).

(** ** [math/big] and [encoding/hex], as far as the contract uses them *)

Fixpoint SetBytes_from (acc : Z) (b : bytes) : Z :=
  match b with
  | EmptyString => acc
  | String c rest => SetBytes_from (acc * 256 + Z.of_N (N_of_ascii c)) rest
  end.

(** [big.NewInt(0).SetBytes(b)]: [b] read as a big-endian unsigned number. *)
Definition SetBytes (b : bytes) : Z := SetBytes_from 0 b.

Fixpoint Bytes_to (fuel : nat) (n : N) (acc : bytes) : bytes :=
  match fuel with
  | O => acc
  | S fuel' =>
      if (n =? 0)%N then acc
      else Bytes_to fuel' (n / 256)%N (String (ascii_of_N (n mod 256)%N) acc)
  end.

(** [x.Bytes()]: the absolute value as big-endian bytes, no leading zero. *)
Definition Bytes (x : Z) : bytes :=
  Bytes_to (N.to_nat (N.size (Z.abs_N x))) (Z.abs_N x) "".

Definition hexDigit (n : N) : ascii :=
  match String.get (N.to_nat n) "0123456789abcdef" with
  | Some c => c
  | None => "0"%char
  end.

Fixpoint EncodeToString (b : bytes) : string :=
  match b with
  | EmptyString => ""
  | String c rest =>
      String (hexDigit (N_of_ascii c / 16)%N)
        (String (hexDigit (N_of_ascii c mod 16)%N) (EncodeToString rest))
  end.

(** ** Constants of the contract *)

Definition minLengthForTokenName : Z := 10.
Definition maxLengthForTokenName : Z := 20.
Definition configKeyPrefix : string := "esdtConfig".
Definition allIssuedTokens : string := "allIssuedTokens".
Definition burnable : string := "canBurn".
Definition mintable : string := "canMint".
Definition canPause : string := "canPause".
Definition canFreeze : string := "canFreeze".
Definition canWipe : string := "canWipe".
Definition canChangeOwner : string := "canChangeOwner".
Definition upgradable : string := "canUpgrade".

(** ** Data *)

(** [vmcommon.ReturnCode], the codes the contract returns. *)
Inductive ReturnCode :=
  | Ok
  | FunctionNotFound
  | FunctionWrongSignature
  | UserError
  | OutOfGas
  | OutOfFunds.

(** The errors of package [vm] the contract produces, and [ErrOther] for the
    errors its collaborators (marshalizer, environment) may return. *)
Inductive error :=
  | ErrNegativeOrZeroInitialSupply
  | ErrTokenAlreadyRegistered
  | ErrTokenNameNotHumanReadable
  | ErrInvalidNumOfArguments
  | ErrInvalidArgument
  | ErrNoTokenWithGivenName
  | ErrNotEnoughGas
  | ErrOther (text : string).

(** What [AddReturnMessage] is given: a literal, or [err.Error()]. *)
Inductive message :=
  | Text (s : string)
  | ErrorText (err : error).

(** The generated type [ESDTData]. *)
Record ESDTData := mkESDTData {
  OwnerAddress : bytes;
  TokenName : bytes;
  MintedValue : Z;
  BurntValue : Z;
  Burnable : bool;
  Mintable : bool;
  CanPause : bool;
  CanFreeze : bool;
  CanWipe : bool;
  Upgradable : bool;
  CanChangeOwner : bool;
  IsPaused : bool
}.

Definition set_OwnerAddress (v : bytes) (t : ESDTData) :=
  mkESDTData v (TokenName t) (MintedValue t) (BurntValue t) (Burnable t)
    (Mintable t) (CanPause t) (CanFreeze t) (CanWipe t) (Upgradable t)
    (CanChangeOwner t) (IsPaused t).
Definition set_MintedValue (v : Z) (t : ESDTData) :=
  mkESDTData (OwnerAddress t) (TokenName t) v (BurntValue t) (Burnable t)
    (Mintable t) (CanPause t) (CanFreeze t) (CanWipe t) (Upgradable t)
    (CanChangeOwner t) (IsPaused t).
Definition set_BurntValue (v : Z) (t : ESDTData) :=
  mkESDTData (OwnerAddress t) (TokenName t) (MintedValue t) v (Burnable t)
    (Mintable t) (CanPause t) (CanFreeze t) (CanWipe t) (Upgradable t)
    (CanChangeOwner t) (IsPaused t).
Definition set_Burnable (v : bool) (t : ESDTData) :=
  mkESDTData (OwnerAddress t) (TokenName t) (MintedValue t) (BurntValue t) v
    (Mintable t) (CanPause t) (CanFreeze t) (CanWipe t) (Upgradable t)
    (CanChangeOwner t) (IsPaused t).
Definition set_Mintable (v : bool) (t : ESDTData) :=
  mkESDTData (OwnerAddress t) (TokenName t) (MintedValue t) (BurntValue t)
    (Burnable t) v (CanPause t) (CanFreeze t) (CanWipe t) (Upgradable t)
    (CanChangeOwner t) (IsPaused t).
Definition set_CanPause (v : bool) (t : ESDTData) :=
  mkESDTData (OwnerAddress t) (TokenName t) (MintedValue t) (BurntValue t)
    (Burnable t) (Mintable t) v (CanFreeze t) (CanWipe t) (Upgradable t)
    (CanChangeOwner t) (IsPaused t).
Definition set_CanFreeze (v : bool) (t : ESDTData) :=
  mkESDTData (OwnerAddress t) (TokenName t) (MintedValue t) (BurntValue t)
    (Burnable t) (Mintable t) (CanPause t) v (CanWipe t) (Upgradable t)
    (CanChangeOwner t) (IsPaused t).
Definition set_CanWipe (v : bool) (t : ESDTData) :=
  mkESDTData (OwnerAddress t) (TokenName t) (MintedValue t) (BurntValue t)
    (Burnable t) (Mintable t) (CanPause t) (CanFreeze t) v (Upgradable t)
    (CanChangeOwner t) (IsPaused t).
Definition set_Upgradable (v : bool) (t : ESDTData) :=
  mkESDTData (OwnerAddress t) (TokenName t) (MintedValue t) (BurntValue t)
    (Burnable t) (Mintable t) (CanPause t) (CanFreeze t) (CanWipe t) v
    (CanChangeOwner t) (IsPaused t).
Definition set_CanChangeOwner (v : bool) (t : ESDTData) :=
  mkESDTData (OwnerAddress t) (TokenName t) (MintedValue t) (BurntValue t)
    (Burnable t) (Mintable t) (CanPause t) (CanFreeze t) (CanWipe t)
    (Upgradable t) v (IsPaused t).
Definition set_IsPaused (v : bool) (t : ESDTData) :=
  mkESDTData (OwnerAddress t) (TokenName t) (MintedValue t) (BurntValue t)
    (Burnable t) (Mintable t) (CanPause t) (CanFreeze t) (CanWipe t)
    (Upgradable t) (CanChangeOwner t) v.

(** The generated type [ESDTConfig]; the two lengths are [uint32]. *)
Record ESDTConfig := mkESDTConfig {
  cfgOwnerAddress : bytes;
  BaseIssuingCost : Z;
  MinTokenNameLength : Z;
  MaxTokenNameLength : Z
}.

(** [vmcommon.ContractCallInput], the fields the operations read. *)
Record ContractCallInput := mkInput {
  CallerAddr : bytes;
  Arguments : list bytes;
  CallValue : Z;
  GasProvided : Z;
  RecipientAddr : bytes
}.

(** [args.Arguments[i]].  Every operation checks the number of arguments
    before it indexes, so the default is never read. *)
Definition Argument (args : ContractCallInput) (i : nat) : bytes :=
  nth i (Arguments args) "".

(** [marshal.Marshalizer], at the two types the contract stores.
    [Unmarshal] of a configuration fills an object that already holds the
    defaults. *)
Record Marshalizer := mkMarshalizer {
  MarshalToken : ESDTData -> error + bytes;
  UnmarshalToken : bytes -> error + ESDTData;
  MarshalConfig : ESDTConfig -> error + bytes;
  UnmarshalConfig : ESDTConfig -> bytes -> error + ESDTConfig
}.

(** The receiver [esdt]: gas costs
    ([gasCost.MetaChainSystemSCsCost.ESDTIssue] and [.ESDTOperations]), the
    constructor's cost and owner, the contract's address, the marshalizer. *)
Record esdt := mkEsdt {
  ESDTIssue : Z;
  ESDTOperations : Z;
  baseIssuingCost : Z;
  ownerAddress : bytes;
  eSDTSCAddress : bytes;
  marshalizer : Marshalizer
}.

(** ** The environment [vm.SystemEI] *)

Record transfer := mkTransfer {
  trDestination : bytes;
  trSender : bytes;
  trValue : Z;
  trInput : bytes;
  trGasLimit : Z
}.

(** Modelled from the spec: the interface [vm.SystemEI] is implemented
    outside the contract.  Its state holds what the spec lists for it: the
    contract's key-value storage, the gas left, the accumulated return
    messages, the transfers made, the settings broadcast to the ledger and
    the finished output. *)
Record vmContext := mkContext {
  storage : gmap string string;
  gasRemaining : Z;
  returnMessages : list message;
  transfers : list transfer;
  globalSettings : list (bytes * bytes);
  output : list bytes
}.

Definition set_storage (s : gmap string string) (st : vmContext) :=
  mkContext s (gasRemaining st) (returnMessages st) (transfers st)
    (globalSettings st) (output st).

(** Modelled from the spec: [get(key) -> bytes]; a key never set reads as
    the empty byte string. *)
Definition GetStorage (key : bytes) (st : vmContext) : bytes :=
  default "" (storage st !! key).

(** Modelled from the spec: [set(key, bytes)]. *)
Definition SetStorage (key value : bytes) (st : vmContext) : vmContext :=
  set_storage (<[key := value]> (storage st)) st.

(** Modelled from the spec: [useGas(amount)] fails when the budget does not
    cover the amount, and deducts it otherwise. *)
Definition UseGas (gas : Z) (st : vmContext) : option error * vmContext :=
  if gasRemaining st <? gas then (Some ErrNotEnoughGas, st)
  else (None, mkContext (storage st) (gasRemaining st - gas)
                (returnMessages st) (transfers st) (globalSettings st)
                (output st)).

(** Modelled from the spec: messages accumulate on the call context. *)
Definition AddReturnMessage (m : message) (st : vmContext) : vmContext :=
  mkContext (storage st) (gasRemaining st) (returnMessages st ++ [m])
    (transfers st) (globalSettings st) (output st).

(** Modelled from the spec: [sendGlobalSettingToAll(targetAddress, payload)]. *)
Definition SendGlobalSettingToAll (sender input : bytes) (st : vmContext)
    : vmContext :=
  mkContext (storage st) (gasRemaining st) (returnMessages st) (transfers st)
    (globalSettings st ++ [(sender, input)]) (output st).

(** A failed operation: the message is added and the code returned. *)
Definition abort (code : ReturnCode) (m : message) (st : vmContext)
    : ReturnCode * vmContext :=
  (code, AddReturnMessage m st).

(** ** The operations *)

Section Contract.

(** The contract, as built by [NewESDTSmartContract]. *)
Variable e : esdt.

(** Names of built-in functions, constants of package [core]. *)
Variable BuiltInFunctionESDTTransfer : string.
Variable BuiltInFunctionESDTWipe : string.
Variable BuiltInFunctionESDTPause : string.
Variable BuiltInFunctionESDTUnPause : string.

(** Whether the environment refuses a transfer, and with which error. *)
Variable transferError : vmContext -> transfer -> option error.

(** Modelled from the spec: [transfer(from, to, amount, payload, gasLimit)]
    fails with an error, or the transfer is made. *)
Definition Transfer (destination sender : bytes) (value : Z) (input : bytes)
    (gasLimit : Z) (st : vmContext) : option error * vmContext :=
  let t := mkTransfer destination sender value input gasLimit in
  match transferError st t with
  | Some err => (Some err, st)
  | None =>
      (None, mkContext (storage st) (gasRemaining st) (returnMessages st)
               (transfers st ++ [t]) (globalSettings st) (output st))
  end.

Definition saveToken (token : ESDTData) (st : vmContext)
    : option error * vmContext :=
  match MarshalToken (marshalizer e) token with
  | inl err => (Some err, st)
  | inr marshaledData => (None, SetStorage (TokenName token) marshaledData st)
  end.

Definition getExistingToken (tokenName : bytes) (st : vmContext)
    : error + ESDTData :=
  let marshalledData := GetStorage tokenName st in
  if len marshalledData =? 0 then inl ErrNoTokenWithGivenName
  else UnmarshalToken (marshalizer e) marshalledData.

Definition getESDTConfig (st : vmContext) : error + ESDTConfig :=
  let esdtConfig :=
    {| cfgOwnerAddress := ownerAddress e;
       BaseIssuingCost := baseIssuingCost e;
       MinTokenNameLength := minLengthForTokenName;
       MaxTokenNameLength := maxLengthForTokenName |} in
  let marshalledData := GetStorage configKeyPrefix st in
  if len marshalledData =? 0 then inr esdtConfig
  else UnmarshalConfig (marshalizer e) esdtConfig marshalledData.

Definition saveESDTConfig (esdtConfig : ESDTConfig) (st : vmContext)
    : option error * vmContext :=
  match MarshalConfig (marshalizer e) esdtConfig with
  | inl err => (Some err, st)
  | inr marshaledData => (None, SetStorage configKeyPrefix marshaledData st)
  end.

Definition init (st : vmContext) : ReturnCode * vmContext :=
  let scConfig :=
    {| cfgOwnerAddress := ownerAddress e;
       BaseIssuingCost := baseIssuingCost e;
       MinTokenNameLength := minLengthForTokenName;
       MaxTokenNameLength := maxLengthForTokenName |} in
  match saveESDTConfig scConfig st with
  | (Some _, st) => (UserError, st)
  | (None, st) => (Ok, st)
  end.

Definition isReadable (ch : ascii) : bool :=
  let c := N_of_ascii ch in
  let isSmallCharacter := (N_of_ascii "a" <=? c)%N && (c <=? N_of_ascii "z")%N in
  let isBigCharacter := (N_of_ascii "A" <=? c)%N && (c <=? N_of_ascii "Z")%N in
  let isNumber := (N_of_ascii "0" <=? c)%N && (c <=? N_of_ascii "9")%N in
  isSmallCharacter || isBigCharacter || isNumber.

Fixpoint isTokenNameHumanReadable (tokenName : bytes) : bool :=
  match tokenName with
  | EmptyString => true
  | String ch rest =>
      if negb (isReadable ch) then false else isTokenNameHumanReadable rest
  end.

Definition checkAndGetSetting (arg : string) : error + bool :=
  if (arg =? "true")%string then inr true
  else if (arg =? "false")%string then inr false
  else inl ErrInvalidArgument.

Definition getStringFromBool (val : bool) : string :=
  if val then "true" else "false".

(** The loop of [upgradeProperties], two arguments at a time. *)
Fixpoint upgradeProperties_loop (token : ESDTData) (args : list bytes)
    : error + ESDTData :=
  match args with
  | optionalArg :: setting :: rest =>
      match checkAndGetSetting setting with
      | inl err => inl err
      | inr val =>
          if (optionalArg =? burnable)%string then
            upgradeProperties_loop (set_Burnable val token) rest
          else if (optionalArg =? mintable)%string then
            upgradeProperties_loop (set_Mintable val token) rest
          else if (optionalArg =? canPause)%string then
            upgradeProperties_loop (set_CanPause val token) rest
          else if (optionalArg =? canFreeze)%string then
            upgradeProperties_loop (set_CanFreeze val token) rest
          else if (optionalArg =? canWipe)%string then
            upgradeProperties_loop (set_CanWipe val token) rest
          else if (optionalArg =? upgradable)%string then
            upgradeProperties_loop (set_Upgradable val token) rest
          else if (optionalArg =? canChangeOwner)%string then
            upgradeProperties_loop (set_CanChangeOwner val token) rest
          else inl ErrInvalidArgument
      end
  | _ => inr token
  end.

(** [upgradeProperties] changes the token in place; on an error its callers
    drop the token, so the result is the error or the changed token. *)
Definition upgradeProperties (token : ESDTData) (args : list bytes)
    : error + ESDTData :=
  if (length args =? 0)%nat then inr token
  else if negb (length args mod 2 =? 0)%nat then inl ErrInvalidNumOfArguments
  else upgradeProperties_loop token args.

Definition addToIssuedTokens (newToken : string) (st : vmContext)
    : vmContext :=
  let allTokens := GetStorage allIssuedTokens st in
  if len allTokens =? 0 then SetStorage allIssuedTokens newToken st
  else SetStorage allIssuedTokens (allTokens +:+ "@" +:+ newToken) st.

Definition issueToken (owner : bytes) (arguments : list bytes)
    (st : vmContext) : option error * vmContext :=
  let tokenName := nth 0 arguments "" in
  let initialSupply := SetBytes (nth 1 arguments "") in
  if initialSupply <=? 0 then (Some ErrNegativeOrZeroInitialSupply, st)
  else
    let data := GetStorage tokenName st in
    if 0 <? len data then (Some ErrTokenAlreadyRegistered, st)
    else if negb (isTokenNameHumanReadable tokenName) then
      (Some ErrTokenNameNotHumanReadable, st)
    else
      let newESDTToken :=
        {| OwnerAddress := owner;
           TokenName := tokenName;
           MintedValue := initialSupply;
           BurntValue := 0;
           Burnable := false;
           Mintable := false;
           CanPause := false;
           CanFreeze := false;
           CanWipe := false;
           Upgradable := true;
           CanChangeOwner := false;
           IsPaused := false |} in
      match upgradeProperties newESDTToken (skipn 2 arguments) with
      | inl err => (Some err, st)
      | inr newESDTToken =>
          match saveToken newESDTToken st with
          | (Some err, st) => (Some err, st)
          | (None, st) =>
              let esdtTransferData :=
                BuiltInFunctionESDTTransfer +:+ "@" +:+
                EncodeToString tokenName +:+ "@" +:+
                EncodeToString (Bytes initialSupply) in
              match Transfer owner (eSDTSCAddress e) 0 esdtTransferData 0 st
              with
              | (Some err, st) => (Some err, st)
              | (None, st) => (None, addToIssuedTokens tokenName st)
              end
          end
      end.

Definition issue (args : ContractCallInput) (st : vmContext)
    : ReturnCode * vmContext :=
  if (length (Arguments args) <? 2)%nat then
    abort FunctionWrongSignature (Text "not enough arguments") st
  else
    match UseGas (ESDTIssue e) st with
    | (Some _, st) => abort OutOfGas (Text "not enough gas") st
    | (None, st) =>
        match getESDTConfig st with
        | inl err => abort UserError (ErrorText err) st
        | inr esdtConfig =>
            if (len (Argument args 0) <? MinTokenNameLength esdtConfig)
               || (MaxTokenNameLength esdtConfig <? len (Argument args 0))
            then
              abort FunctionWrongSignature
                (Text "token name length not in parameters") st
            else if negb (CallValue args =? BaseIssuingCost esdtConfig) then
              abort OutOfFunds
                (Text "callValue not equals with baseIssuingCost") st
            else
              match issueToken (CallerAddr args) (Arguments args) st with
              | (Some err, st) => abort UserError (ErrorText err) st
              | (None, st) => (Ok, st)
              end
        end
    end.

Definition issueProtected (args : ContractCallInput) (st : vmContext)
    : ReturnCode * vmContext :=
  if negb (CallerAddr args =? ownerAddress e)%string then
    abort UserError
      (Text "issueProtected can be called by whitelisted address only") st
  else if (length (Arguments args) <? 3)%nat then
    abort FunctionWrongSignature (Text "not enough arguments") st
  else if negb (len (Argument args 0) =? len (CallerAddr args)) then
    abort FunctionWrongSignature (Text "invalid owner address length") st
  else
    match UseGas (ESDTIssue e) st with
    | (Some err, st) => abort OutOfGas (ErrorText err) st
    | (None, st) =>
        match getESDTConfig st with
        | inl err => abort UserError (ErrorText err) st
        | inr esdtConfig =>
            if negb (CallValue args =? BaseIssuingCost esdtConfig) then
              abort OutOfFunds
                (Text "callValue not equals with baseIssuingCost") st
            else
              match issueToken (Argument args 0) (skipn 1 (Arguments args)) st
              with
              | (Some err, st) => abort UserError (ErrorText err) st
              | (None, st) => (Ok, st)
              end
        end
    end.

Definition burn (args : ContractCallInput) (st : vmContext)
    : ReturnCode * vmContext :=
  if negb (length (Arguments args) =? 2)%nat then
    abort FunctionWrongSignature
      (Text "number of arguments must be equal with 2") st
  else if negb (CallValue args =? 0) then
    abort OutOfFunds (Text "callValue must be 0") st
  else
    let burntValue := SetBytes (Argument args 1) in
    if burntValue <=? 0 then
      abort UserError (Text "negative or 0 value to burn") st
    else
      match getExistingToken (Argument args 0) st with
      | inl err => abort UserError (ErrorText err) st
      | inr token =>
          if negb (Burnable token) then
            abort UserError (Text "token is not burnable") st
          else
            let token := set_BurntValue (BurntValue token + burntValue) token in
            match saveToken token st with
            | (Some err, st) => abort UserError (ErrorText err) st
            | (None, st) =>
                match UseGas (GasProvided args) st with
                | (Some err, st) => abort OutOfGas (ErrorText err) st
                | (None, st) => (Ok, st)
                end
            end
      end.

(** [basicOwnershipChecks] returns [(nil, code)] with a code other than
    [Ok], here [inl code], or [(token, Ok)], here [inr token]. *)
Definition basicOwnershipChecks (args : ContractCallInput) (st : vmContext)
    : (ReturnCode + ESDTData) * vmContext :=
  if negb (CallValue args =? 0) then
    (inl OutOfFunds, AddReturnMessage (Text "callValue must be 0") st)
  else
    match UseGas (ESDTOperations e) st with
    | (Some _, st) =>
        (inl OutOfGas, AddReturnMessage (Text "not enough gas") st)
    | (None, st) =>
        match getExistingToken (Argument args 0) st with
        | inl err => (inl UserError, AddReturnMessage (ErrorText err) st)
        | inr token =>
            if negb (OwnerAddress token =? CallerAddr args)%string then
              (inl UserError,
               AddReturnMessage (Text "can be called by owner only") st)
            else (inr token, st)
        end
    end.

Definition mint (args : ContractCallInput) (st : vmContext)
    : ReturnCode * vmContext :=
  let n := length (Arguments args) in
  if (n <? 2)%nat || (3 <? n)%nat then
    abort FunctionWrongSignature (Text "accepted arguments number 2/3") st
  else
    match basicOwnershipChecks args st with
    | (inl returnCode, st) => (returnCode, st)
    | (inr token, st) =>
        let mintValue := SetBytes (Argument args 1) in
        if mintValue <=? 0 then
          abort UserError (Text "negative or zero mint value") st
        else if negb (Mintable token) then
          abort UserError (Text "token is not mintable") st
        else
          let token := set_MintedValue (MintedValue token + mintValue) token in
          match saveToken token st with
          | (Some err, st) => abort UserError (ErrorText err) st
          | (None, st) =>
              let destination := OwnerAddress token in
              let checked : ReturnCode * vmContext + bytes :=
                if (n =? 3)%nat then
                  if negb (len (Argument args 2) =? len (CallerAddr args))
                  then
                    inl (abort UserError
                           (Text "destination address of invalid length") st)
                  else inr (Argument args 2)
                else inr destination in
              match checked with
              | inl failed => failed
              | inr destination =>
                  let esdtTransferData :=
                    BuiltInFunctionESDTTransfer +:+ "@" +:+
                    EncodeToString (TokenName token) +:+ "@" +:+
                    EncodeToString (Bytes mintValue) in
                  match Transfer destination (eSDTSCAddress e) 0
                          esdtTransferData 0 st with
                  | (Some err, st) => abort UserError (ErrorText err) st
                  | (None, st) => (Ok, st)
                  end
              end
          end
    end.

Definition toggleFreeze (args : ContractCallInput) (builtInFunc : string)
    (st : vmContext) : ReturnCode * vmContext :=
  if negb (length (Arguments args) =? 2)%nat then
    abort FunctionWrongSignature
      (Text "invalid number of arguments, wanted 2") st
  else
    match basicOwnershipChecks args st with
    | (inl returnCode, st) => (returnCode, st)
    | (inr token, st) =>
        if negb (CanFreeze token) then
          abort UserError (Text "cannot freeze") st
        else
          let esdtTransferData :=
            builtInFunc +:+ "@" +:+ EncodeToString (TokenName token) in
          match Transfer (Argument args 1) (eSDTSCAddress e) 0
                  esdtTransferData 0 st with
          | (Some err, st) => abort UserError (ErrorText err) st
          | (None, st) => (Ok, st)
          end
    end.

Definition wipe (args : ContractCallInput) (st : vmContext)
    : ReturnCode * vmContext :=
  if negb (length (Arguments args) =? 2)%nat then
    abort FunctionWrongSignature
      (Text "invalid number of arguments, wanted 2") st
  else
    match basicOwnershipChecks args st with
    | (inl returnCode, st) => (returnCode, st)
    | (inr token, st) =>
        if negb (CanWipe token) then abort UserError (Text "cannot wipe") st
        else if negb (len (Argument args 1) =? len (CallerAddr args)) then
          abort UserError (Text "invalid arguments") st
        else
          let esdtTransferData :=
            BuiltInFunctionESDTWipe +:+ "@" +:+
            EncodeToString (TokenName token) in
          match Transfer (Argument args 1) (eSDTSCAddress e) 0
                  esdtTransferData 0 st with
          | (Some err, st) => abort UserError (ErrorText err) st
          | (None, st) => (Ok, st)
          end
    end.

Definition togglePause (args : ContractCallInput) (builtInFunc : string)
    (st : vmContext) : ReturnCode * vmContext :=
  if negb (length (Arguments args) =? 1)%nat then
    abort FunctionWrongSignature
      (Text "invalid number of arguments, wanted 1") st
  else
    match basicOwnershipChecks args st with
    | (inl returnCode, st) => (returnCode, st)
    | (inr token, st) =>
        if negb (CanPause token) then
          abort UserError (Text "cannot pause/un-pause") st
        else if IsPaused token
                && (builtInFunc =? BuiltInFunctionESDTPause)%string then
          abort UserError (Text "cannot pause an already paused contract") st
        else if negb (IsPaused token)
                && (builtInFunc =? BuiltInFunctionESDTUnPause)%string then
          abort UserError
            (Text "cannot unPause an already un-paused contract") st
        else
          let token := set_IsPaused (negb (IsPaused token)) token in
          match saveToken token st with
          | (Some err, st) => abort UserError (ErrorText err) st
          | (None, st) =>
              let esdtTransferData :=
                builtInFunc +:+ "@" +:+ EncodeToString (TokenName token) in
              (Ok, SendGlobalSettingToAll (eSDTSCAddress e) esdtTransferData st)
          end
    end.

Definition configChange (args : ContractCallInput) (st : vmContext)
    : ReturnCode * vmContext :=
  if negb (CallerAddr args =? ownerAddress e)%string then
    abort UserError
      (Text "configChange can be called by whitelisted address only") st
  else if negb (CallValue args =? 0) then
    abort UserError (Text "callValue must be 0") st
  else
    match UseGas (ESDTOperations e) st with
    | (Some err, st) => abort OutOfGas (ErrorText err) st
    | (None, st) =>
        if negb (length (Arguments args) =? 4)%nat then
          abort UserError (ErrorText ErrInvalidNumOfArguments) st
        else
          let newConfig :=
            {| cfgOwnerAddress := Argument args 0;
               BaseIssuingCost := SetBytes (Argument args 1);
               MinTokenNameLength :=
                 (SetBytes (Argument args 2) mod 2 ^ 64) mod 2 ^ 32;
               MaxTokenNameLength :=
                 (SetBytes (Argument args 3) mod 2 ^ 64) mod 2 ^ 32 |} in
          if negb (len (cfgOwnerAddress newConfig) =? len (RecipientAddr args))
          then
            abort UserError
              (Text "invalid arguments, first argument must be a valid address")
              st
          else if BaseIssuingCost newConfig <? 0 then
            abort UserError (Text "invalid new base issueing cost") st
          else if MaxTokenNameLength newConfig <? MinTokenNameLength newConfig
          then
            abort UserError (Text "invalid min and max token name lengths") st
          else
            match saveESDTConfig newConfig st with
            | (Some err, st) => abort UserError (ErrorText err) st
            | (None, st) => (Ok, st)
            end
    end.

Definition transferOwnership (args : ContractCallInput) (st : vmContext)
    : ReturnCode * vmContext :=
  if negb (length (Arguments args) =? 2)%nat then
    abort FunctionWrongSignature (Text "expected num of arguments 2") st
  else
    match basicOwnershipChecks args st with
    | (inl returnCode, st) => (returnCode, st)
    | (inr token, st) =>
        if negb (CanChangeOwner token) then
          abort UserError (Text "cannot change owner of the token") st
        else if negb (len (Argument args 1) =? len (CallerAddr args)) then
          abort UserError (Text "destination address of invalid length") st
        else
          let token := set_OwnerAddress (Argument args 1) token in
          match saveToken token st with
          | (Some err, st) => abort UserError (ErrorText err) st
          | (None, st) => (Ok, st)
          end
    end.

Definition esdtControlChanges (args : ContractCallInput) (st : vmContext)
    : ReturnCode * vmContext :=
  if (length (Arguments args) <? 2)%nat then
    abort FunctionWrongSignature (Text "not enough arguments") st
  else
    match basicOwnershipChecks args st with
    | (inl returnCode, st) => (returnCode, st)
    | (inr token, st) =>
        if negb (Upgradable token) then
          abort UserError (Text "token is not upgradable") st
        else
          match upgradeProperties token (skipn 1 (Arguments args)) with
          | inl err => abort UserError (ErrorText err) st
          | inr token =>
              match saveToken token st with
              | (Some err, st) => abort UserError (ErrorText err) st
              | (None, st) => (Ok, st)
              end
          end
    end.

End Contract.

(** ** Queries, [claim] and the dispatcher *)

(** Modelled from the spec: [finish(bytes)], results accumulate on the
    output. *)
Definition Finish (value : bytes) (st : vmContext) : vmContext :=
  mkContext (storage st) (gasRemaining st) (returnMessages st) (transfers st)
    (globalSettings st) (output st ++ [value]).

(** [x.String()] of a [big.Int]: the decimal digits, [-] before a negative
    number. *)
Definition BigIntString (x : Z) : string :=
  NilZero.string_of_int (Z.to_int x).

Section Dispatch.

Variable e : esdt.

(** [gasCost.BaseOperationCost.DataCopyPerByte], a [uint64]. *)
Variable DataCopyPerByte : Z.

(** Modelled from the spec: [getBalance(address) -> bigint]. *)
Variable GetBalance : vmContext -> bytes -> Z.

(** [CheckIfNil] of package [systemSmartContracts], given the function
    name and the rest of the input. *)
Variable CheckIfNil : string -> ContractCallInput -> option error.

(** Constants of package [core]. *)
Variable SCDeployInitFunctionName : string.
Variable BuiltInFunctionESDTTransfer : string.
Variable BuiltInFunctionESDTBurn : string.
Variable BuiltInFunctionESDTFreeze : string.
Variable BuiltInFunctionESDTUnFreeze : string.
Variable BuiltInFunctionESDTWipe : string.
Variable BuiltInFunctionESDTPause : string.
Variable BuiltInFunctionESDTUnPause : string.

Variable transferError : vmContext -> transfer -> option error.

Definition claim (args : ContractCallInput) (st : vmContext)
    : ReturnCode * vmContext :=
  if negb (CallerAddr args =? ownerAddress e)%string then
    abort UserError
      (Text "claim can be called by whitelisted address only") st
  else if negb (CallValue args =? 0) then
    abort UserError (Text "callValue must be 0") st
  else
    match UseGas (ESDTOperations e) st with
    | (Some err, st) => abort OutOfGas (ErrorText err) st
    | (None, st) =>
        if negb (length (Arguments args) =? 0)%nat then
          abort UserError (ErrorText ErrInvalidNumOfArguments) st
        else
          let scBalance := GetBalance st (RecipientAddr args) in
          match Transfer transferError (CallerAddr args) (RecipientAddr args)
                  scBalance "" 0 st with
          | (Some err, st) => abort UserError (ErrorText err) st
          | (None, st) => (Ok, st)
          end
    end.

Definition getAllESDTTokens (args : ContractCallInput) (st : vmContext)
    : ReturnCode * vmContext :=
  if negb (CallValue args =? 0) then
    abort UserError (Text "callValue must be 0") st
  else if negb (length (Arguments args) =? 0)%nat then
    abort UserError (ErrorText ErrInvalidNumOfArguments) st
  else
    match UseGas (ESDTOperations e) st with
    | (Some err, st) => abort OutOfGas (ErrorText err) st
    | (None, st) =>
        let savedData := GetStorage allIssuedTokens st in
        match UseGas ((DataCopyPerByte * len savedData) mod 2 ^ 64) st with
        | (Some err, st) => abort UserError (ErrorText err) st
        | (None, st) => (Ok, Finish savedData st)
        end
    end.

Definition getTokenProperties (args : ContractCallInput) (st : vmContext)
    : ReturnCode * vmContext :=
  if negb (CallValue args =? 0) then
    abort UserError (Text "callValue must be 0") st
  else if negb (length (Arguments args) =? 1)%nat then
    abort UserError (ErrorText ErrInvalidNumOfArguments) st
  else
    match UseGas (ESDTOperations e) st with
    | (Some err, st) => abort OutOfGas (ErrorText err) st
    | (None, st) =>
        match getExistingToken e (Argument args 0) st with
        | inl err => abort UserError (ErrorText err) st
        | inr esdtToken =>
            let st := Finish (TokenName esdtToken) st in
            let st := Finish (OwnerAddress esdtToken) st in
            let st := Finish (BigIntString (MintedValue esdtToken)) st in
            let st := Finish (BigIntString (BurntValue esdtToken)) st in
            let st :=
              Finish ("IsPaused-" +:+ getStringFromBool (IsPaused esdtToken))
                st in
            let st :=
              Finish ("CanUpgrade-"
                      +:+ getStringFromBool (Upgradable esdtToken)) st in
            let st :=
              Finish ("CanMint-" +:+ getStringFromBool (Mintable esdtToken))
                st in
            let st :=
              Finish ("CanBurn-" +:+ getStringFromBool (Burnable esdtToken))
                st in
            let st :=
              Finish ("CanChangeOwner-"
                      +:+ getStringFromBool (CanChangeOwner esdtToken)) st in
            let st :=
              Finish ("CanPause-" +:+ getStringFromBool (CanPause esdtToken))
                st in
            let st :=
              Finish ("CanFreeze-" +:+ getStringFromBool (CanFreeze esdtToken))
                st in
            let st :=
              Finish ("CanWipe-" +:+ getStringFromBool (CanWipe esdtToken))
                st in
            (Ok, st)
        end
    end.

(** [Execute].  The name [args.Function] is given beside the rest of the
    input, [flagEnabled] is the value of [e.flagEnabled.IsSet()]; the
    read lock has no counterpart in a sequential model. *)
Definition Execute (flagEnabled : bool) (function : string)
    (args : ContractCallInput) (st : vmContext) : ReturnCode * vmContext :=
  match CheckIfNil function args with
  | Some _ => (UserError, st)
  | None =>
      if (function =? SCDeployInitFunctionName)%string then init e st
      else if negb flagEnabled then
        abort UserError (Text "ESDT SC disabled") st
      else if (function =? "issue")%string then
        issue e BuiltInFunctionESDTTransfer transferError args st
      else if (function =? "issueProtected")%string then
        issueProtected e BuiltInFunctionESDTTransfer transferError args st
      else if (function =? BuiltInFunctionESDTBurn)%string then
        burn e args st
      else if (function =? "mint")%string then
        mint e BuiltInFunctionESDTTransfer transferError args st
      else if (function =? "freeze")%string then
        toggleFreeze e transferError args BuiltInFunctionESDTFreeze st
      else if (function =? "unFreeze")%string then
        toggleFreeze e transferError args BuiltInFunctionESDTUnFreeze st
      else if (function =? "wipe")%string then
        wipe e BuiltInFunctionESDTWipe transferError args st
      else if (function =? "pause")%string then
        togglePause e BuiltInFunctionESDTPause BuiltInFunctionESDTUnPause args
          BuiltInFunctionESDTPause st
      else if (function =? "unPause")%string then
        togglePause e BuiltInFunctionESDTPause BuiltInFunctionESDTUnPause args
          BuiltInFunctionESDTUnPause st
      else if (function =? "claim")%string then claim args st
      else if (function =? "configChange")%string then configChange e args st
      else if (function =? "esdtControlChanges")%string then
        esdtControlChanges e args st
      else if (function =? "transferOwnership")%string then
        transferOwnership e args st
      else if (function =? "getAllESDTTokens")%string then
        getAllESDTTokens args st
      else if (function =? "getTokenProperties")%string then
        getTokenProperties args st
      else abort FunctionNotFound (Text "invalid method to call") st
  end.

End Dispatch.

(** ** A concrete contract, for examples

    A marshalizer with a simple layout: every field is preceded by its
    length in one byte, the eight flags of a token are the characters
    [0] and [1]. *)

Definition putField (b : bytes) : bytes :=
  String (ascii_of_nat (String.length b)) b.

Definition takeField (data : bytes) : option (bytes * bytes) :=
  match data with
  | EmptyString => None
  | String c rest =>
      let n := nat_of_ascii c in
      if (n <=? String.length rest)%nat then
        Some (substring 0 n rest, substring n (String.length rest - n) rest)
      else None
  end.

Definition putFlag (b : bool) : string := if b then "1" else "0".

Definition takeFlag (data : bytes) : option (bool * bytes) :=
  match data with
  | String c rest =>
      if (c =? "1")%char then Some (true, rest)
      else if (c =? "0")%char then Some (false, rest)
      else None
  | EmptyString => None
  end.

Definition fieldFits (b : bytes) : bool := (String.length b <? 256)%nat.

Definition testMarshalToken (t : ESDTData) : error + bytes :=
  if fieldFits (OwnerAddress t) && fieldFits (TokenName t)
     && fieldFits (Bytes (MintedValue t)) && fieldFits (Bytes (BurntValue t))
  then
    inr (putFlag (Burnable t) +:+ putFlag (Mintable t) +:+
         putFlag (CanPause t) +:+ putFlag (CanFreeze t) +:+
         putFlag (CanWipe t) +:+ putFlag (Upgradable t) +:+
         putFlag (CanChangeOwner t) +:+ putFlag (IsPaused t) +:+
         putField (OwnerAddress t) +:+ putField (TokenName t) +:+
         putField (Bytes (MintedValue t)) +:+ putField (Bytes (BurntValue t)))
  else inl (ErrOther "field too long").

Definition testUnmarshalToken (data : bytes) : error + ESDTData :=
  let parsed :=
    '(fBurn, d) ← takeFlag data;
    '(fMint, d) ← takeFlag d;
    '(fPause, d) ← takeFlag d;
    '(fFreeze, d) ← takeFlag d;
    '(fWipe, d) ← takeFlag d;
    '(fUpgrade, d) ← takeFlag d;
    '(fOwner, d) ← takeFlag d;
    '(fPaused, d) ← takeFlag d;
    '(owner, d) ← takeField d;
    '(name, d) ← takeField d;
    '(minted, d) ← takeField d;
    '(burnt, d) ← takeField d;
    Some (mkESDTData owner name (SetBytes minted) (SetBytes burnt) fBurn fMint
            fPause fFreeze fWipe fUpgrade fOwner fPaused) in
  match parsed with
  | Some t => inr t
  | None => inl (ErrOther "malformed token record")
  end.

Definition testMarshalConfig (c : ESDTConfig) : error + bytes :=
  if fieldFits (cfgOwnerAddress c) && fieldFits (Bytes (BaseIssuingCost c))
  then
    inr (putField (cfgOwnerAddress c) +:+ putField (Bytes (BaseIssuingCost c))
         +:+ putField (Bytes (MinTokenNameLength c))
         +:+ putField (Bytes (MaxTokenNameLength c)))
  else inl (ErrOther "field too long").

Definition testUnmarshalConfig (into : ESDTConfig) (data : bytes)
    : error + ESDTConfig :=
  let parsed :=
    '(owner, d) ← takeField data;
    '(cost, d) ← takeField d;
    '(minLen, d) ← takeField d;
    '(maxLen, d) ← takeField d;
    Some (mkESDTConfig owner (SetBytes cost) (SetBytes minLen)
            (SetBytes maxLen)) in
  match parsed with
  | Some c => inr c
  | None => inl (ErrOther "malformed configuration record")
  end.

Definition testMarshalizer : Marshalizer :=
  mkMarshalizer testMarshalToken testUnmarshalToken testMarshalConfig
    testUnmarshalConfig.

(** Issuing costs 50 gas and 5000 in value, any other operation 10 gas. *)
Definition testContract : esdt :=
  mkEsdt 50 10 5000 "contract-owner" "esdt-sc-address" testMarshalizer.

(** An environment that refuses no transfer. *)
Definition noTransferError : vmContext -> transfer -> option error :=
  fun _ _ => None.

Definition contextWith (s : gmap string string) (gas : Z) : vmContext :=
  mkContext s gas [] [] [] [].

(** A token owned by [alice]: mintable, burnable and pausable, 1000
    minted. *)
Definition aliceToken : ESDTData :=
  mkESDTData "alice" "ALICETOKEN" 1000 0 true true true true true true true
    false.

Definition aliceTokenBytes : bytes :=
  match testMarshalToken aliceToken with
  | inr data => data
  | inl _ => ""
  end.

Definition aliceStorage : gmap string string :=
  {[ "ALICETOKEN" := aliceTokenBytes ]}.

(** The context a caller who is not the owner is sent away with: the gas
    of the operation is charged and the refusal is the one message added;
    the storage is as it was. *)
Definition refusedContext (e : esdt) (st : vmContext) : vmContext :=
  mkContext (storage st) (gasRemaining st - ESDTOperations e)
    (returnMessages st ++ [Text "can be called by owner only"])
    (transfers st) (globalSettings st) (output st).

(** The record [issue] builds for the caller [owner], the name ["ABC123"]
    and the supply 1000 when no optional argument is given. *)
Definition tokenABC123 (owner : bytes) : ESDTData :=
  {| OwnerAddress := owner;
     TokenName := "ABC123";
     MintedValue := 1000;
     BurntValue := 0;
     Burnable := false;
     Mintable := false;
     CanPause := false;
     CanFreeze := false;
     CanWipe := false;
     Upgradable := true;
     CanChangeOwner := false;
     IsPaused := false |}.

(** The context after [UseGas] has deducted [gas]. *)
Definition charged (gas : Z) (st : vmContext) : vmContext :=
  mkContext (storage st) (gasRemaining st - gas) (returnMessages st)
    (transfers st) (globalSettings st) (output st).

(** Names one after the other, an [@] before each. *)
Fixpoint appended (names : list string) : string :=
  match names with
  | [] => ""
  | name :: rest => "@" +:+ name +:+ appended rest
  end.

(** The record [issueToken] starts from, before the optional properties
    are applied. *)
Definition freshToken (owner name : bytes) (supply : Z) : ESDTData :=
  {| OwnerAddress := owner;
     TokenName := name;
     MintedValue := supply;
     BurntValue := 0;
     Burnable := false;
     Mintable := false;
     CanPause := false;
     CanFreeze := false;
     CanWipe := false;
     Upgradable := true;
     CanChangeOwner := false;
     IsPaused := false |}.

End ESDT.

(* ===================================================================== *)
(** * Properties of the heartbeat record *)
(* ===================================================================== *)

Section HeartbeatProperties.

Import Heartbeat.

(** ** Arithmetic of [Sub], [maxDuration] and 64-bit addition *)

Lemma Sub_exact (t u : Time) :
  time_minDuration <= t - u <= time_maxDuration -> Sub t u = t - u.
Proof.
  unfold Sub, time_minDuration, time_maxDuration. intros [Hlo Hhi].
  destruct (Z.ltb_spec (t - u) (- 2 ^ 63)); [lia|].
  destruct (Z.ltb_spec (2 ^ 63 - 1) (t - u)); [lia|reflexivity].
Qed.

Lemma Sub_negative (t u : Time) : (Sub t u <? 0) = (t <? u).
Proof.
  unfold Sub, time_minDuration, time_maxDuration.
  destruct (Z.ltb_spec (t - u) (- 2 ^ 63));
    [| destruct (Z.ltb_spec (2 ^ 63 - 1) (t - u))];
    destruct (Z.ltb_spec t u); try lia;
    match goal with |- (?a <? 0) = _ => destruct (Z.ltb_spec a 0) end;
    try reflexivity; lia.
Qed.

Lemma maxDuration_spec (a b : Duration) : maxDuration a b = Z.max a b.
Proof. unfold maxDuration. destruct (Z.ltb_spec b a); lia. Qed.

Lemma wrap64_small (z : Z) :
  time_minDuration <= z <= time_maxDuration -> wrap64 z = z.
Proof.
  unfold wrap64, time_minDuration, time_maxDuration. intros H.
  rewrite Z.mod_small; lia.
Qed.

(** ** Fields the accounting leaves alone *)

Lemma updateTimes_isActive t p h : isActive (updateTimes t p h) = isActive h.
Proof.
  unfold updateTimes, updateUpAndDownTime, updateMaxInactiveTimeDuration.
  repeat match goal with |- context [if ?c then _ else _] => destruct c end;
    reflexivity.
Qed.

Lemma updateTimes_genesisTime t p h :
  genesisTime (updateTimes t p h) = genesisTime h.
Proof.
  unfold updateTimes, updateUpAndDownTime, updateMaxInactiveTimeDuration.
  repeat match goal with |- context [if ?c then _ else _] => destruct c end;
    reflexivity.
Qed.

Lemma step_genesisTime h c : genesisTime (step h c) = genesisTime h.
Proof.
  destruct c; simpl; unfold HeartbeatReceived, updateFields, computeActive;
    simpl; rewrite updateTimes_genesisTime; reflexivity.
Qed.

(** ** The longest silence only grows *)

Lemma updateTimes_maxInactiveTime t p h :
  maxInactiveTime h <= maxInactiveTime (updateTimes t p h).
Proof.
  unfold updateTimes, updateUpAndDownTime, updateMaxInactiveTimeDuration.
  destruct (Sub t (genesisTime h) <? 0); [lia|].
  destruct (Z.ltb_spec (maxInactiveTime h)
              (maxDuration 0 (Sub t (timeStamp h)))) as [Hlt|Hge];
    destruct (Sub (genesisTime h) t <? 0); simpl;
    repeat match goal with |- context [if ?c then _ else _] => destruct c end;
    simpl; lia.
Qed.

Lemma step_maxInactiveTime h c :
  maxInactiveTime h <= maxInactiveTime (step h c).
Proof.
  destruct c; simpl; unfold HeartbeatReceived, updateFields, computeActive;
    simpl.
  - exact (updateTimes_maxInactiveTime _ _ (set_isActive true h)).
  - exact (updateTimes_maxInactiveTime _ _
             (set_isActive (isActive h && computeValidDuration crtTime h) h)).
Qed.

Lemma run_snoc h cs c : run h (cs ++ [c]) = step (run h cs) c.
Proof. unfold run. rewrite fold_left_app. reflexivity. Qed.

(** C6. Whatever the record held before, right after [HeartbeatReceived]
    its [isActive] field is [true]. *)
Theorem HeartbeatReceived_marks_active :
  forall (hbmi : heartbeatMessageInfo) (crtTime : Time)
         (computedShardID receivedShardID : Z) (version name : string),
    isActive (HeartbeatReceived crtTime computedShardID receivedShardID
                version name hbmi) = true.
Proof.
  intros. unfold HeartbeatReceived, updateFields. simpl.
  rewrite updateTimes_isActive. reflexivity.
Qed.

Lemma computeValidDuration_false (hbmi : heartbeatMessageInfo) (now : Time) :
  maxDurationPeerUnresponsive hbmi < Sub now (timeStamp hbmi) ->
  computeValidDuration now hbmi = false.
Proof.
  intros Hsilent. unfold computeValidDuration. rewrite maxDuration_spec.
  destruct (Z.leb_spec (Z.max 0 (Sub now (timeStamp hbmi)))
              (maxDurationPeerUnresponsive hbmi)); [lia|reflexivity].
Qed.

Lemma computeActive_isActive (hbmi : heartbeatMessageInfo) (now : Time) :
  isActive (computeActive now hbmi)
  = isActive hbmi && computeValidDuration now hbmi.
Proof. unfold computeActive. rewrite updateTimes_isActive. reflexivity. Qed.

(** C7. When the time elapsed from the last message's time stamp to the
    time given to [computeActive], the duration [crtTime.Sub(timeStamp)],
    exceeds [maxDurationPeerUnresponsive], the record is inactive after
    the call. *)
Theorem computeActive_silent_peer_inactive :
  forall (hbmi : heartbeatMessageInfo) (now : Time),
    maxDurationPeerUnresponsive hbmi < Sub now (timeStamp hbmi) ->
    isActive (computeActive now hbmi) = false.
Proof.
  intros hbmi now Hsilent. rewrite computeActive_isActive.
  rewrite (computeValidDuration_false hbmi now Hsilent).
  apply andb_false_r.
Qed.

Lemma silent_peer_witness :
  maxDurationPeerUnresponsive silent_peer
    < Sub 60000000000 (timeStamp silent_peer)
  /\ isActive (computeActive 60000000000 silent_peer) = false.
Proof.
  split.
  - vm_compute. reflexivity.
  - apply (computeActive_silent_peer_inactive silent_peer 60000000000).
    vm_compute. reflexivity.
Defined.

(** The same with the elapsed time taken as a difference of instants: it
    holds unless the threshold is the largest [Duration] there is. *)
Lemma computeActive_inactive_by_instants :
  forall (hbmi : heartbeatMessageInfo) (now : Time),
    maxDurationPeerUnresponsive hbmi < time_maxDuration ->
    maxDurationPeerUnresponsive hbmi < now - timeStamp hbmi ->
    isActive (computeActive now hbmi) = false.
Proof.
  intros hbmi now Hthr Hsilent. rewrite computeActive_isActive.
  rewrite computeValidDuration_false; [apply andb_false_r|].
  unfold Sub, time_minDuration, time_maxDuration in *.
  destruct (Z.ltb_spec (now - timeStamp hbmi) (- 2 ^ 63));
    [| destruct (Z.ltb_spec (2 ^ 63 - 1) (now - timeStamp hbmi))]; lia.
Qed.

(** C8. Over any sequence of [HeartbeatReceived] and [computeActive]
    calls, [maxInactiveTime] after each call is at least what it was
    before that call, and so at least what it was at the start. *)
Theorem maxInactiveTime_never_decreases :
  forall (hbmi : heartbeatMessageInfo) (cs : list call) (c : call),
    maxInactiveTime (run hbmi cs) <= maxInactiveTime (step (run hbmi cs) c)
    /\ maxInactiveTime hbmi <= maxInactiveTime (run hbmi cs).
Proof.
  intros hbmi cs c. split.
  - apply step_maxInactiveTime.
  - induction cs as [|c' cs IH] using rev_ind.
    + simpl. lia.
    + rewrite run_snoc.
      pose proof (step_maxInactiveTime (run hbmi cs) c'). lia.
Qed.

(** ** Where the accounting stands: [lastUptimeDowntime] *)

Lemma updateMaxInactiveTimeDuration_fields t h :
  let h' := updateMaxInactiveTimeDuration t h in
  lastUptimeDowntime h' = lastUptimeDowntime h
  /\ genesisTime h' = genesisTime h
  /\ totalUpTime h' = totalUpTime h
  /\ totalDownTime h' = totalDownTime h.
Proof.
  unfold updateMaxInactiveTimeDuration.
  destruct (_ && _); simpl; auto.
Qed.

Lemma updateTimes_skipped t p h :
  t < genesisTime h -> updateTimes t p h = h.
Proof.
  intros Hlt. unfold updateTimes. rewrite Sub_negative.
  destruct (Z.ltb_spec t (genesisTime h)); [reflexivity|lia].
Qed.

Lemma updateTimes_lastUptimeDowntime t p h :
  genesisTime h <= t -> lastUptimeDowntime (updateTimes t p h) = t.
Proof.
  intros Hge. unfold updateTimes. rewrite Sub_negative.
  destruct (Z.ltb_spec t (genesisTime h)); [lia|].
  unfold updateUpAndDownTime.
  repeat match goal with |- context [if ?c then _ else _] => destruct c end;
    reflexivity.
Qed.

Lemma step_lastUptimeDowntime h c :
  lastUptimeDowntime (step h c)
  = if callTime c <? genesisTime h then lastUptimeDowntime h else callTime c.
Proof.
  destruct (Z.ltb_spec (callTime c) (genesisTime h)) as [Hlt|Hge].
  - destruct c; simpl in *;
      unfold HeartbeatReceived, updateFields, computeActive; simpl;
      rewrite updateTimes_skipped by (simpl; lia); reflexivity.
  - destruct c; simpl in *;
      unfold HeartbeatReceived, updateFields, computeActive; simpl;
      rewrite updateTimes_lastUptimeDowntime by (simpl; lia); reflexivity.
Qed.

Lemma run_genesisTime h cs : genesisTime (run h cs) = genesisTime h.
Proof.
  induction cs as [|c cs IH] using rev_ind; [reflexivity|].
  rewrite run_snoc, step_genesisTime. exact IH.
Qed.

Lemma newHeartbeatMessageInfo_fields d v g t0 h0 :
  newHeartbeatMessageInfo d v g (Some t0) = inr h0 ->
  genesisTime h0 = g /\ lastUptimeDowntime h0 = t0
  /\ totalUpTime h0 = 0 /\ totalDownTime h0 = 0
  /\ isActive h0 = false /\ maxInactiveTime h0 = 0.
Proof.
  unfold newHeartbeatMessageInfo. destruct (d =? 0); [discriminate|].
  intros [= <-]. simpl. auto 6.
Qed.

(** C9, counterexample: a record built at clock reading 50 with genesis
    100 has [lastUptimeDowntime] before [genesisTime], and still has after
    a re-evaluation at 60. *)
Lemma lastUptimeDowntime_before_genesis :
  exists h0,
    newHeartbeatMessageInfo 5000000000 true 100 (Some 50) = inr h0
    /\ ~ genesisTime h0 <= lastUptimeDowntime h0
    /\ ~ genesisTime (run h0 [CallComputeActive 60])
         <= lastUptimeDowntime (run h0 [CallComputeActive 60]).
Proof.
  eexists. split; [reflexivity|]. split; vm_compute; intros H; apply H;
    reflexivity.
Qed.

(** C9, amended.  For a record built at clock reading [t0]: after any
    sequence of calls, [lastUptimeDowntime] is at or after [genesisTime],
    or it is still the reading [t0] of the construction; every call at a
    time not before [genesisTime] sets [lastUptimeDowntime] to that time;
    and when [t0] is not before [genesisTime], [lastUptimeDowntime] is at
    or after [genesisTime] in every reachable state. *)
Theorem lastUptimeDowntime_settled_after_genesis :
  forall (d : Duration) (v : bool) (g t0 : Time) (h0 : heartbeatMessageInfo),
    newHeartbeatMessageInfo d v g (Some t0) = inr h0 ->
    forall cs : list call,
      (genesisTime (run h0 cs) <= lastUptimeDowntime (run h0 cs)
       \/ lastUptimeDowntime (run h0 cs) = t0)
      /\ (forall c : call,
            g <= callTime c ->
            lastUptimeDowntime (step (run h0 cs) c) = callTime c
            /\ genesisTime (step (run h0 cs) c)
               <= lastUptimeDowntime (step (run h0 cs) c))
      /\ (g <= t0 ->
          genesisTime (run h0 cs) <= lastUptimeDowntime (run h0 cs)).
Proof.
  intros d v g t0 h0 Hnew cs.
  destruct (newHeartbeatMessageInfo_fields _ _ _ _ _ Hnew)
    as (Hg & Hlut & _).
  assert (Hinv : genesisTime (run h0 cs) <= lastUptimeDowntime (run h0 cs)
                 \/ lastUptimeDowntime (run h0 cs) = t0).
  { induction cs as [|c cs IH] using rev_ind.
    - right. exact Hlut.
    - rewrite run_snoc, step_genesisTime, step_lastUptimeDowntime.
      destruct (Z.ltb_spec (callTime c) (genesisTime (run h0 cs)));
        [exact IH | left; lia]. }
  split; [exact Hinv|]. split.
  - intros c Hc. rewrite step_genesisTime, step_lastUptimeDowntime.
    rewrite run_genesisTime, Hg.
    destruct (Z.ltb_spec (callTime c) g); lia.
  - intros Ht0. rewrite run_genesisTime, Hg in *. lia.
Qed.

Lemma lastUptimeDowntime_settled_witness :
  newHeartbeatMessageInfo 5000000000 true 100 (Some 50)
  = inr (mkInfo 5000000000 0 0 0 100 false 0 0 "" "" true 50 100)
  /\ lastUptimeDowntime
       (step (run (mkInfo 5000000000 0 0 0 100 false 0 0 "" "" true 50 100)
                [CallComputeActive 60])
          (CallComputeActive 120)) = 120.
Proof.
  split; [reflexivity|].
  apply (lastUptimeDowntime_settled_after_genesis 5000000000 true 100 50
           _ eq_refl [CallComputeActive 60]).
  simpl. lia.
Defined.

(** ** Up-time plus down-time *)

(** What one settlement adds: the time from the later of
    [lastUptimeDowntime] and [genesisTime] to [t], to one of the totals. *)
Lemma updateUpAndDownTime_totals p t h :
  genesisTime h <= t -> lastUptimeDowntime h <= t ->
  t - Z.max (lastUptimeDowntime h) (genesisTime h) <= time_maxDuration ->
  let d := t - Z.max (lastUptimeDowntime h) (genesisTime h) in
  let h' := updateUpAndDownTime p t h in
  (totalUpTime h' = addDuration (totalUpTime h) d
   /\ totalDownTime h' = totalDownTime h)
  \/ (totalUpTime h' = totalUpTime h
      /\ totalDownTime h' = addDuration (totalDownTime h) d).
Proof.
  intros Hg Hl Hd. unfold updateUpAndDownTime. rewrite Sub_negative.
  destruct (Z.ltb_spec (lastUptimeDowntime h) (genesisTime h)) as [Hlt|Hge];
    cbn [lastUptimeDowntime set_lastUptimeDowntime genesisTime isActive
         totalUpTime totalDownTime];
    rewrite maxDuration_spec, Sub_exact
      by (unfold time_minDuration, time_maxDuration in *; lia).
  - replace (Z.max (lastUptimeDowntime h) (genesisTime h))
      with (genesisTime h) by lia.
    replace (Z.max 0 (t - genesisTime h)) with (t - genesisTime h) by lia.
    destruct (p && isActive h); simpl; auto.
  - replace (Z.max (lastUptimeDowntime h) (genesisTime h))
      with (lastUptimeDowntime h) by lia.
    replace (Z.max 0 (t - lastUptimeDowntime h))
      with (t - lastUptimeDowntime h) by lia.
    destruct (p && isActive h); simpl; auto.
Qed.

Lemma updateTimes_accounted t0 g t p h :
  accounted t0 g h -> lastUptimeDowntime h <= t ->
  t - Z.max t0 g <= time_maxDuration ->
  accounted t0 g (updateTimes t p h).
Proof.
  intros (Hg & Ht0 & Hup & Hdown & Hsum) Hl Hspan.
  destruct (Z.lt_ge_cases t (genesisTime h)) as [Hskip|Hrun].
  - rewrite updateTimes_skipped by exact Hskip. repeat split; assumption.
  - pose proof (updateTimes_lastUptimeDowntime t p h Hrun) as Hlut.
    pose proof (updateTimes_genesisTime t p h) as Hgen.
    unfold updateTimes in *. rewrite Sub_negative in *.
    destruct (Z.ltb_spec t (genesisTime h)); [lia|].
    destruct (updateMaxInactiveTimeDuration_fields t h)
      as (El & Eg & Eu & Ed).
    set (h1 := updateMaxInactiveTimeDuration t h) in *.
    assert (Hd : t - Z.max (lastUptimeDowntime h1) (genesisTime h1)
                 <= time_maxDuration) by (rewrite El, Eg; lia).
    pose proof (updateUpAndDownTime_totals p t h1
                  ltac:(rewrite Eg; lia) ltac:(rewrite El; lia) Hd) as Htot.
    cbv zeta in Htot. rewrite El, Eg, Eu, Ed in Htot.
    unfold accounted. rewrite Hlut, Hgen.
    unfold addDuration in Htot.
    destruct Htot as [[Eu' Ed']|[Eu' Ed']]; rewrite Eu', Ed';
      rewrite wrap64_small
        by (unfold time_minDuration, time_maxDuration in *; lia);
      repeat split; lia.
Qed.

Lemma step_accounted t0 g h c :
  accounted t0 g h -> lastUptimeDowntime h <= callTime c ->
  callTime c - Z.max t0 g <= time_maxDuration ->
  accounted t0 g (step h c).
Proof.
  intros Hacc Hl Hspan.
  destruct c; simpl in *; unfold HeartbeatReceived, computeActive, updateFields.
  - match goal with
    | |- accounted _ _ (set_message _ _ _ _ _ ?x) =>
        assert (Hx : accounted t0 g x)
          by (apply updateTimes_accounted; [exact Hacc|exact Hl|exact Hspan]);
        exact Hx
    end.
  - apply updateTimes_accounted; [exact Hacc|exact Hl|exact Hspan].
Qed.

Lemma chronological_last t cs c :
  chronological t (cs ++ [c]) = true -> t <= callTime c.
Proof.
  revert t. induction cs as [|c' cs IH]; simpl; intros t H;
    apply andb_prop in H; destruct H as [H1 H2]; apply Z.leb_le in H1.
  - exact H1.
  - specialize (IH _ H2). lia.
Qed.

Lemma run_accounted t0 g cs :
  forall h t last,
    accounted t0 g h -> lastUptimeDowntime h <= t ->
    chronological t (cs ++ [last]) = true ->
    callTime last - Z.max t0 g <= time_maxDuration ->
    accounted t0 g (run h cs)
    /\ lastUptimeDowntime (run h cs) <= callTime last.
Proof.
  induction cs as [|c cs IH]; intros h t last Hacc Hl Hchr Hspan.
  - simpl. split; [exact Hacc|].
    pose proof (chronological_last t [] last Hchr). lia.
  - simpl in Hchr. apply andb_prop in Hchr. destruct Hchr as [Htc Hchr].
    apply Z.leb_le in Htc.
    pose proof (chronological_last _ _ _ Hchr) as Hc_last.
    change (run h (c :: cs)) with (run (step h c) cs).
    apply (IH (step h c) (callTime c) last).
    + apply step_accounted; [exact Hacc|lia|lia].
    + rewrite step_lastUptimeDowntime.
      destruct (callTime c <? genesisTime h); lia.
    + exact Hchr.
    + exact Hspan.
Qed.

(** C1, counterexample: genesis at 0, the record built at clock reading
    100, re-evaluated at 150.  The totals add up to 50, the time since the
    construction, not to the 150 since genesis. *)
Lemma totals_miss_time_before_construction :
  exists h0,
    newHeartbeatMessageInfo 5000000000 true 0 (Some 100) = inr h0
    /\ genesisTime h0 <= 150
    /\ totalUpTime (computeActive 150 h0) + totalDownTime (computeActive 150 h0)
       = 50
    /\ totalUpTime (computeActive 150 h0) + totalDownTime (computeActive 150 h0)
       <> 150 - genesisTime h0.
Proof.
  eexists. split; [reflexivity|]. vm_compute.
  repeat split; discriminate.
Qed.

(** The clock going back also breaks it: built at genesis, re-evaluated at
    100, at 50 and at 60, the totals add up to 110. *)
Example totals_with_clock_going_back :
  let h := run (mkInfo 5000000000 0 0 0 0 false 0 0 "" "" true 0 0)
             [CallComputeActive 100; CallComputeActive 50;
              CallComputeActive 60] in
  totalUpTime h + totalDownTime h = 110.
Proof. reflexivity. Qed.

(** And so does a span beyond the range of a [Duration]: [Sub] stops at
    the largest one. *)
Example totals_stop_at_largest_duration :
  let h := computeActive (2 ^ 63 + 10)
             (mkInfo 5000000000 0 0 0 0 false 0 0 "" "" true 0 0) in
  totalUpTime h + totalDownTime h = 2 ^ 63 - 1.
Proof. reflexivity. Qed.

(** C1, amended.  For a record built at clock reading [t0], after calls of
    [HeartbeatReceived] and [computeActive] at clock readings that never go
    back, a [computeActive] at a time [now] not before genesis leaves
    [totalUpTime + totalDownTime] equal to [now] minus the later of [t0]
    and [genesisTime], as long as that span fits a [Duration]. *)
Theorem totals_cover_time_since_construction :
  forall (d : Duration) (v : bool) (g t0 : Time) (h0 : heartbeatMessageInfo)
         (cs : list call) (now : Time),
    newHeartbeatMessageInfo d v g (Some t0) = inr h0 ->
    chronological t0 (cs ++ [CallComputeActive now]) = true ->
    g <= now ->
    now - Z.max t0 g <= time_maxDuration ->
    totalUpTime (computeActive now (run h0 cs))
    + totalDownTime (computeActive now (run h0 cs))
    = now - Z.max t0 g.
Proof.
  intros d v g t0 h0 cs now Hnew Hchr Hgen Hspan.
  destruct (newHeartbeatMessageInfo_fields _ _ _ _ _ Hnew)
    as (Hg & Hlut & Hup & Hdown & _).
  assert (Hacc0 : accounted t0 g h0).
  { unfold accounted. rewrite Hg, Hlut, Hup, Hdown. repeat split; lia. }
  destruct (run_accounted t0 g cs h0 t0 (CallComputeActive now) Hacc0
              ltac:(lia) Hchr Hspan) as [Hacc Hle].
  pose proof (step_accounted t0 g (run h0 cs) (CallComputeActive now)
                Hacc Hle Hspan) as (Hg' & _ & _ & _ & Hsum).
  pose proof (step_lastUptimeDowntime (run h0 cs) (CallComputeActive now))
    as Hl.
  simpl in Hsum, Hl, Hg'. rewrite Hsum, Hl.
  destruct Hacc as (Hgr & _).
  rewrite Hgr. destruct (Z.ltb_spec now g); lia.
Qed.

Lemma totals_cover_witness :
  newHeartbeatMessageInfo 5000000000 true 0 (Some 100)
  = inr (mkInfo 5000000000 0 0 0 0 false 0 0 "" "" true 100 0)
  /\ chronological 100
       ([CallHeartbeatReceived 120 1 1 "v1" "node"; CallComputeActive 130]
        ++ [CallComputeActive 150]) = true
  /\ totalUpTime
       (computeActive 150
          (run (mkInfo 5000000000 0 0 0 0 false 0 0 "" "" true 100 0)
             [CallHeartbeatReceived 120 1 1 "v1" "node"; CallComputeActive 130]))
     + totalDownTime
         (computeActive 150
            (run (mkInfo 5000000000 0 0 0 0 false 0 0 "" "" true 100 0)
               [CallHeartbeatReceived 120 1 1 "v1" "node";
                CallComputeActive 130]))
     = 150 - Z.max 100 0.
Proof.
  split; [reflexivity|]. split; [reflexivity|].
  apply (totals_cover_time_since_construction 5000000000 true 0 100 _
           [CallHeartbeatReceived 120 1 1 "v1" "node"; CallComputeActive 130]
           150 eq_refl eq_refl).
  - lia.
  - vm_compute. discriminate.
Defined.

End HeartbeatProperties.

(* ===================================================================== *)
(** * Properties of the ESDT contract *)
(* ===================================================================== *)

Section ESDTProperties.

Import ESDT.
Local Open Scope string_scope.
Local Open Scope Z_scope.

(** ** The library functions behave as in Go *)

Example SetBytes_1000 : SetBytes (Bytes 1000) = 1000.
Proof. reflexivity. Qed.

Example Bytes_1000 : EncodeToString (Bytes 1000) = "03e8".
Proof. reflexivity. Qed.

Example Bytes_zero : Bytes 0 = "".
Proof. reflexivity. Qed.

Example Bytes_boundaries :
  (SetBytes (Bytes 255), String.length (Bytes 255),
   SetBytes (Bytes 256), String.length (Bytes 256),
   SetBytes (Bytes 18446744073709551616),
   String.length (Bytes 18446744073709551616))
  = (255, 1%nat, 256, 2%nat, 18446744073709551616, 9%nat).
Proof. vm_compute. reflexivity. Qed.

Example EncodeToString_name : EncodeToString "ABC123" = "414243313233".
Proof. reflexivity. Qed.

Example readable_ABC123 : isTokenNameHumanReadable "ABC123" = true.
Proof. reflexivity. Qed.

Example unreadable_underscore : isTokenNameHumanReadable "ABC_123" = false.
Proof. reflexivity. Qed.

Example testMarshalizer_roundtrip :
  testUnmarshalToken aliceTokenBytes = inr aliceToken.
Proof. vm_compute. reflexivity. Qed.

Example aliceStorage_lookup :
  getExistingToken testContract "ALICETOKEN" (contextWith aliceStorage 100)
  = inr aliceToken.
Proof. vm_compute. reflexivity. Qed.

(** ** Reading the store *)

Lemma getExistingToken_storage (e : esdt) (k : bytes) (st1 st2 : vmContext) :
  storage st1 = storage st2 ->
  getExistingToken e k st1 = getExistingToken e k st2.
Proof.
  intros H. unfold getExistingToken, GetStorage. rewrite H. reflexivity.
Qed.

Lemma getESDTConfig_storage (e : esdt) (st1 st2 : vmContext) :
  storage st1 = storage st2 -> getESDTConfig e st1 = getESDTConfig e st2.
Proof.
  intros H. unfold getESDTConfig, GetStorage. rewrite H. reflexivity.
Qed.

Lemma UseGas_enough (gas : Z) (st : vmContext) :
  gas <= gasRemaining st ->
  UseGas gas st
  = (None, mkContext (storage st) (gasRemaining st - gas) (returnMessages st)
             (transfers st) (globalSettings st) (output st)).
Proof.
  intros H. unfold UseGas.
  destruct (Z.ltb_spec (gasRemaining st) gas); [lia|reflexivity].
Qed.

Lemma UseGas_short (gas : Z) (st : vmContext) :
  gasRemaining st < gas -> UseGas gas st = (Some ErrNotEnoughGas, st).
Proof.
  intros H. unfold UseGas.
  destruct (Z.ltb_spec (gasRemaining st) gas); [reflexivity|lia].
Qed.

Lemma getESDTConfig_absent (e : esdt) (st : vmContext) :
  storage st !! configKeyPrefix = None ->
  getESDTConfig e st
  = inr (mkESDTConfig (ownerAddress e) (baseIssuingCost e) 10 20).
Proof.
  intros H. unfold getESDTConfig, GetStorage. rewrite H. reflexivity.
Qed.

(** C10. With no configuration record in storage, [getESDTConfig] returns
    no error but the built-in configuration: the constructor's owner and
    base issuing cost, name lengths from 10 to 20.  [issue] then works with
    these: it refuses names shorter than 10 or longer than 20 and asks for
    the constructor's base issuing cost. *)
Theorem getESDTConfig_defaults_without_record :
  forall (e : esdt) (transferName : string)
         (transferError : vmContext -> transfer -> option error)
         (st : vmContext),
    storage st !! configKeyPrefix = None ->
    getESDTConfig e st
    = inr {| cfgOwnerAddress := ownerAddress e;
             BaseIssuingCost := baseIssuingCost e;
             MinTokenNameLength := 10;
             MaxTokenNameLength := 20 |}
    /\ forall args : ContractCallInput,
         (2 <= length (Arguments args))%nat ->
         ESDTIssue e <= gasRemaining st ->
         (len (Argument args 0) < 10 \/ 20 < len (Argument args 0) ->
          fst (issue e transferName transferError args st)
          = FunctionWrongSignature)
         /\ (10 <= len (Argument args 0) <= 20 ->
             CallValue args <> baseIssuingCost e ->
             fst (issue e transferName transferError args st) = OutOfFunds).
Proof.
  intros e tn te st Habsent. split; [apply getESDTConfig_absent, Habsent|].
  intros args Hn Hgas. unfold issue.
  destruct (Nat.ltb_spec (length (Arguments args)) 2); [lia|].
  rewrite UseGas_enough by exact Hgas.
  rewrite getESDTConfig_absent by exact Habsent. simpl.
  split.
  - intros Hlen.
    destruct (Z.ltb_spec (len (Argument args 0)) 10);
      destruct (Z.ltb_spec 20 (len (Argument args 0))); simpl;
      try reflexivity; lia.
  - intros Hlen Hvalue.
    destruct (Z.ltb_spec (len (Argument args 0)) 10); [lia|].
    destruct (Z.ltb_spec 20 (len (Argument args 0))); [lia|]. simpl.
    destruct (Z.eqb_spec (CallValue args) (baseIssuingCost e)); [lia|].
    reflexivity.
Qed.

Lemma getESDTConfig_defaults_witness :
  storage (contextWith ∅ 100) !! configKeyPrefix = None
  /\ getESDTConfig testContract (contextWith ∅ 100)
     = inr (mkESDTConfig "contract-owner" 5000 10 20).
Proof.
  split; [reflexivity|].
  apply (getESDTConfig_defaults_without_record testContract "ESDTTransfer"
           noTransferError (contextWith ∅ 100)).
  reflexivity.
Defined.

(** ** [burn] *)

(** C5. [burn] saves the token with the larger [BurntValue] before it
    charges gas: when every check passes and the gas charge fails, the
    call returns [OutOfGas] and the storage holds the saved record, the
    token as it was read except for [BurntValue], which is the old value
    plus the amount burnt. *)
Theorem burn_out_of_gas_keeps_burnt_value :
  forall (e : esdt) (args : ContractCallInput) (st : vmContext)
         (token : ESDTData) (data : bytes),
    length (Arguments args) = 2%nat ->
    CallValue args = 0 ->
    0 < SetBytes (Argument args 1) ->
    getExistingToken e (Argument args 0) st = inr token ->
    Burnable token = true ->
    MarshalToken (marshalizer e)
      {| OwnerAddress := OwnerAddress token;
         TokenName := TokenName token;
         MintedValue := MintedValue token;
         BurntValue := BurntValue token + SetBytes (Argument args 1);
         Burnable := Burnable token;
         Mintable := Mintable token;
         CanPause := CanPause token;
         CanFreeze := CanFreeze token;
         CanWipe := CanWipe token;
         Upgradable := Upgradable token;
         CanChangeOwner := CanChangeOwner token;
         IsPaused := IsPaused token |}
    = inr data ->
    gasRemaining st < GasProvided args ->
    fst (burn e args st) = OutOfGas
    /\ storage (snd (burn e args st))
       = <[TokenName token := data]> (storage st)
    /\ GetStorage (TokenName token) (snd (burn e args st)) = data
    /\ gasRemaining (snd (burn e args st)) = gasRemaining st.
Proof.
  intros e args st token data Hn Hvalue Hburnt Htoken Hburnable Hmarshal Hgas.
  unfold burn. rewrite Hn, Hvalue. simpl.
  destruct (Z.leb_spec (SetBytes (Argument args 1)) 0); [lia|].
  rewrite Htoken, Hburnable. simpl.
  unfold saveToken, set_BurntValue. cbn [TokenName]. rewrite Hmarshal.
  rewrite UseGas_short by (simpl; exact Hgas).
  simpl. repeat split.
  unfold GetStorage. simpl. rewrite lookup_insert_eq. reflexivity.
Qed.

Lemma burn_out_of_gas_witness :
  getExistingToken testContract "ALICETOKEN" (contextWith aliceStorage 100)
  = inr (mkESDTData "alice" "ALICETOKEN" 1000 0 true true true true true true
           true false)
  /\ fst (burn testContract
            (mkInput "carol" ["ALICETOKEN"; Bytes 7] 0 500 "esdt-sc-address")
            (contextWith aliceStorage 100)) = OutOfGas
  /\ getExistingToken testContract "ALICETOKEN"
       (snd (burn testContract
               (mkInput "carol" ["ALICETOKEN"; Bytes 7] 0 500 "esdt-sc-address")
               (contextWith aliceStorage 100)))
     = inr (mkESDTData "alice" "ALICETOKEN" 1000 7 true true true true true
              true true false).
Proof.
  split; [vm_compute; reflexivity|].
  pose proof (burn_out_of_gas_keeps_burnt_value testContract
    (mkInput "carol" ["ALICETOKEN"; Bytes 7] 0 500 "esdt-sc-address")
    (contextWith aliceStorage 100) aliceToken
    (match testMarshalToken
             (mkESDTData "alice" "ALICETOKEN" 1000 7 true true true true true
                true true false) with
     | inr d => d | inl _ => "" end)
    eq_refl eq_refl eq_refl eq_refl eq_refl eq_refl eq_refl)
    as (Hcode & _ & Hget & _).
  split; [exact Hcode|].
  unfold getExistingToken. simpl TokenName in Hget.
  change (Argument _ 0) with "ALICETOKEN" in *.
  rewrite Hget. vm_compute. reflexivity.
Defined.

(** ** The owner check *)

Lemma basicOwnershipChecks_not_owner (e : esdt) (args : ContractCallInput)
    (st : vmContext) (token : ESDTData) :
  CallValue args = 0 ->
  ESDTOperations e <= gasRemaining st ->
  getExistingToken e (Argument args 0) st = inr token ->
  OwnerAddress token <> CallerAddr args ->
  basicOwnershipChecks e args st = (inl UserError, refusedContext e st).
Proof.
  intros Hvalue Hgas Htoken Hother. unfold basicOwnershipChecks.
  rewrite Hvalue. simpl. rewrite UseGas_enough by exact Hgas.
  erewrite getExistingToken_storage; [rewrite Htoken|reflexivity].
  destruct (String.eqb_spec (OwnerAddress token) (CallerAddr args));
    [contradiction|reflexivity].
Qed.

(** C3, counterexample: on a pausable token owned by [alice], [pause]
    called by [bob] is refused with "can be called by owner only", and the
    same call by [alice] goes through. *)
Lemma togglePause_refuses_other_callers :
  CanPause aliceToken = true
  /\ togglePause testContract "ESDTPause" "ESDTUnPause"
       (mkInput "bob" ["ALICETOKEN"] 0 0 "esdt-sc-address") "ESDTPause"
       (contextWith aliceStorage 100)
     = (UserError,
        mkContext aliceStorage 90 [Text "can be called by owner only"]
          [] [] [])
  /\ fst (togglePause testContract "ESDTPause" "ESDTUnPause"
            (mkInput "alice" ["ALICETOKEN"] 0 0 "esdt-sc-address") "ESDTPause"
            (contextWith aliceStorage 100))
     = Ok.
Proof. vm_compute. repeat split. Qed.

(** With an argument too many the call stops at the count, before the
    owner is looked at. *)
Example togglePause_argument_count_first :
  fst (togglePause testContract "ESDTPause" "ESDTUnPause"
         (mkInput "bob" ["ALICETOKEN"; "x"] 0 0 "esdt-sc-address") "ESDTPause"
         (contextWith aliceStorage 100))
  = FunctionWrongSignature.
Proof. reflexivity. Qed.

(** C3, amended.  [togglePause] checks the owner like the other changing
    operations.  For a call with no value attached, enough gas and a token
    whose owner is not the caller: each of [togglePause], [mint],
    [toggleFreeze], [wipe], [transferOwnership] and [esdtControlChanges],
    given a number of arguments it accepts, returns [UserError] with "can
    be called by owner only", charges the gas of the operation and leaves
    the storage as it was, whatever the capabilities of the token; given
    any other number of arguments it returns [FunctionWrongSignature]
    before it looks at the owner, and changes nothing but the messages. *)
Theorem owner_check_in_every_changing_operation :
  forall (e : esdt) (transferName wipeName pauseName unPauseName : string)
         (transferError : vmContext -> transfer -> option error)
         (args : ContractCallInput) (st : vmContext) (token : ESDTData),
    CallValue args = 0 ->
    ESDTOperations e <= gasRemaining st ->
    getExistingToken e (Argument args 0) st = inr token ->
    OwnerAddress token <> CallerAddr args ->
    let n := length (Arguments args) in
    storage (refusedContext e st) = storage st
    /\ (n = 1%nat ->
        forall builtInFunc : string,
          togglePause e pauseName unPauseName args builtInFunc st
          = (UserError, refusedContext e st))
    /\ (n = 2%nat \/ n = 3%nat ->
        mint e transferName transferError args st
        = (UserError, refusedContext e st))
    /\ (n = 2%nat ->
        forall builtInFunc : string,
          toggleFreeze e transferError args builtInFunc st
          = (UserError, refusedContext e st))
    /\ (n = 2%nat ->
        wipe e wipeName transferError args st
        = (UserError, refusedContext e st))
    /\ (n = 2%nat ->
        transferOwnership e args st = (UserError, refusedContext e st))
    /\ ((2 <= n)%nat ->
        esdtControlChanges e args st = (UserError, refusedContext e st))
    /\ (n <> 1%nat ->
        forall builtInFunc : string,
          togglePause e pauseName unPauseName args builtInFunc st
          = abort FunctionWrongSignature
              (Text "invalid number of arguments, wanted 1") st)
    /\ ((n < 2)%nat \/ (3 < n)%nat ->
        mint e transferName transferError args st
        = abort FunctionWrongSignature (Text "accepted arguments number 2/3")
            st)
    /\ (n <> 2%nat ->
        forall builtInFunc : string,
          toggleFreeze e transferError args builtInFunc st
          = abort FunctionWrongSignature
              (Text "invalid number of arguments, wanted 2") st)
    /\ (n <> 2%nat ->
        wipe e wipeName transferError args st
        = abort FunctionWrongSignature
            (Text "invalid number of arguments, wanted 2") st)
    /\ (n <> 2%nat ->
        transferOwnership e args st
        = abort FunctionWrongSignature (Text "expected num of arguments 2") st)
    /\ ((n < 2)%nat ->
        esdtControlChanges e args st
        = abort FunctionWrongSignature (Text "not enough arguments") st).
Proof.
  intros e tn wn pn un te args st token Hvalue Hgas Htoken Hother n.
  pose proof (basicOwnershipChecks_not_owner e args st token
                Hvalue Hgas Htoken Hother) as Hcheck.
  subst n. split; [reflexivity|].
  repeat match goal with |- _ /\ _ => split end.
  - intros Hn f. unfold togglePause. rewrite Hn, Hcheck. reflexivity.
  - intros Hn. unfold mint. rewrite Hcheck.
    destruct Hn as [-> | ->]; reflexivity.
  - intros Hn f. unfold toggleFreeze. rewrite Hn, Hcheck. reflexivity.
  - intros Hn. unfold wipe. rewrite Hn, Hcheck. reflexivity.
  - intros Hn. unfold transferOwnership. rewrite Hn, Hcheck. reflexivity.
  - intros Hn. unfold esdtControlChanges. rewrite Hcheck.
    destruct (Nat.ltb_spec (length (Arguments args)) 2); [lia|reflexivity].
  - intros Hn f. unfold togglePause.
    destruct (Nat.eqb_spec (length (Arguments args)) 1);
      [contradiction|reflexivity].
  - intros Hn. unfold mint.
    destruct (Nat.ltb_spec (length (Arguments args)) 2);
      destruct (Nat.ltb_spec 3 (length (Arguments args)));
      try reflexivity; lia.
  - intros Hn f. unfold toggleFreeze.
    destruct (Nat.eqb_spec (length (Arguments args)) 2);
      [contradiction|reflexivity].
  - intros Hn. unfold wipe.
    destruct (Nat.eqb_spec (length (Arguments args)) 2);
      [contradiction|reflexivity].
  - intros Hn. unfold transferOwnership.
    destruct (Nat.eqb_spec (length (Arguments args)) 2);
      [contradiction|reflexivity].
  - intros Hn. unfold esdtControlChanges.
    destruct (Nat.ltb_spec (length (Arguments args)) 2); [reflexivity|lia].
Qed.

Lemma owner_check_witness :
  getExistingToken testContract
    (Argument (mkInput "bob" ["ALICETOKEN"] 0 0 "esdt-sc-address") 0)
    (contextWith aliceStorage 100) = inr aliceToken
  /\ OwnerAddress aliceToken <> "bob"
  /\ togglePause testContract "ESDTPause" "ESDTUnPause"
       (mkInput "bob" ["ALICETOKEN"] 0 0 "esdt-sc-address") "ESDTUnPause"
       (contextWith aliceStorage 100)
     = (UserError, refusedContext testContract (contextWith aliceStorage 100)).
Proof.
  split; [vm_compute; reflexivity|].
  split; [discriminate|].
  apply (owner_check_in_every_changing_operation testContract
           "ESDTTransfer" "ESDTWipe" "ESDTPause" "ESDTUnPause" noTransferError
           (mkInput "bob" ["ALICETOKEN"] 0 0 "esdt-sc-address")
           (contextWith aliceStorage 100) aliceToken).
  - reflexivity.
  - vm_compute. discriminate.
  - vm_compute. reflexivity.
  - discriminate.
  - reflexivity.
Defined.

(** ** [mint] writes before its last check *)

(** C4: [mint] by the owner of a mintable token, with a third argument
    that has not the length of an address.  The call returns [UserError]
    after the token was saved: the stored record has 1005 minted instead
    of 1000. *)
Theorem mint_user_error_after_save :
  let args :=
    mkInput "alice" ["ALICETOKEN"; Bytes 5; "x"] 0 0 "esdt-sc-address" in
  let st := contextWith aliceStorage 100 in
  let result := mint testContract "ESDTTransfer" noTransferError args st in
  getExistingToken testContract "ALICETOKEN" st = inr aliceToken
  /\ MintedValue aliceToken = 1000
  /\ fst result = UserError
  /\ returnMessages (snd result)
     = [Text "destination address of invalid length"]
  /\ getExistingToken testContract "ALICETOKEN" (snd result)
     = inr (set_MintedValue 1005 aliceToken)
  /\ storage (snd result) <> storage st.
Proof.
  cbv zeta. repeat split; try (vm_compute; reflexivity).
  intros H.
  apply (f_equal (fun m : gmap string string => m !! "ALICETOKEN")) in H.
  vm_compute in H. discriminate H.
Qed.

(** [transferOwnership] makes the same check on its second argument before
    it saves anything: the storage is unchanged. *)
Example transferOwnership_checks_before_save :
  transferOwnership testContract
    (mkInput "alice" ["ALICETOKEN"; "x"] 0 0 "esdt-sc-address")
    (contextWith aliceStorage 100)
  = (UserError,
     mkContext aliceStorage 90
       [Text "destination address of invalid length"] [] [] []).
Proof. vm_compute. reflexivity. Qed.

(** ** [issue] *)

(** C2, counterexample: with the configuration [init] stores, and also
    with no stored configuration, [issue] of ["ABC123"] with supply 1000
    and the base issuing cost attached returns [FunctionWrongSignature],
    the name being shorter than 10 bytes, and no record is stored. *)
Lemma issue_ABC123_refused_by_default_lengths :
  let args :=
    mkInput "alice" ["ABC123"; Bytes 1000] 5000 0 "esdt-sc-address" in
  let installed := init testContract (contextWith ∅ 1000) in
  fst installed = Ok
  /\ getESDTConfig testContract (snd installed)
     = inr (mkESDTConfig "contract-owner" 5000 10 20)
  /\ CallValue args = 5000
  /\ fst (issue testContract "ESDTTransfer" noTransferError args
            (snd installed)) = FunctionWrongSignature
  /\ storage (snd (issue testContract "ESDTTransfer" noTransferError args
                     (snd installed))) !! "ABC123" = None
  /\ fst (issue testContract "ESDTTransfer" noTransferError args
            (contextWith ∅ 1000)) = FunctionWrongSignature
  /\ storage (snd (issue testContract "ESDTTransfer" noTransferError args
                     (contextWith ∅ 1000))) !! "ABC123" = None.
Proof. vm_compute. repeat split. Qed.

(** C2, amended.  When the configuration in force admits names of 6 bytes
    (the built-in lengths, 10 to 20, do not), the gas covers the cost of
    issuing, nothing is stored under ["ABC123"], the marshalizer and the
    transfer do not fail: [issue] with the arguments ["ABC123"] and 1000
    and with the configured base issuing cost attached returns [Ok], and
    the storage holds under ["ABC123"] the marshalled record with the
    caller as owner, 1000 minted, 0 burnt, and every capability false
    except [Upgradable]. *)
Theorem issue_ABC123_when_length_admitted :
  forall (e : esdt) (transferName : string)
         (transferError : vmContext -> transfer -> option error)
         (args : ContractCallInput) (st : vmContext) (cfg : ESDTConfig)
         (data : bytes),
    Arguments args = ["ABC123"; Bytes 1000] ->
    ESDTIssue e <= gasRemaining st ->
    getESDTConfig e st = inr cfg ->
    MinTokenNameLength cfg <= 6 <= MaxTokenNameLength cfg ->
    CallValue args = BaseIssuingCost cfg ->
    GetStorage "ABC123" st = "" ->
    MarshalToken (marshalizer e) (tokenABC123 (CallerAddr args)) = inr data ->
    (forall s t, transferError s t = None) ->
    fst (issue e transferName transferError args st) = Ok
    /\ storage (snd (issue e transferName transferError args st)) !! "ABC123"
       = Some data.
Proof.
  intros e tn te args st cfg data Hargs Hgas Hcfg Hlen Hvalue Hfree Hmarshal
    Htransfer.
  assert (Hname : Argument args 0 = "ABC123")
    by (unfold Argument; rewrite Hargs; reflexivity).
  assert (Hsupply : SetBytes (nth 1 (Arguments args) "") = 1000)
    by (rewrite Hargs; reflexivity).
  assert (Hresult : exists st',
             issue e tn te args st = (Ok, st')
             /\ storage st' !! "ABC123" = Some data).
  { unfold issue.
    replace (length (Arguments args) <? 2)%nat with false
      by (rewrite Hargs; reflexivity).
    rewrite UseGas_enough by exact Hgas.
    erewrite getESDTConfig_storage; [rewrite Hcfg|reflexivity].
    rewrite Hname. change (len "ABC123") with 6.
    destruct (Z.ltb_spec 6 (MinTokenNameLength cfg)); [lia|].
    destruct (Z.ltb_spec (MaxTokenNameLength cfg) 6); [lia|].
    rewrite Hvalue, Z.eqb_refl. cbn [orb negb].
    unfold issueToken. rewrite Hsupply.
    change (1000 <=? 0) with false. cbv iota.
    replace (nth 0 (Arguments args) "") with "ABC123"
      by (rewrite Hargs; reflexivity).
    replace (skipn 2 (Arguments args)) with (@nil string)
      by (rewrite Hargs; reflexivity).
    replace (GetStorage "ABC123" _) with "" by (symmetry; exact Hfree).
    change (0 <? len "") with false.
    change (isTokenNameHumanReadable "ABC123") with true.
    cbn [negb upgradeProperties length Nat.eqb].
    unfold saveToken. cbn [TokenName].
    fold (tokenABC123 (CallerAddr args)). rewrite Hmarshal.
    unfold Transfer. rewrite Htransfer.
    eexists. split; [reflexivity|].
    unfold addToIssuedTokens, SetStorage, set_storage, GetStorage.
    cbn [storage].
    destruct (len _ =? 0); cbn [storage];
      (rewrite lookup_insert_ne by discriminate);
      apply lookup_insert_eq. }
  destruct Hresult as (st' & -> & Hstored). split; [reflexivity|exact Hstored].
Qed.

Lemma issue_ABC123_witness :
  let st :=
    snd (configChange testContract
           (mkInput "contract-owner"
              ["the-new-owner-0"; Bytes 5000; Bytes 3; Bytes 20] 0 0
              "esdt-sc-address")
           (contextWith ∅ 1000)) in
  let args :=
    mkInput "alice" ["ABC123"; Bytes 1000] 5000 0 "esdt-sc-address" in
  getESDTConfig testContract st
  = inr (mkESDTConfig "the-new-owner-0" 5000 3 20)
  /\ fst (issue testContract "ESDTTransfer" noTransferError args st) = Ok
  /\ getExistingToken testContract "ABC123"
       (snd (issue testContract "ESDTTransfer" noTransferError args st))
     = inr (mkESDTData "alice" "ABC123" 1000 0 false false false false false
              true false false).
Proof.
  cbv zeta. split; [vm_compute; reflexivity|].
  pose proof (issue_ABC123_when_length_admitted testContract "ESDTTransfer"
    noTransferError
    (mkInput "alice" ["ABC123"; Bytes 1000] 5000 0 "esdt-sc-address")
    (snd (configChange testContract
            (mkInput "contract-owner"
               ["the-new-owner-0"; Bytes 5000; Bytes 3; Bytes 20] 0 0
               "esdt-sc-address")
            (contextWith ∅ 1000)))
    (mkESDTConfig "the-new-owner-0" 5000 3 20)
    (match testMarshalToken (tokenABC123 "alice") with
     | inr d => d | inl _ => "" end)
    eq_refl) as Hissue.
  destruct Hissue as [Hcode Hstored].
  - vm_compute. discriminate.
  - vm_compute. reflexivity.
  - vm_compute. split; discriminate.
  - reflexivity.
  - vm_compute. reflexivity.
  - vm_compute. reflexivity.
  - intros s t. reflexivity.
  - split; [exact Hcode|].
    unfold getExistingToken, GetStorage. rewrite Hstored.
    vm_compute. reflexivity.
Defined.

End ESDTProperties.

(* ===================================================================== *)
(** * Further properties of the heartbeat record *)
(* ===================================================================== *)

Section HeartbeatSettlement.

Import Heartbeat.

Lemma updateTimes_maxDurationPeerUnresponsive t p h :
  maxDurationPeerUnresponsive (updateTimes t p h)
  = maxDurationPeerUnresponsive h.
Proof.
  unfold updateTimes, updateUpAndDownTime, updateMaxInactiveTimeDuration.
  repeat match goal with |- context [if ?c then _ else _] => destruct c end;
    reflexivity.
Qed.

Lemma updateTimes_isValidator t p h :
  isValidator (updateTimes t p h) = isValidator h.
Proof.
  unfold updateTimes, updateUpAndDownTime, updateMaxInactiveTimeDuration.
  repeat match goal with |- context [if ?c then _ else _] => destruct c end;
    reflexivity.
Qed.

Lemma updateTimes_timeStamp t p h :
  timeStamp (updateTimes t p h) = timeStamp h.
Proof.
  unfold updateTimes, updateUpAndDownTime, updateMaxInactiveTimeDuration.
  repeat match goal with |- context [if ?c then _ else _] => destruct c end;
    reflexivity.
Qed.

(** X1. [computeActive] only takes activity away: a record that is active
    after the call was active before it, and its last message is no older
    than the threshold. *)
Theorem computeActive_never_activates :
  forall (hbmi : heartbeatMessageInfo) (now : Time),
    isActive (computeActive now hbmi) = true ->
    isActive hbmi = true /\ computeValidDuration now hbmi = true.
Proof.
  intros hbmi now H. rewrite computeActive_isActive in H.
  apply andb_prop in H. exact H.
Qed.

Lemma computeActive_never_activates_witness :
  isActive (computeActive 2000000000 silent_peer) = true
  /\ isActive silent_peer = true.
Proof.
  split; [reflexivity|].
  apply (computeActive_never_activates silent_peer 2000000000).
  reflexivity.
Defined.

(** X2. A message keeps the peer active for the length of the threshold:
    after [HeartbeatReceived] at [t], a [computeActive] at a time [t']
    with [t'.Sub(t)] within a non-negative threshold finds the record
    active, whatever it held before the message. *)
Theorem active_within_threshold_of_message :
  forall (hbmi : heartbeatMessageInfo) (t t' : Time)
         (computedShardID receivedShardID : Z) (version name : string),
    0 <= maxDurationPeerUnresponsive hbmi ->
    Sub t' t <= maxDurationPeerUnresponsive hbmi ->
    isActive (computeActive t'
                (HeartbeatReceived t computedShardID receivedShardID version
                   name hbmi)) = true.
Proof.
  intros hbmi t t' c r v n Hthr Hwithin.
  rewrite computeActive_isActive.
  unfold HeartbeatReceived, updateFields, computeValidDuration.
  cbn [isActive timeStamp maxDurationPeerUnresponsive set_message].
  rewrite updateTimes_isActive, updateTimes_maxDurationPeerUnresponsive.
  cbn [isActive maxDurationPeerUnresponsive set_isActive].
  rewrite maxDuration_spec.
  destruct (Z.leb_spec (Z.max 0 (Sub t' t)) (maxDurationPeerUnresponsive hbmi));
    [reflexivity|lia].
Qed.

Lemma active_within_threshold_witness :
  isActive (computeActive 64000000000
              (HeartbeatReceived 60000000000 1 1 "v1" "node" silent_peer))
  = true.
Proof.
  apply (active_within_threshold_of_message silent_peer 60000000000
           64000000000 1 1 "v1" "node").
  - vm_compute. discriminate.
  - vm_compute. discriminate.
Defined.

(** X3. Nothing is accounted before genesis: a call at a time before
    [genesisTime] leaves both totals, [lastUptimeDowntime] and
    [maxInactiveTime] as they were. *)
Theorem no_accounting_before_genesis :
  forall (hbmi : heartbeatMessageInfo) (c : call),
    callTime c < genesisTime hbmi ->
    totalUpTime (step hbmi c) = totalUpTime hbmi
    /\ totalDownTime (step hbmi c) = totalDownTime hbmi
    /\ lastUptimeDowntime (step hbmi c) = lastUptimeDowntime hbmi
    /\ maxInactiveTime (step hbmi c) = maxInactiveTime hbmi.
Proof.
  intros hbmi c Hbefore.
  destruct c; simpl in *;
    unfold HeartbeatReceived, updateFields, computeActive; simpl;
    rewrite updateTimes_skipped by (simpl; lia); simpl; auto.
Qed.

Lemma no_accounting_before_genesis_witness :
  totalDownTime
    (step (mkInfo 5000000000 0 0 0 100 false 0 0 "" "" true 50 100)
       (CallHeartbeatReceived 70 1 1 "v1" "node")) = 0.
Proof.
  apply (no_accounting_before_genesis
           (mkInfo 5000000000 0 0 0 100 false 0 0 "" "" true 50 100)
           (CallHeartbeatReceived 70 1 1 "v1" "node")).
  simpl. lia.
Defined.

Lemma updateUpAndDownTime_maxInactiveTime p t h :
  maxInactiveTime (updateUpAndDownTime p t h) = maxInactiveTime h.
Proof.
  unfold updateUpAndDownTime.
  repeat match goal with |- context [if ?c then _ else _] => destruct c end;
    reflexivity.
Qed.

Lemma updateTimes_maxInactiveTime_value t p h :
  maxInactiveTime (updateTimes t p h)
  = if genesisTime h <? t
    then Z.max (maxInactiveTime h) (Z.max 0 (Sub t (timeStamp h)))
    else maxInactiveTime h.
Proof.
  unfold updateTimes. rewrite Sub_negative.
  destruct (Z.ltb_spec t (genesisTime h)).
  - destruct (Z.ltb_spec (genesisTime h) t); [lia|reflexivity].
  - rewrite updateUpAndDownTime_maxInactiveTime.
    unfold updateMaxInactiveTimeDuration.
    rewrite Sub_negative, maxDuration_spec.
    destruct (Z.ltb_spec (genesisTime h) t);
      destruct (Z.ltb_spec (maxInactiveTime h)
                  (Z.max 0 (Sub t (timeStamp h)))); simpl; lia.
Qed.

Lemma step_maxInactiveTime_value h c :
  maxInactiveTime (step h c)
  = if genesisTime h <? callTime c
    then Z.max (maxInactiveTime h) (Z.max 0 (Sub (callTime c) (timeStamp h)))
    else maxInactiveTime h.
Proof.
  destruct c; simpl; unfold HeartbeatReceived, updateFields, computeActive;
    cbn [maxInactiveTime set_message];
    rewrite updateTimes_maxInactiveTime_value; reflexivity.
Qed.

(** X4. [maxInactiveTime] is a running maximum: a call at a time strictly
    after genesis sets it to the larger of its old value and the time since
    the last message (not below zero); a call at or before genesis leaves
    it alone. *)
Theorem maxInactiveTime_running_maximum :
  forall (hbmi : heartbeatMessageInfo) (c : call),
    (genesisTime hbmi < callTime c ->
     maxInactiveTime (step hbmi c)
     = Z.max (maxInactiveTime hbmi)
         (Z.max 0 (Sub (callTime c) (timeStamp hbmi))))
    /\ (callTime c <= genesisTime hbmi ->
        maxInactiveTime (step hbmi c) = maxInactiveTime hbmi).
Proof.
  intros hbmi c. rewrite step_maxInactiveTime_value. split; intros H;
    destruct (Z.ltb_spec (genesisTime hbmi) (callTime c)); try lia;
    reflexivity.
Qed.

Lemma maxInactiveTime_running_maximum_witness :
  maxInactiveTime (step silent_peer (CallComputeActive 60000000000))
  = Z.max (maxInactiveTime silent_peer)
      (Z.max 0 (Sub 60000000000 (timeStamp silent_peer))).
Proof.
  apply (maxInactiveTime_running_maximum silent_peer
           (CallComputeActive 60000000000)).
  vm_compute. reflexivity.
Defined.

Lemma updateMaxInactiveTimeDuration_isActive t h :
  isActive (updateMaxInactiveTimeDuration t h) = isActive h.
Proof.
  unfold updateMaxInactiveTimeDuration.
  match goal with |- context [if ?c then _ else _] => destruct c end;
    reflexivity.
Qed.

(** The interval a settlement at [t] closes: from the later of
    [lastUptimeDowntime] and [genesisTime] up to [t], never negative. *)
Lemma updateUpAndDownTime_settles p t h :
  let d := Z.max 0 (Sub t (Z.max (lastUptimeDowntime h) (genesisTime h))) in
  let h' := updateUpAndDownTime p t h in
  totalUpTime h'
  = (if p && isActive h then addDuration (totalUpTime h) d
     else totalUpTime h)
  /\ totalDownTime h'
     = (if p && isActive h then totalDownTime h
        else addDuration (totalDownTime h) d).
Proof.
  cbv zeta. unfold updateUpAndDownTime. rewrite Sub_negative.
  destruct (Z.ltb_spec (lastUptimeDowntime h) (genesisTime h));
    cbn [lastUptimeDowntime set_lastUptimeDowntime genesisTime isActive
         totalUpTime totalDownTime];
    rewrite maxDuration_spec;
    [replace (Z.max (lastUptimeDowntime h) (genesisTime h))
       with (genesisTime h) by lia
    |replace (Z.max (lastUptimeDowntime h) (genesisTime h))
       with (lastUptimeDowntime h) by lia];
    destruct (p && isActive h); simpl; auto.
Qed.

Lemma updateTimes_settles t p h :
  genesisTime h <= t ->
  let d := Z.max 0 (Sub t (Z.max (lastUptimeDowntime h) (genesisTime h))) in
  totalUpTime (updateTimes t p h)
  = (if p && isActive h then addDuration (totalUpTime h) d
     else totalUpTime h)
  /\ totalDownTime (updateTimes t p h)
     = (if p && isActive h then totalDownTime h
        else addDuration (totalDownTime h) d).
Proof.
  intros Hgen. cbv zeta. unfold updateTimes. rewrite Sub_negative.
  destruct (Z.ltb_spec t (genesisTime h)); [lia|].
  destruct (updateMaxInactiveTimeDuration_fields t h) as (El & Eg & Eu & Ed).
  pose proof (updateUpAndDownTime_settles p t
                (updateMaxInactiveTimeDuration t h)) as Hs.
  cbv zeta in Hs.
  rewrite El, Eg, Eu, Ed, updateMaxInactiveTimeDuration_isActive in Hs.
  exact Hs.
Qed.

Lemma settle_step h c :
  genesisTime h <= callTime c ->
  totalUpTime (step h c)
  = (if isActive h && computeValidDuration (callTime c) h
     then addDuration (totalUpTime h)
            (Z.max 0 (Sub (callTime c)
                        (Z.max (lastUptimeDowntime h) (genesisTime h))))
     else totalUpTime h)
  /\ totalDownTime (step h c)
     = (if isActive h && computeValidDuration (callTime c) h
        then totalDownTime h
        else addDuration (totalDownTime h)
               (Z.max 0 (Sub (callTime c)
                           (Z.max (lastUptimeDowntime h) (genesisTime h))))).
Proof.
  intros Hgen.
  destruct c; simpl in *; unfold HeartbeatReceived, updateFields, computeActive;
    cbn [totalUpTime totalDownTime set_message].
  - pose proof (updateTimes_settles crtTime
                  (isActive h && computeValidDuration crtTime h)
                  (set_isActive true h) Hgen) as Hs.
    cbv zeta in Hs. cbn [isActive set_isActive] in Hs.
    rewrite andb_true_r in Hs. exact Hs.
  - pose proof (updateTimes_settles crtTime
                  (isActive h && computeValidDuration crtTime h)
                  (set_isActive
                     (isActive h && computeValidDuration crtTime h) h)
                  Hgen) as Hs.
    cbv zeta in Hs. cbn [isActive set_isActive] in Hs.
    rewrite andb_diag in Hs. exact Hs.
Qed.

(** X5. Both entry points settle an interval in the same way.  A call at
    a time [t] not before genesis adds the time from the later of
    [lastUptimeDowntime] and [genesisTime] to [t] (zero if that is
    negative) to [totalUpTime] when the record was active and its last
    message is within the threshold, and to [totalDownTime] otherwise; the
    other total is unchanged.  So a message that ends a silence counts the
    whole silence as down-time. *)
Theorem settlement_rule :
  forall (hbmi : heartbeatMessageInfo) (c : call),
    genesisTime hbmi <= callTime c ->
    let d := Z.max 0 (Sub (callTime c)
                        (Z.max (lastUptimeDowntime hbmi) (genesisTime hbmi))) in
    let up := isActive hbmi && computeValidDuration (callTime c) hbmi in
    totalUpTime (step hbmi c)
    = (if up then addDuration (totalUpTime hbmi) d else totalUpTime hbmi)
    /\ totalDownTime (step hbmi c)
       = (if up then totalDownTime hbmi
          else addDuration (totalDownTime hbmi) d).
Proof.
  intros hbmi c Hgen. cbv zeta. apply settle_step. exact Hgen.
Qed.

Lemma settlement_rule_witness :
  totalDownTime
    (step silent_peer (CallHeartbeatReceived 60000000000 1 1 "v1" "node"))
  = 59000000000
  /\ totalUpTime
       (step silent_peer (CallHeartbeatReceived 60000000000 1 1 "v1" "node"))
     = 0.
Proof.
  destruct (settlement_rule silent_peer
              (CallHeartbeatReceived 60000000000 1 1 "v1" "node"))
    as [Hup Hdown].
  - vm_compute. discriminate.
  - split; [rewrite Hdown|rewrite Hup]; reflexivity.
Defined.

Lemma wrap64_idempotent (z : Z) : wrap64 (wrap64 z + 0) = wrap64 z.
Proof.
  rewrite Z.add_0_r. apply wrap64_small.
  unfold wrap64, time_minDuration, time_maxDuration.
  pose proof (Z.mod_pos_bound (z + 2 ^ 63) (2 ^ 64) ltac:(lia)). lia.
Qed.

Lemma heartbeatMessageInfo_eq (a b : heartbeatMessageInfo) :
  maxDurationPeerUnresponsive a = maxDurationPeerUnresponsive b ->
  maxInactiveTime a = maxInactiveTime b ->
  totalUpTime a = totalUpTime b ->
  totalDownTime a = totalDownTime b ->
  timeStamp a = timeStamp b ->
  isActive a = isActive b ->
  receivedShardID a = receivedShardID b ->
  computedShardID a = computedShardID b ->
  versionNumber a = versionNumber b ->
  nodeDisplayName a = nodeDisplayName b ->
  isValidator a = isValidator b ->
  lastUptimeDowntime a = lastUptimeDowntime b ->
  genesisTime a = genesisTime b ->
  a = b.
Proof. destruct a, b; simpl; intros; subst; reflexivity. Qed.

Lemma updateTimes_identity_fields t p h :
  receivedShardID (updateTimes t p h) = receivedShardID h
  /\ computedShardID (updateTimes t p h) = computedShardID h
  /\ versionNumber (updateTimes t p h) = versionNumber h
  /\ nodeDisplayName (updateTimes t p h) = nodeDisplayName h.
Proof.
  unfold updateTimes, updateUpAndDownTime, updateMaxInactiveTimeDuration.
  repeat match goal with |- context [if ?c then _ else _] => destruct c end;
    simpl; auto.
Qed.

Lemma computeValidDuration_computeActive t t' h :
  computeValidDuration t' (computeActive t h) = computeValidDuration t' h.
Proof.
  unfold computeValidDuration, computeActive.
  rewrite updateTimes_timeStamp, updateTimes_maxDurationPeerUnresponsive.
  reflexivity.
Qed.

Lemma computeActive_genesisTime t h :
  genesisTime (computeActive t h) = genesisTime h.
Proof. unfold computeActive. rewrite updateTimes_genesisTime. reflexivity. Qed.

Lemma computeActive_timeStamp t h :
  timeStamp (computeActive t h) = timeStamp h.
Proof. unfold computeActive. rewrite updateTimes_timeStamp. reflexivity. Qed.

Lemma computeActive_lastUptimeDowntime t h :
  genesisTime h <= t -> lastUptimeDowntime (computeActive t h) = t.
Proof.
  intros H. unfold computeActive.
  rewrite updateTimes_lastUptimeDowntime; [reflexivity|exact H].
Qed.

Lemma computeActive_maxInactiveTime_value t h :
  maxInactiveTime (computeActive t h)
  = if genesisTime h <? t
    then Z.max (maxInactiveTime h) (Z.max 0 (Sub t (timeStamp h)))
    else maxInactiveTime h.
Proof.
  unfold computeActive. rewrite updateTimes_maxInactiveTime_value.
  reflexivity.
Qed.

Lemma computeActive_settles t h :
  genesisTime h <= t ->
  let d := Z.max 0 (Sub t (Z.max (lastUptimeDowntime h) (genesisTime h))) in
  let up := isActive h && computeValidDuration t h in
  totalUpTime (computeActive t h)
  = (if up then addDuration (totalUpTime h) d else totalUpTime h)
  /\ totalDownTime (computeActive t h)
     = (if up then totalDownTime h else addDuration (totalDownTime h) d).
Proof.
  intros Hgen. cbv zeta. unfold computeActive.
  pose proof (updateTimes_settles t
                (isActive h && computeValidDuration t h)
                (set_isActive (isActive h && computeValidDuration t h) h)
                Hgen) as Hs.
  cbv zeta in Hs. cbn [isActive set_isActive] in *.
  rewrite andb_diag in Hs. exact Hs.
Qed.

(** X6. Re-evaluating twice at the same instant is the same as doing it
    once: the second [computeActive] finds an empty interval and changes
    no field, so no time is counted twice. *)
Theorem computeActive_idempotent :
  forall (hbmi : heartbeatMessageInfo) (now : Time),
    computeActive now (computeActive now hbmi) = computeActive now hbmi.
Proof.
  intros hbmi now.
  pose proof (computeActive_genesisTime now hbmi) as Hgen1.
  pose proof (computeActive_timeStamp now hbmi) as Hts1.
  pose proof (computeActive_lastUptimeDowntime now hbmi) as Hl1.
  pose proof (computeActive_maxInactiveTime_value now hbmi) as Hm1.
  pose proof (computeActive_isActive hbmi now) as Ha1.
  pose proof (computeValidDuration_computeActive now now hbmi) as Hv1.
  pose proof (computeActive_settles now hbmi) as Hs1. cbv zeta in Hs1.
  remember (computeActive now hbmi) as h1 eqn:Eh1.
  assert (Hact : isActive h1 && computeValidDuration now h1 = isActive h1).
  { rewrite Hv1, Ha1.
    destruct (isActive hbmi), (computeValidDuration now hbmi); reflexivity. }
  assert (Hzero : Z.max 0 (Sub now now) = 0)
    by (rewrite Sub_exact, Z.sub_diag;
        unfold time_minDuration, time_maxDuration; lia).
  pose proof (computeActive_settles now h1) as Hs2. cbv zeta in Hs2.
  rewrite Hact, Hgen1 in Hs2.
  apply heartbeatMessageInfo_eq.
  - unfold computeActive.
    rewrite updateTimes_maxDurationPeerUnresponsive. reflexivity.
  - rewrite computeActive_maxInactiveTime_value, Hts1, Hgen1, Hm1.
    destruct (genesisTime hbmi <? now); lia.
  - destruct (Z.lt_ge_cases now (genesisTime hbmi)) as [Hskip|Hrun].
    + unfold computeActive. rewrite updateTimes_skipped
        by (simpl; rewrite Hgen1; exact Hskip). reflexivity.
    + destruct (Hs2 Hrun) as [Hup _]. rewrite Hup.
      rewrite (Hl1 Hrun).
      replace (Z.max now (genesisTime hbmi)) with now by lia.
      rewrite Hzero. destruct (isActive h1) eqn:Ha; [|reflexivity].
      destruct (Hs1 Hrun) as [Hup1 _]. rewrite <- Ha1 in Hup1.
      rewrite Hup1. unfold addDuration. apply wrap64_idempotent.
  - destruct (Z.lt_ge_cases now (genesisTime hbmi)) as [Hskip|Hrun].
    + unfold computeActive. rewrite updateTimes_skipped
        by (simpl; rewrite Hgen1; exact Hskip). reflexivity.
    + destruct (Hs2 Hrun) as [_ Hdown]. rewrite Hdown.
      rewrite (Hl1 Hrun).
      replace (Z.max now (genesisTime hbmi)) with now by lia.
      rewrite Hzero. destruct (isActive h1) eqn:Ha; [reflexivity|].
      destruct (Hs1 Hrun) as [_ Hdown1]. rewrite <- Ha1 in Hdown1.
      rewrite Hdown1. unfold addDuration. apply wrap64_idempotent.
  - apply computeActive_timeStamp.
  - rewrite computeActive_isActive. exact Hact.
  - unfold computeActive.
    destruct (updateTimes_identity_fields now
      (isActive (set_isActive (isActive h1 && computeValidDuration now h1) h1))
      (set_isActive (isActive h1 && computeValidDuration now h1) h1))
      as (E & _). rewrite E. reflexivity.
  - unfold computeActive.
    destruct (updateTimes_identity_fields now
      (isActive (set_isActive (isActive h1 && computeValidDuration now h1) h1))
      (set_isActive (isActive h1 && computeValidDuration now h1) h1))
      as (_ & E & _). rewrite E. reflexivity.
  - unfold computeActive.
    destruct (updateTimes_identity_fields now
      (isActive (set_isActive (isActive h1 && computeValidDuration now h1) h1))
      (set_isActive (isActive h1 && computeValidDuration now h1) h1))
      as (_ & _ & E & _). rewrite E. reflexivity.
  - unfold computeActive.
    destruct (updateTimes_identity_fields now
      (isActive (set_isActive (isActive h1 && computeValidDuration now h1) h1))
      (set_isActive (isActive h1 && computeValidDuration now h1) h1))
      as (_ & _ & _ & E). rewrite E. reflexivity.
  - unfold computeActive. rewrite updateTimes_isValidator. reflexivity.
  - destruct (Z.lt_ge_cases now (genesisTime hbmi)) as [Hskip|Hrun].
    + unfold computeActive. rewrite updateTimes_skipped
        by (simpl; rewrite Hgen1; exact Hskip). reflexivity.
    + rewrite computeActive_lastUptimeDowntime
        by (rewrite Hgen1; exact Hrun).
      symmetry. exact (Hl1 Hrun).
  - apply computeActive_genesisTime.
Qed.

(** X7. The threshold, the genesis time and the validator flag of a record
    never change, whatever calls are made on it. *)
Theorem configuration_is_immutable :
  forall (hbmi : heartbeatMessageInfo) (cs : list call),
    maxDurationPeerUnresponsive (run hbmi cs)
    = maxDurationPeerUnresponsive hbmi
    /\ genesisTime (run hbmi cs) = genesisTime hbmi
    /\ isValidator (run hbmi cs) = isValidator hbmi.
Proof.
  intros hbmi cs. induction cs as [|c cs IH] using rev_ind.
  - auto.
  - rewrite run_snoc. destruct IH as (IH1 & IH2 & IH3).
    rewrite <- IH1, <- IH2, <- IH3.
    destruct c; simpl; unfold HeartbeatReceived, updateFields, computeActive;
      cbn [maxDurationPeerUnresponsive genesisTime isValidator set_message];
      rewrite updateTimes_maxDurationPeerUnresponsive,
        updateTimes_genesisTime, updateTimes_isValidator; auto.
Qed.

Lemma step_live thr g m l h c :
  live thr g m l h ->
  l <= callTime c -> callTime c - m <= thr ->
  totalUpTime h + (callTime c - l) <= time_maxDuration ->
  live thr g
    (match c with
     | CallHeartbeatReceived t _ _ _ _ => t
     | CallComputeActive _ => m
     end) (callTime c) (step h c)
  /\ totalUpTime (step h c) = totalUpTime h + (callTime c - l)
  /\ totalDownTime (step h c) = totalDownTime h.
Proof.
  intros (Ha & Hm & Hl & Hg & Hthr & Hgl & Hml & Hup) Hlt Hwithin Hfit.
  assert (Hvalid : computeValidDuration (callTime c) h = true).
  { unfold computeValidDuration. rewrite maxDuration_spec, Hm, Hthr.
    assert (Sub (callTime c) m <= callTime c - m).
    { unfold Sub, time_minDuration, time_maxDuration.
      destruct (Z.ltb_spec (callTime c - m) (- 2 ^ 63)); [lia|].
      destruct (Z.ltb_spec (2 ^ 63 - 1) (callTime c - m)); lia. }
    destruct (Z.leb_spec (Z.max 0 (Sub (callTime c) m)) thr);
      [reflexivity|lia]. }
  assert (Hd : Z.max 0 (Sub (callTime c)
                          (Z.max (lastUptimeDowntime h) (genesisTime h)))
               = callTime c - l).
  { rewrite Hl, Hg. replace (Z.max l g) with l by lia.
    rewrite Sub_exact
      by (unfold time_minDuration, time_maxDuration in *; lia). lia. }
  destruct (settle_step h c ltac:(lia)) as [Eup Edown].
  rewrite Ha, Hvalid, Hd in Eup, Edown. cbn [andb] in Eup, Edown.
  unfold addDuration in Eup.
  rewrite wrap64_small in Eup
    by (unfold time_minDuration, time_maxDuration in *; lia).
  split; [|split; [exact Eup|exact Edown]].
  pose proof (step_genesisTime h c) as Eg.
  pose proof (step_lastUptimeDowntime h c) as El.
  destruct (Z.ltb_spec (callTime c) (genesisTime h)); [lia|].
  unfold live. rewrite Eup, Eg, El.
  destruct c; simpl in *; unfold HeartbeatReceived, updateFields, computeActive;
    cbn [isActive timeStamp maxDurationPeerUnresponsive set_message];
    rewrite ?updateTimes_isActive, ?updateTimes_timeStamp,
      ?updateTimes_maxDurationPeerUnresponsive;
    cbn [isActive timeStamp maxDurationPeerUnresponsive set_isActive];
    rewrite ?Ha, ?Hvalid; repeat split; simpl; lia.
Qed.

Lemma steady_lastCallTime thr cs :
  forall m l, steady thr m l cs = true -> l <= lastCallTime l cs.
Proof.
  induction cs as [|c cs IH]; intros m l H; simpl in *; [unfold lastCallTime; simpl; lia|].
  apply andb_prop in H. destruct H as [H Hrest].
  apply andb_prop in H. destruct H as [Hle _]. apply Z.leb_le in Hle.
  specialize (IH _ _ Hrest). unfold lastCallTime in *. simpl. lia.
Qed.

Lemma run_live thr g cs :
  forall h m l,
    live thr g m l h ->
    steady thr m l cs = true ->
    totalUpTime h + (lastCallTime l cs - l) <= time_maxDuration ->
    isActive (run h cs) = true
    /\ totalUpTime (run h cs) = totalUpTime h + (lastCallTime l cs - l)
    /\ totalDownTime (run h cs) = totalDownTime h.
Proof.
  induction cs as [|c cs IH]; intros h m l Hlive Hsteady Hfit.
  - unfold lastCallTime. simpl. destruct Hlive as (Ha & _).
    repeat split; [exact Ha|lia].
  - simpl in Hsteady. apply andb_prop in Hsteady.
    destruct Hsteady as [H Hrest]. apply andb_prop in H.
    destruct H as [Hle Hwithin].
    apply Z.leb_le in Hle. apply Z.leb_le in Hwithin.
    pose proof (steady_lastCallTime _ _ _ _ Hrest) as Hmono.
    change (lastCallTime l (c :: cs)) with (lastCallTime (callTime c) cs)
      in *.
    assert (Hup0 : 0 <= totalUpTime h)
      by (destruct Hlive as (_ & _ & _ & _ & _ & _ & _ & H0); exact H0).
    destruct (step_live thr g m l h c Hlive Hle Hwithin ltac:(lia))
      as (Hlive' & Eup & Edown).
    change (run h (c :: cs)) with (run (step h c) cs).
    destruct (IH _ _ _ Hlive' Hrest ltac:(rewrite Eup; lia))
      as (Ha' & Eup' & Edown').
    repeat split; [exact Ha'|rewrite Eup', Eup; lia|rewrite Edown', Edown; lia].
Qed.

(** X8. A peer that never falls silent is credited nothing but up-time.
    For an active record whose accounting stands at or after genesis, and
    calls at clock readings that never go back, each at most the threshold
    after the latest message: the record stays active, [totalUpTime] grows
    by exactly the time from [lastUptimeDowntime] to the last call, and
    [totalDownTime] does not change (as long as the total fits a
    [Duration]). *)
Theorem steady_peer_gets_up_time :
  forall (hbmi : heartbeatMessageInfo) (cs : list call),
    isActive hbmi = true ->
    genesisTime hbmi <= lastUptimeDowntime hbmi ->
    timeStamp hbmi <= lastUptimeDowntime hbmi ->
    0 <= totalUpTime hbmi ->
    steady (maxDurationPeerUnresponsive hbmi) (timeStamp hbmi)
      (lastUptimeDowntime hbmi) cs = true ->
    totalUpTime hbmi
    + (lastCallTime (lastUptimeDowntime hbmi) cs - lastUptimeDowntime hbmi)
    <= time_maxDuration ->
    isActive (run hbmi cs) = true
    /\ totalUpTime (run hbmi cs)
       = totalUpTime hbmi
         + (lastCallTime (lastUptimeDowntime hbmi) cs
            - lastUptimeDowntime hbmi)
    /\ totalDownTime (run hbmi cs) = totalDownTime hbmi.
Proof.
  intros hbmi cs Ha Hg Hm Hup Hsteady Hfit.
  apply (run_live (maxDurationPeerUnresponsive hbmi) (genesisTime hbmi) cs
           hbmi (timeStamp hbmi) (lastUptimeDowntime hbmi)).
  - unfold live. repeat split; assumption.
  - exact Hsteady.
  - exact Hfit.
Qed.

Lemma steady_peer_witness :
  totalUpTime
    (run silent_peer
       [CallHeartbeatReceived 3000000000 1 1 "v1" "node";
        CallComputeActive 7000000000;
        CallHeartbeatReceived 8000000000 1 1 "v1" "node";
        CallComputeActive 12000000000])
  = 0 + (12000000000 - 1000000000).
Proof.
  apply (steady_peer_gets_up_time silent_peer
           [CallHeartbeatReceived 3000000000 1 1 "v1" "node";
            CallComputeActive 7000000000;
            CallHeartbeatReceived 8000000000 1 1 "v1" "node";
            CallComputeActive 12000000000]).
  - reflexivity.
  - vm_compute. discriminate.
  - vm_compute. discriminate.
  - vm_compute. discriminate.
  - reflexivity.
  - vm_compute. discriminate.
Defined.

End HeartbeatSettlement.

(* ===================================================================== *)
(** * Further properties of the ESDT contract *)
(* ===================================================================== *)

Section ESDTOperations.

Import ESDT.
Local Open Scope string_scope.
Local Open Scope Z_scope.

(** ** Optional properties *)

Lemma upgradeProperties_loop_keeps (n : nat) :
  forall (args : list string) (token token' : ESDTData),
    (length args <= n)%nat ->
    upgradeProperties_loop token args = inr token' ->
    OwnerAddress token' = OwnerAddress token
    /\ TokenName token' = TokenName token
    /\ MintedValue token' = MintedValue token
    /\ BurntValue token' = BurntValue token
    /\ IsPaused token' = IsPaused token.
Proof.
  induction n as [|n IH]; intros args token token' Hlen Hloop.
  - destruct args; [|simpl in Hlen; lia].
    simpl in Hloop. injection Hloop as <-. auto.
  - destruct args as [|a [|b rest]];
      try (simpl in Hloop; injection Hloop as <-; auto; fail).
    simpl in Hloop, Hlen.
    destruct (checkAndGetSetting b) as [err|val]; [discriminate|].
    repeat match type of Hloop with
           | (if ?c then _ else _) = _ => destruct c
           end;
      try discriminate;
      apply IH in Hloop; try lia; simpl in Hloop; exact Hloop.
Qed.

(** X9. The optional properties are capabilities only: when
    [upgradeProperties] succeeds, the owner, the name, the minted and burnt
    values and the pause state of the token are what they were. *)
Theorem upgradeProperties_keeps_identity_and_supply :
  forall (token token' : ESDTData) (args : list string),
    upgradeProperties token args = inr token' ->
    OwnerAddress token' = OwnerAddress token
    /\ TokenName token' = TokenName token
    /\ MintedValue token' = MintedValue token
    /\ BurntValue token' = BurntValue token
    /\ IsPaused token' = IsPaused token.
Proof.
  intros token token' args H. unfold upgradeProperties in H.
  destruct (length args =? 0)%nat; [injection H as <-; auto|].
  destruct (negb _); [discriminate|].
  exact (upgradeProperties_loop_keeps (length args) args token token'
           (Nat.le_refl _) H).
Qed.

Lemma upgradeProperties_keeps_witness :
  upgradeProperties aliceToken [canPause; "false"; mintable; "false"]
  = inr (mkESDTData "alice" "ALICETOKEN" 1000 0 true false false true true
           true true false)
  /\ MintedValue (mkESDTData "alice" "ALICETOKEN" 1000 0 true false false
                     true true true true false)
     = MintedValue aliceToken.
Proof.
  split; [reflexivity|].
  apply (upgradeProperties_keeps_identity_and_supply aliceToken
           (mkESDTData "alice" "ALICETOKEN" 1000 0 true false false true true
              true true false)
           [canPause; "false"; mintable; "false"]).
  reflexivity.
Defined.

(** Each optional property sets the capability it names, and no other. *)
Example upgradeProperties_sets_named_flag :
  let none :=
    mkESDTData "alice" "ALICETOKEN" 1000 0 false false false false false
      false false false in
  map (fun name => upgradeProperties none [name; "true"])
    [burnable; mintable; canPause; canFreeze; canWipe; upgradable;
     canChangeOwner]
  = [inr (mkESDTData "alice" "ALICETOKEN" 1000 0 true false false false false
            false false false);
     inr (mkESDTData "alice" "ALICETOKEN" 1000 0 false true false false false
            false false false);
     inr (mkESDTData "alice" "ALICETOKEN" 1000 0 false false true false false
            false false false);
     inr (mkESDTData "alice" "ALICETOKEN" 1000 0 false false false true false
            false false false);
     inr (mkESDTData "alice" "ALICETOKEN" 1000 0 false false false false true
            false false false);
     inr (mkESDTData "alice" "ALICETOKEN" 1000 0 false false false false false
            true false false);
     inr (mkESDTData "alice" "ALICETOKEN" 1000 0 false false false false false
            false true false)].
Proof. reflexivity. Qed.

(** A setting that is neither ["true"] nor ["false"], a name that is no
    property, and an odd number of arguments are errors. *)
Example upgradeProperties_errors :
  (upgradeProperties aliceToken [canPause; "yes"],
   upgradeProperties aliceToken ["canFly"; "true"],
   upgradeProperties aliceToken [canPause; "true"; mintable])
  = (inl ErrInvalidArgument, inl ErrInvalidArgument,
     inl ErrInvalidNumOfArguments).
Proof. reflexivity. Qed.

(** ** What a call leaves in the storage *)

Lemma length_zero_empty (b : string) : len b = 0 -> b = "".
Proof. destruct b; [reflexivity|unfold len; simpl; lia]. Qed.

Lemma basicOwnershipChecks_storage (e : esdt) (args : ContractCallInput)
    (st : vmContext) :
  storage (snd (basicOwnershipChecks e args st)) = storage st.
Proof.
  unfold basicOwnershipChecks, UseGas.
  repeat match goal with
         | |- context [if ?c then _ else _] => destruct c
         | |- context [match ?x with _ => _ end] => destruct x
         end; reflexivity.
Qed.

(** What [basicOwnershipChecks] has established when it hands out a
    token. *)
Lemma basicOwnershipChecks_token (e : esdt) (args : ContractCallInput)
    (st st' : vmContext) (token : ESDTData) :
  basicOwnershipChecks e args st = (inr token, st') ->
  CallValue args = 0
  /\ ESDTOperations e <= gasRemaining st
  /\ getExistingToken e (Argument args 0) st = inr token
  /\ OwnerAddress token = CallerAddr args
  /\ st' = mkContext (storage st) (gasRemaining st - ESDTOperations e)
             (returnMessages st) (transfers st) (globalSettings st)
             (output st).
Proof.
  unfold basicOwnershipChecks, UseGas.
  destruct (Z.eqb_spec (CallValue args) 0); [|discriminate]. simpl.
  destruct (Z.ltb_spec (gasRemaining st) (ESDTOperations e)); [discriminate|].
  erewrite (getExistingToken_storage e _ _ st) by reflexivity.
  destruct (getExistingToken e (Argument args 0) st) as [err|tok];
    [discriminate|].
  destruct (String.eqb_spec (OwnerAddress tok) (CallerAddr args));
    [|discriminate].
  intros [= <- <-]. auto.
Qed.

(** X10. [toggleFreeze] and [wipe] never write to the storage of the
    contract, whatever they return: freezing and wiping only send a
    transfer to the account concerned. *)
Theorem toggleFreeze_wipe_leave_storage :
  forall (e : esdt) (wipeName : string)
         (transferError : vmContext -> transfer -> option error)
         (args : ContractCallInput) (builtInFunc : string) (st : vmContext),
    storage (snd (toggleFreeze e transferError args builtInFunc st))
    = storage st
    /\ storage (snd (wipe e wipeName transferError args st)) = storage st.
Proof.
  intros e wn te args f st.
  pose proof (basicOwnershipChecks_storage e args st) as Hb.
  split.
  - unfold toggleFreeze.
    destruct (negb _); [reflexivity|].
    destruct (basicOwnershipChecks e args st) as [[rc|tok] st1];
      simpl in Hb; [exact Hb|].
    destruct (negb (CanFreeze tok)); [exact Hb|].
    unfold Transfer. cbv zeta. destruct (te st1 _); simpl; exact Hb.
  - unfold wipe.
    destruct (negb _); [reflexivity|].
    destruct (basicOwnershipChecks e args st) as [[rc|tok] st1];
      simpl in Hb; [exact Hb|].
    destruct (negb (CanWipe tok)); [exact Hb|].
    destruct (negb (len _ =? len _)); [exact Hb|].
    unfold Transfer. cbv zeta. destruct (te st1 _); simpl; exact Hb.
Qed.

Ltac failed_or_ok Hb :=
  simpl; intros Hfail; try exact Hb; try reflexivity;
  try (exfalso; apply Hfail; reflexivity).

(** X11. [togglePause], [transferOwnership], [esdtControlChanges] and
    [configChange] write only when they succeed: whenever one of them
    returns a code other than [Ok], the storage is what it was. *)
Theorem failed_change_leaves_storage :
  forall (e : esdt) (pauseName unPauseName : string)
         (args : ContractCallInput) (builtInFunc : string) (st : vmContext),
    (fst (togglePause e pauseName unPauseName args builtInFunc st) <> Ok ->
     storage (snd (togglePause e pauseName unPauseName args builtInFunc st))
     = storage st)
    /\ (fst (transferOwnership e args st) <> Ok ->
        storage (snd (transferOwnership e args st)) = storage st)
    /\ (fst (esdtControlChanges e args st) <> Ok ->
        storage (snd (esdtControlChanges e args st)) = storage st)
    /\ (fst (configChange e args st) <> Ok ->
        storage (snd (configChange e args st)) = storage st).
Proof.
  intros e pn un args f st.
  pose proof (basicOwnershipChecks_storage e args st) as Hb.
  split; [|split; [|split]].
  - unfold togglePause.
    destruct (negb _); [reflexivity|].
    destruct (basicOwnershipChecks e args st) as [[rc|tok] st1];
      simpl in Hb; [intros _; exact Hb|].
    destruct (negb (CanPause tok)); [intros _; exact Hb|].
    destruct (IsPaused tok && _); [intros _; exact Hb|].
    destruct (negb (IsPaused tok) && _); [intros _; exact Hb|].
    unfold saveToken. destruct (MarshalToken _ _); failed_or_ok Hb.
  - unfold transferOwnership.
    destruct (negb _); [reflexivity|].
    destruct (basicOwnershipChecks e args st) as [[rc|tok] st1];
      simpl in Hb; [intros _; exact Hb|].
    destruct (negb (CanChangeOwner tok)); [intros _; exact Hb|].
    destruct (negb (len _ =? len _)); [intros _; exact Hb|].
    unfold saveToken. destruct (MarshalToken _ _); failed_or_ok Hb.
  - unfold esdtControlChanges.
    destruct (length (Arguments args) <? 2)%nat; [reflexivity|].
    destruct (basicOwnershipChecks e args st) as [[rc|tok] st1];
      simpl in Hb; [intros _; exact Hb|].
    destruct (negb (Upgradable tok)); [intros _; exact Hb|].
    destruct (upgradeProperties tok _); [intros _; exact Hb|].
    unfold saveToken. destruct (MarshalToken _ _); failed_or_ok Hb.
  - unfold configChange, UseGas.
    destruct (negb (CallerAddr args =? ownerAddress e)%string);
      [reflexivity|].
    destruct (negb (CallValue args =? 0)); [reflexivity|].
    destruct (gasRemaining st <? ESDTOperations e); [reflexivity|].
    destruct (negb (length (Arguments args) =? 4)%nat); [reflexivity|].
    cbv zeta. cbn [cfgOwnerAddress BaseIssuingCost MinTokenNameLength
                   MaxTokenNameLength].
    destruct (negb (len _ =? len _)); [reflexivity|].
    destruct (SetBytes (Argument args 1) <? 0); [reflexivity|].
    destruct (_ <? _); [reflexivity|].
    unfold saveESDTConfig. destruct (MarshalConfig _ _);
      simpl; intros Hfail; [reflexivity|exfalso; apply Hfail; reflexivity].
Qed.

Lemma failed_change_witness :
  storage
    (snd (togglePause testContract "ESDTPause" "ESDTUnPause"
            (mkInput "alice" ["ALICETOKEN"] 0 0 "esdt-sc-address")
            "ESDTUnPause" (contextWith aliceStorage 100)))
  = storage (contextWith aliceStorage 100).
Proof.
  apply (failed_change_leaves_storage testContract "ESDTPause" "ESDTUnPause"
           (mkInput "alice" ["ALICETOKEN"] 0 0 "esdt-sc-address")
           "ESDTUnPause" (contextWith aliceStorage 100)).
  vm_compute. discriminate.
Defined.

(** ** [issue] *)

Lemma issueToken_outcome (e : esdt) (tn : string)
    (te : vmContext -> transfer -> option error) (owner : string)
    (arguments : list string) (st : vmContext) :
  match issueToken e tn te owner arguments st with
  | (None, st') =>
      0 < SetBytes (nth 1 arguments "")
      /\ GetStorage (nth 0 arguments "") st = ""
      /\ isTokenNameHumanReadable (nth 0 arguments "") = true
      /\ gasRemaining st' = gasRemaining st
  | (Some _, st') =>
      gasRemaining st' = gasRemaining st
      /\ ((forall s t, te s t = None) -> storage st' = storage st)
  end.
Proof.
  unfold issueToken.
  destruct (Z.leb_spec (SetBytes (nth 1 arguments "")) 0); [auto|].
  destruct (Z.ltb_spec 0 (len (GetStorage (nth 0 arguments "") st)));
    [auto|].
  destruct (isTokenNameHumanReadable (nth 0 arguments "")) eqn:Hread;
    [|simpl; auto].
  cbn [negb].
  destruct (upgradeProperties _ _) as [err|tok]; [auto|].
  unfold saveToken. destruct (MarshalToken _ _) as [err|data]; [auto|].
  unfold Transfer. cbv zeta.
  destruct (te _ _) eqn:Hte.
  - split; [reflexivity|]. intros Hnone. rewrite Hnone in Hte. discriminate.
  - repeat split; try lia.
    + apply length_zero_empty. unfold len in *. lia.
    + unfold addToIssuedTokens. destruct (len _ =? 0); reflexivity.
Qed.

(** X12. An [issue] that returns [Ok] has passed every check: at least two
    arguments, gas for the cost of issuing, a name within the configured
    lengths, the configured base issuing cost attached, a positive supply,
    a name made of letters and digits, and no record stored under the
    name before; it has charged the cost of issuing and no more.  In
    particular [issue] never replaces a registered token. *)
Theorem issue_Ok_only_after_every_check :
  forall (e : esdt) (transferName : string)
         (transferError : vmContext -> transfer -> option error)
         (args : ContractCallInput) (st : vmContext),
    fst (issue e transferName transferError args st) = Ok ->
    (2 <= length (Arguments args))%nat
    /\ ESDTIssue e <= gasRemaining st
    /\ (exists cfg : ESDTConfig,
          getESDTConfig e st = inr cfg
          /\ MinTokenNameLength cfg <= len (Argument args 0)
             <= MaxTokenNameLength cfg
          /\ CallValue args = BaseIssuingCost cfg)
    /\ 0 < SetBytes (Argument args 1)
    /\ isTokenNameHumanReadable (Argument args 0) = true
    /\ GetStorage (Argument args 0) st = ""
    /\ gasRemaining (snd (issue e transferName transferError args st))
       = gasRemaining st - ESDTIssue e.
Proof.
  intros e tn te args st. unfold issue, UseGas.
  destruct (Nat.ltb_spec (length (Arguments args)) 2); [discriminate|].
  destruct (Z.ltb_spec (gasRemaining st) (ESDTIssue e)); [discriminate|].
  erewrite (getESDTConfig_storage e _ st) by reflexivity.
  destruct (getESDTConfig e st) as [err|cfg]; [discriminate|].
  destruct (Z.ltb_spec (len (Argument args 0)) (MinTokenNameLength cfg));
    [discriminate|].
  destruct (Z.ltb_spec (MaxTokenNameLength cfg) (len (Argument args 0)));
    [discriminate|].
  cbn [orb].
  destruct (Z.eqb_spec (CallValue args) (BaseIssuingCost cfg));
    [|discriminate].
  cbn [negb].
  pose proof (issueToken_outcome e tn te (CallerAddr args) (Arguments args)
    (mkContext (storage st) (gasRemaining st - ESDTIssue e)
       (returnMessages st) (transfers st) (globalSettings st) (output st)))
    as Hout.
  destruct (issueToken _ _ _ _ _ _) as [[err|] st']; [discriminate|].
  intros _. destruct Hout as (Hsupply & Hfree & Hread & Hgas).
  repeat split; try assumption; try lia.
  exists cfg. repeat split; try assumption; lia.
Qed.

Lemma issue_Ok_witness :
  fst (issue testContract "ESDTTransfer" noTransferError
         (mkInput "alice" ["ALICETOKEN2"; Bytes 1000] 5000 0 "esdt-sc-address")
         (contextWith aliceStorage 100)) = Ok
  /\ GetStorage "ALICETOKEN2" (contextWith aliceStorage 100) = "".
Proof.
  split; [vm_compute; reflexivity|].
  apply (issue_Ok_only_after_every_check testContract "ESDTTransfer"
           noTransferError
           (mkInput "alice" ["ALICETOKEN2"; Bytes 1000] 5000 0
              "esdt-sc-address")
           (contextWith aliceStorage 100)).
  vm_compute. reflexivity.
Defined.

(** X13. When the environment refuses no transfer, an [issue] that does
    not return [Ok] stores nothing: the storage is what it was. *)
Theorem failed_issue_leaves_storage :
  forall (e : esdt) (transferName : string)
         (transferError : vmContext -> transfer -> option error)
         (args : ContractCallInput) (st : vmContext),
    (forall s t, transferError s t = None) ->
    fst (issue e transferName transferError args st) <> Ok ->
    storage (snd (issue e transferName transferError args st)) = storage st.
Proof.
  intros e tn te args st Hte. unfold issue, UseGas.
  destruct (length (Arguments args) <? 2)%nat; [reflexivity|].
  destruct (gasRemaining st <? ESDTIssue e); [reflexivity|].
  destruct (getESDTConfig e _); [reflexivity|].
  destruct (_ || _); [reflexivity|].
  destruct (negb _); [reflexivity|].
  pose proof (issueToken_outcome e tn te (CallerAddr args) (Arguments args)
    (mkContext (storage st) (gasRemaining st - ESDTIssue e)
       (returnMessages st) (transfers st) (globalSettings st) (output st)))
    as Hout.
  destruct (issueToken _ _ _ _ _ _) as [[err|] st'].
  - intros _. destruct Hout as [_ Hst]. simpl. exact (Hst Hte).
  - intros Hfail. exfalso. apply Hfail. reflexivity.
Qed.

Lemma failed_issue_witness :
  storage
    (snd (issue testContract "ESDTTransfer" noTransferError
            (mkInput "bob" ["ALICETOKEN"; Bytes 1000] 5000 0 "esdt-sc-address")
            (contextWith aliceStorage 100)))
  = storage (contextWith aliceStorage 100).
Proof.
  apply (failed_issue_leaves_storage testContract "ESDTTransfer"
           noTransferError
           (mkInput "bob" ["ALICETOKEN"; Bytes 1000] 5000 0 "esdt-sc-address")
           (contextWith aliceStorage 100)).
  - intros s t. reflexivity.
  - vm_compute. discriminate.
Defined.

(** ** Operations that succeed *)

Lemma UseGas_charged (gas : Z) (st : vmContext) :
  gas <= gasRemaining st -> UseGas gas st = (None, charged gas st).
Proof. intros H. rewrite UseGas_enough by exact H. reflexivity. Qed.

Lemma basicOwnershipChecks_owner (e : esdt) (args : ContractCallInput)
    (st : vmContext) (token : ESDTData) :
  CallValue args = 0 ->
  ESDTOperations e <= gasRemaining st ->
  getExistingToken e (Argument args 0) st = inr token ->
  OwnerAddress token = CallerAddr args ->
  basicOwnershipChecks e args st = (inr token, charged (ESDTOperations e) st).
Proof.
  intros Hvalue Hgas Htoken Howner. unfold basicOwnershipChecks.
  rewrite Hvalue. simpl. rewrite UseGas_charged by exact Hgas.
  erewrite getExistingToken_storage; [rewrite Htoken|reflexivity].
  rewrite Howner, String.eqb_refl. reflexivity.
Qed.

Lemma getExistingToken_stored (e : esdt) (name data : string)
    (st : vmContext) (token : ESDTData) :
  storage st !! name = Some data ->
  data <> "" ->
  UnmarshalToken (marshalizer e) data = inr token ->
  getExistingToken e name st = inr token.
Proof.
  intros Hlookup Hdata Hun. unfold getExistingToken, GetStorage.
  rewrite Hlookup. simpl.
  destruct data; [contradiction|]. exact Hun.
Qed.

Lemma getExistingToken_lookup (e : esdt) (name : string) (st : vmContext)
    (token : ESDTData) :
  getExistingToken e name st = inr token ->
  storage st !! name = Some (GetStorage name st).
Proof.
  unfold getExistingToken, GetStorage.
  destruct (storage st !! name); simpl; [reflexivity|discriminate].
Qed.

(** X14. [burn] asks neither who calls nor how much was minted: for any
    caller and any positive amount, on a burnable token, with no value
    attached and gas for [GasProvided], it returns [Ok], stores the token
    as it was read except for [BurntValue], which is the old value plus
    the amount, and charges the whole of [GasProvided]. *)
Theorem burn_by_anyone_of_any_amount :
  forall (e : esdt) (args : ContractCallInput) (st : vmContext)
         (token : ESDTData) (data : string),
    length (Arguments args) = 2%nat ->
    CallValue args = 0 ->
    0 < SetBytes (Argument args 1) ->
    getExistingToken e (Argument args 0) st = inr token ->
    Burnable token = true ->
    MarshalToken (marshalizer e)
      {| OwnerAddress := OwnerAddress token;
         TokenName := TokenName token;
         MintedValue := MintedValue token;
         BurntValue := BurntValue token + SetBytes (Argument args 1);
         Burnable := Burnable token;
         Mintable := Mintable token;
         CanPause := CanPause token;
         CanFreeze := CanFreeze token;
         CanWipe := CanWipe token;
         Upgradable := Upgradable token;
         CanChangeOwner := CanChangeOwner token;
         IsPaused := IsPaused token |}
    = inr data ->
    GasProvided args <= gasRemaining st ->
    burn e args st
    = (Ok, charged (GasProvided args)
             (SetStorage (TokenName token) data st)).
Proof.
  intros e args st token data Hn Hvalue Hburnt Htoken Hburnable Hmarshal Hgas.
  unfold burn. rewrite Hn, Hvalue. simpl.
  destruct (Z.leb_spec (SetBytes (Argument args 1)) 0); [lia|].
  rewrite Htoken, Hburnable. simpl.
  unfold saveToken, set_BurntValue. cbn [TokenName]. rewrite Hmarshal.
  rewrite UseGas_charged by (simpl; exact Hgas). reflexivity.
Qed.

Lemma burn_by_anyone_witness :
  getExistingToken testContract "ALICETOKEN" (contextWith aliceStorage 100)
  = inr (mkESDTData "alice" "ALICETOKEN" 1000 0 true true true true true true
           true false)
  /\ fst (burn testContract
            (mkInput "carol" ["ALICETOKEN"; Bytes 5000] 0 40 "esdt-sc-address")
            (contextWith aliceStorage 100)) = Ok
  /\ gasRemaining
       (snd (burn testContract
               (mkInput "carol" ["ALICETOKEN"; Bytes 5000] 0 40
                  "esdt-sc-address")
               (contextWith aliceStorage 100))) = 60
  /\ getExistingToken testContract "ALICETOKEN"
       (snd (burn testContract
               (mkInput "carol" ["ALICETOKEN"; Bytes 5000] 0 40
                  "esdt-sc-address")
               (contextWith aliceStorage 100)))
     = inr (mkESDTData "alice" "ALICETOKEN" 1000 5000 true true true true
              true true true false).
Proof.
  split; [vm_compute; reflexivity|].
  rewrite (burn_by_anyone_of_any_amount testContract
    (mkInput "carol" ["ALICETOKEN"; Bytes 5000] 0 40 "esdt-sc-address")
    (contextWith aliceStorage 100) aliceToken
    (match testMarshalToken
             (mkESDTData "alice" "ALICETOKEN" 1000 5000 true true true true
                true true true false) with
     | inr d => d | inl _ => "" end)
    eq_refl eq_refl eq_refl eq_refl eq_refl eq_refl).
  - repeat split; vm_compute; reflexivity.
  - vm_compute. discriminate.
Defined.

(** ** Pausing *)

Lemma togglePause_toggles (e : esdt) (pn un : string)
    (args : ContractCallInput) (f : string) (st : vmContext)
    (token : ESDTData) (data : string) :
  length (Arguments args) = 1%nat ->
  CallValue args = 0 ->
  ESDTOperations e <= gasRemaining st ->
  getExistingToken e (Argument args 0) st = inr token ->
  OwnerAddress token = CallerAddr args ->
  CanPause token = true ->
  IsPaused token && (f =? pn)%string = false ->
  negb (IsPaused token) && (f =? un)%string = false ->
  MarshalToken (marshalizer e) (set_IsPaused (negb (IsPaused token)) token)
  = inr data ->
  togglePause e pn un args f st
  = (Ok, SendGlobalSettingToAll (eSDTSCAddress e)
           (f +:+ "@" +:+ EncodeToString (TokenName token))
           (SetStorage (TokenName token) data
              (charged (ESDTOperations e) st))).
Proof.
  intros Hn Hvalue Hgas Htoken Howner Hcan Hp Hu Hmarshal.
  unfold togglePause. rewrite Hn. simpl.
  rewrite (basicOwnershipChecks_owner e args st token Hvalue Hgas Htoken
             Howner).
  rewrite Hcan, Hp, Hu. simpl.
  unfold saveToken. rewrite Hmarshal. reflexivity.
Qed.

(** X15. Pausing and un-pausing by the owner undo each other.  For a
    pausable, un-paused token stored under its own name, with a
    marshalizer that reads back what it wrote: [pause] returns [Ok] and
    the stored token is paused; [unPause] then returns [Ok] and the
    storage is again what it was before the two calls. *)
Theorem pause_then_unPause_restores_storage :
  forall (e : esdt) (pauseName unPauseName : string)
         (args : ContractCallInput) (st : vmContext) (token : ESDTData)
         (paused : string),
    pauseName <> unPauseName ->
    length (Arguments args) = 1%nat ->
    CallValue args = 0 ->
    0 <= ESDTOperations e ->
    2 * ESDTOperations e <= gasRemaining st ->
    getExistingToken e (Argument args 0) st = inr token ->
    MarshalToken (marshalizer e) token
    = inr (GetStorage (Argument args 0) st) ->
    TokenName token = Argument args 0 ->
    OwnerAddress token = CallerAddr args ->
    CanPause token = true ->
    IsPaused token = false ->
    MarshalToken (marshalizer e) (set_IsPaused true token) = inr paused ->
    paused <> "" ->
    UnmarshalToken (marshalizer e) paused = inr (set_IsPaused true token) ->
    let first := togglePause e pauseName unPauseName args pauseName st in
    let second :=
      togglePause e pauseName unPauseName args unPauseName (snd first) in
    fst first = Ok
    /\ getExistingToken e (Argument args 0) (snd first)
       = inr (set_IsPaused true token)
    /\ fst second = Ok
    /\ storage (snd second) = storage st.
Proof.
  intros e pn un args st token paused Hne Hn Hvalue Hcost Hgas Htoken Hstored
    Hname Howner Hcan Hunpaused Hmarshal Hpaused Hback.
  assert (Hneq : (pn =? un)%string = false)
    by (destruct (String.eqb_spec pn un); [contradiction|reflexivity]).
  assert (Hneq' : (un =? pn)%string = false)
    by (rewrite String.eqb_sym; exact Hneq).
  cbv zeta.
  rewrite (togglePause_toggles e pn un args pn st token paused Hn Hvalue
             ltac:(lia) Htoken Howner Hcan
             ltac:(rewrite Hunpaused; reflexivity)
             ltac:(rewrite Hunpaused, Hneq; reflexivity)
             ltac:(rewrite Hunpaused; exact Hmarshal)).
  cbn [fst snd].
  set (st1 := SendGlobalSettingToAll _ _ _).
  assert (Htoken1 : getExistingToken e (Argument args 0) st1
                    = inr (set_IsPaused true token)).
  { apply (getExistingToken_stored e _ paused); [|exact Hpaused|exact Hback].
    subst st1. simpl. rewrite Hname. apply lookup_insert_eq. }
  assert (Hrestored : set_IsPaused (negb true) (set_IsPaused true token)
                      = token)
    by (destruct token; simpl in *; subst; reflexivity).
  rewrite (togglePause_toggles e pn un args un st1 (set_IsPaused true token)
             (GetStorage (Argument args 0) st) Hn Hvalue
             ltac:(subst st1; simpl; lia) Htoken1 Howner Hcan
             ltac:(simpl; exact Hneq') ltac:(reflexivity)
             ltac:(cbn [IsPaused set_IsPaused]; rewrite Hrestored;
                   exact Hstored)).
  repeat split; [exact Htoken1|].
  subst st1. cbn [snd]. simpl. rewrite Hname.
  rewrite insert_insert_eq. apply insert_id.
  apply (getExistingToken_lookup e _ _ token). exact Htoken.
Qed.

Lemma pause_then_unPause_witness :
  let args := mkInput "alice" ["ALICETOKEN"] 0 0 "esdt-sc-address" in
  let first :=
    togglePause testContract "ESDTPause" "ESDTUnPause" args "ESDTPause"
      (contextWith aliceStorage 100) in
  fst first = Ok
  /\ storage
       (snd (togglePause testContract "ESDTPause" "ESDTUnPause" args
               "ESDTUnPause" (snd first)))
     = aliceStorage.
Proof.
  cbv zeta.
  pose proof (pause_then_unPause_restores_storage testContract
    "ESDTPause" "ESDTUnPause"
    (mkInput "alice" ["ALICETOKEN"] 0 0 "esdt-sc-address")
    (contextWith aliceStorage 100) aliceToken
    (match testMarshalToken (set_IsPaused true aliceToken) with
     | inr d => d | inl _ => "" end)) as H.
  cbv zeta in H.
  destruct H as (H1 & _ & _ & H4).
  - discriminate.
  - reflexivity.
  - reflexivity.
  - vm_compute. discriminate.
  - vm_compute. discriminate.
  - vm_compute. reflexivity.
  - vm_compute. reflexivity.
  - reflexivity.
  - reflexivity.
  - reflexivity.
  - reflexivity.
  - vm_compute. reflexivity.
  - vm_compute. discriminate.
  - vm_compute. reflexivity.
  - split; [exact H1|exact H4].
Defined.

(** X16. A pause that changes nothing is refused.  For the owner of a
    pausable token: [pause] on a paused token and [unPause] on an un-paused
    one return [UserError], charge the gas of the operation and leave the
    storage as it was. *)
Theorem redundant_pause_is_refused :
  forall (e : esdt) (pauseName unPauseName : string)
         (args : ContractCallInput) (st : vmContext) (token : ESDTData),
    length (Arguments args) = 1%nat ->
    CallValue args = 0 ->
    ESDTOperations e <= gasRemaining st ->
    getExistingToken e (Argument args 0) st = inr token ->
    OwnerAddress token = CallerAddr args ->
    CanPause token = true ->
    (IsPaused token = true ->
     togglePause e pauseName unPauseName args pauseName st
     = abort UserError (Text "cannot pause an already paused contract")
         (charged (ESDTOperations e) st))
    /\ (IsPaused token = false ->
        togglePause e pauseName unPauseName args unPauseName st
        = abort UserError
            (Text "cannot unPause an already un-paused contract")
            (charged (ESDTOperations e) st)).
Proof.
  intros e pn un args st token Hn Hvalue Hgas Htoken Howner Hcan.
  split; intros Hp; unfold togglePause; rewrite Hn; simpl;
    rewrite (basicOwnershipChecks_owner e args st token Hvalue Hgas Htoken
               Howner);
    rewrite Hcan, Hp; simpl; rewrite String.eqb_refl.
  - reflexivity.
  - destruct (un =? pn)%string; reflexivity.
Qed.

Lemma redundant_pause_witness :
  fst (togglePause testContract "ESDTPause" "ESDTUnPause"
         (mkInput "alice" ["ALICETOKEN"] 0 0 "esdt-sc-address") "ESDTUnPause"
         (contextWith aliceStorage 100)) = UserError.
Proof.
  destruct (redundant_pause_is_refused testContract "ESDTPause" "ESDTUnPause"
    (mkInput "alice" ["ALICETOKEN"] 0 0 "esdt-sc-address")
    (contextWith aliceStorage 100) aliceToken) as [_ H].
  - reflexivity.
  - reflexivity.
  - vm_compute. discriminate.
  - vm_compute. reflexivity.
  - reflexivity.
  - reflexivity.
  - rewrite H; reflexivity.
Defined.

(** ** Changing the owner *)



(** ** The configuration *)

Lemma SetBytes_from_nonneg (b : string) :
  forall acc, 0 <= acc -> 0 <= SetBytes_from acc b.
Proof.
  induction b as [|c b IH]; intros acc Hacc; simpl; [exact Hacc|].
  apply IH. pose proof (N2Z.is_nonneg (N_of_ascii c)). lia.
Qed.

Lemma SetBytes_nonneg (b : string) : 0 <= SetBytes b.
Proof. apply SetBytes_from_nonneg. lia. Qed.

(** X18. [configChange] and [getESDTConfig] round trip, and the right to
    reconfigure stays with the owner given to the constructor.  When that
    owner calls [configChange] with no value attached, enough gas, four
    arguments, an owner of the length of an address and a minimum length
    not above the maximum, with a marshalizer that reads back what it
    wrote: the call returns [Ok] and [getESDTConfig] then returns the new
    configuration (the two lengths reduced to 32 bits); and if the new
    configuration names another owner, a [configChange] by that owner is
    still refused with [UserError]. *)
Theorem configChange_round_trip :
  forall (e : esdt) (args : ContractCallInput) (st : vmContext)
         (data : string),
    let newConfig :=
      {| cfgOwnerAddress := Argument args 0;
         BaseIssuingCost := SetBytes (Argument args 1);
         MinTokenNameLength := (SetBytes (Argument args 2) mod 2 ^ 64) mod 2 ^ 32;
         MaxTokenNameLength := (SetBytes (Argument args 3) mod 2 ^ 64) mod 2 ^ 32
      |} in
    CallerAddr args = ownerAddress e ->
    CallValue args = 0 ->
    ESDTOperations e <= gasRemaining st ->
    length (Arguments args) = 4%nat ->
    len (Argument args 0) = len (RecipientAddr args) ->
    MinTokenNameLength newConfig <= MaxTokenNameLength newConfig ->
    MarshalConfig (marshalizer e) newConfig = inr data ->
    data <> "" ->
    UnmarshalConfig (marshalizer e)
      (mkESDTConfig (ownerAddress e) (baseIssuingCost e) 10 20) data
    = inr newConfig ->
    fst (configChange e args st) = Ok
    /\ getESDTConfig e (snd (configChange e args st)) = inr newConfig
    /\ (Argument args 0 <> ownerAddress e ->
        forall (args' : ContractCallInput) (st' : vmContext),
          CallerAddr args' = Argument args 0 ->
          fst (configChange e args' st') = UserError).
Proof.
  intros e args st data newConfig Hcaller Hvalue Hgas Hn Hlen Hminmax
    Hmarshal Hdata Hback.
  assert (Hresult : configChange e args st
                    = (Ok, SetStorage configKeyPrefix data
                             (charged (ESDTOperations e) st))).
  { unfold configChange. rewrite Hcaller, String.eqb_refl, Hvalue. simpl.
    rewrite UseGas_charged by exact Hgas. rewrite Hn. simpl.
    rewrite Hlen, Z.eqb_refl. simpl.
    destruct (Z.ltb_spec (SetBytes (Argument args 1)) 0);
      [pose proof (SetBytes_nonneg (Argument args 1)); lia|].
    subst newConfig. simpl in Hminmax.
    destruct (Z.ltb_spec ((SetBytes (Argument args 3) mod 2 ^ 64) mod 2 ^ 32)
                ((SetBytes (Argument args 2) mod 2 ^ 64) mod 2 ^ 32));
      [lia|].
    unfold saveESDTConfig. rewrite Hmarshal. reflexivity. }
  rewrite Hresult. cbn [fst snd]. split; [reflexivity|]. split.
  - unfold getESDTConfig, GetStorage, SetStorage, set_storage.
    cbn [storage charged]. rewrite lookup_insert_eq. simpl.
    destruct data; [contradiction|]. exact Hback.
  - intros Hother args' st' Hcaller'. unfold configChange.
    rewrite Hcaller'.
    destruct (String.eqb_spec (Argument args 0) (ownerAddress e));
      [contradiction|reflexivity].
Qed.

Lemma configChange_round_trip_witness :
  let args :=
    mkInput "contract-owner" ["the-new-owner-0"; Bytes 7000; Bytes 3; Bytes 12]
      0 0 "esdt-sc-address" in
  fst (configChange testContract args (contextWith ∅ 100)) = Ok
  /\ getESDTConfig testContract
       (snd (configChange testContract args (contextWith ∅ 100)))
     = inr (mkESDTConfig "the-new-owner-0" 7000 3 12).
Proof.
  cbv zeta.
  pose proof (configChange_round_trip testContract
    (mkInput "contract-owner" ["the-new-owner-0"; Bytes 7000; Bytes 3; Bytes 12]
       0 0 "esdt-sc-address")
    (contextWith ∅ 100)
    (match testMarshalConfig (mkESDTConfig "the-new-owner-0" 7000 3 12) with
     | inr d => d | inl _ => "" end)) as H.
  cbv zeta in H.
  destruct H as (H1 & H2 & _).
  - reflexivity.
  - reflexivity.
  - vm_compute. discriminate.
  - reflexivity.
  - reflexivity.
  - vm_compute. discriminate.
  - vm_compute. reflexivity.
  - vm_compute. discriminate.
  - vm_compute. reflexivity.
  - split; [exact H1|]. rewrite H2. vm_compute. reflexivity.
Defined.

(** ** The directory of issued tokens *)

Lemma append_assoc (a b c : string) : (a +:+ b) +:+ c = a +:+ b +:+ c.
Proof.
  induction a as [|x a IH]; [reflexivity|].
  change (String x ((a +:+ b) +:+ c) = String x (a +:+ b +:+ c)).
  rewrite IH. reflexivity.
Qed.

Lemma append_empty_r (a : string) : a +:+ "" = a.
Proof.
  induction a as [|x a IH]; [reflexivity|].
  change (String x (a +:+ "") = String x a). rewrite IH. reflexivity.
Qed.

Lemma append_not_empty (a b : string) : a <> "" -> a +:+ b <> "".
Proof. destruct a; [contradiction|discriminate]. Qed.

Lemma addToIssuedTokens_next (name acc : string) (st : vmContext) :
  GetStorage allIssuedTokens st = acc -> acc <> "" ->
  GetStorage allIssuedTokens (addToIssuedTokens name st)
  = acc +:+ "@" +:+ name.
Proof.
  intros Hacc Hne. unfold addToIssuedTokens. rewrite Hacc.
  destruct acc as [|c acc]; [contradiction|].
  change (len (String c acc) =? 0) with
    (Z.of_nat (S (String.length acc)) =? 0).
  destruct (Z.eqb_spec (Z.of_nat (S (String.length acc))) 0); [lia|].
  unfold GetStorage, SetStorage, set_storage. cbn [storage].
  rewrite lookup_insert_eq. reflexivity.
Qed.

Lemma addToIssuedTokens_all (rest : list string) :
  forall (acc : string) (st : vmContext),
    GetStorage allIssuedTokens st = acc -> acc <> "" ->
    GetStorage allIssuedTokens
      (fold_left (fun s name => addToIssuedTokens name s) rest st)
    = acc +:+ appended rest.
Proof.
  induction rest as [|name rest IH]; intros acc st Hacc Hne; simpl.
  - rewrite Hacc. symmetry. apply append_empty_r.
  - rewrite (IH (acc +:+ "@" +:+ name)).
    + rewrite !append_assoc. reflexivity.
    + apply addToIssuedTokens_next; assumption.
    + apply append_not_empty. exact Hne.
Qed.

Lemma addToIssuedTokens_other_keys (name key : string) (st : vmContext) :
  key <> allIssuedTokens ->
  storage (addToIssuedTokens name st) !! key = storage st !! key.
Proof.
  intros Hkey. unfold addToIssuedTokens.
  destruct (len _ =? 0); simpl; apply lookup_insert_ne; congruence.
Qed.

(** X19. The directory lists the names in the order they were added, with
    an [@] between two names.  Starting from an empty directory and a first
    name that is not empty, after [addToIssuedTokens] for each name the key
    [allIssuedTokens] holds the first name followed by [@] and the next
    name, and so on; no other key is written. *)
Theorem directory_lists_names_in_order :
  forall (name : string) (rest : list string) (st : vmContext),
    name <> "" ->
    GetStorage allIssuedTokens st = "" ->
    let st' :=
      fold_left (fun s n => addToIssuedTokens n s) (name :: rest) st in
    GetStorage allIssuedTokens st' = name +:+ appended rest
    /\ forall key : string,
         key <> allIssuedTokens -> storage st' !! key = storage st !! key.
Proof.
  intros name rest st Hname Hempty. cbv zeta. split.
  - simpl. apply addToIssuedTokens_all; [|exact Hname].
    unfold addToIssuedTokens. rewrite Hempty. simpl.
    unfold GetStorage, SetStorage, set_storage. cbn [storage].
    rewrite lookup_insert_eq. reflexivity.
  - intros key Hkey. generalize (name :: rest). intros names.
    revert st Hempty. induction names as [|n names IH]; intros st _;
      [reflexivity|].
    simpl.
    transitivity (storage (addToIssuedTokens n st) !! key).
    + clear IH. revert st.
      assert (Hgen : forall s,
        storage (fold_left (fun s0 n0 => addToIssuedTokens n0 s0) names s)
          !! key = storage s !! key).
      { induction names as [|m names IHn]; intros s; [reflexivity|].
        simpl. rewrite IHn. apply addToIssuedTokens_other_keys. exact Hkey. }
      intros st. apply Hgen.
    + apply addToIssuedTokens_other_keys. exact Hkey.
Qed.

Lemma directory_witness :
  GetStorage allIssuedTokens
    (fold_left (fun s n => addToIssuedTokens n s)
       ["ALICETOKEN"; "BOBSTOKEN1"; "CAROLTOKEN"] (contextWith ∅ 0))
  = "ALICETOKEN@BOBSTOKEN1@CAROLTOKEN".
Proof.
  apply (directory_lists_names_in_order "ALICETOKEN"
           ["BOBSTOKEN1"; "CAROLTOKEN"] (contextWith ∅ 0)).
  - discriminate.
  - reflexivity.
Defined.

(** A byte that is an ASCII letter or digit, by its code. *)
Lemma isReadable_codes (c : ascii) :
  isReadable c = true
  <-> ((97 <= N_of_ascii c <= 122)%N
       \/ (65 <= N_of_ascii c <= 90)%N
       \/ (48 <= N_of_ascii c <= 57)%N).
Proof.
  unfold isReadable.
  change (N_of_ascii "a") with 97%N. change (N_of_ascii "z") with 122%N.
  change (N_of_ascii "A") with 65%N. change (N_of_ascii "Z") with 90%N.
  change (N_of_ascii "0") with 48%N. change (N_of_ascii "9") with 57%N.
  destruct (N.leb_spec 97 (N_of_ascii c));
    destruct (N.leb_spec (N_of_ascii c) 122);
    destruct (N.leb_spec 65 (N_of_ascii c));
    destruct (N.leb_spec (N_of_ascii c) 90);
    destruct (N.leb_spec 48 (N_of_ascii c));
    destruct (N.leb_spec (N_of_ascii c) 57);
    simpl; split; intros Hc; try discriminate; try reflexivity; lia.
Qed.

Lemma isTokenNameHumanReadable_codes (name : string) :
  isTokenNameHumanReadable name = true
  <-> Forall (fun c : ascii =>
                (97 <= N_of_ascii c <= 122)%N
                \/ (65 <= N_of_ascii c <= 90)%N
                \/ (48 <= N_of_ascii c <= 57)%N)
        (list_ascii_of_string name).
Proof.
  induction name as [|ch name IH]; simpl.
  - split; [intros _; constructor|reflexivity].
  - destruct (isReadable ch) eqn:Hch; simpl.
    + rewrite IH. split.
      * intros H. constructor; [apply isReadable_codes; exact Hch|exact H].
      * intros H. inversion H; assumption.
    + split; [discriminate|].
      intros H. inversion H as [|? ? Hc _]. apply isReadable_codes in Hc.
      congruence.
Qed.

(** X20. [isTokenNameHumanReadable] accepts a name exactly when each of
    its bytes is an ASCII small letter (codes 97 to 122), capital letter
    (65 to 90) or digit (48 to 57); so an accepted name never holds the
    separator [@] (code 64) that the directory and the transfer data put
    between names. *)
Theorem readable_name_has_no_separator :
  forall name : string,
    (isTokenNameHumanReadable name = true
     <-> Forall (fun c : ascii =>
                   (97 <= N_of_ascii c <= 122)%N
                   \/ (65 <= N_of_ascii c <= 90)%N
                   \/ (48 <= N_of_ascii c <= 57)%N)
           (list_ascii_of_string name))
    /\ (isTokenNameHumanReadable name = true ->
        ~ In "@"%char (list_ascii_of_string name)).
Proof.
  intros name. split; [apply isTokenNameHumanReadable_codes|].
  intros H Hin. apply isTokenNameHumanReadable_codes in H.
  rewrite List.Forall_forall in H. specialize (H _ Hin).
  change (N_of_ascii "@") with 64%N in H. lia.
Qed.

Lemma readable_name_witness :
  isTokenNameHumanReadable "ALICETOKEN" = true
  /\ ~ In "@"%char (list_ascii_of_string "ALICETOKEN").
Proof.
  split; [reflexivity|].
  apply (readable_name_has_no_separator "ALICETOKEN"). reflexivity.
Defined.

(** Bytes next to the three ranges are refused. *)
Example readable_range_boundaries :
  map (fun name => isTokenNameHumanReadable name)
    ["/"; "0"; "9"; ":"; "@"; "A"; "Z"; "["; "`"; "a"; "z"; "{"; "^"; ""]
  = [false; true; true; false; false; true; true; false; false; true; true;
     false; false; true].
Proof. reflexivity. Qed.

(** ** [mint] *)

(** X21. A [mint] that passes every check stores the record with
    [MintedValue] increased by the amount and sends the amount in one
    transfer from the contract: to the owner when two arguments are given,
    to the address in the third argument when it has the length of the
    caller's address. *)
Theorem mint_adds_and_transfers :
  forall (e : esdt) (transferName : string)
         (transferError : vmContext -> transfer -> option error)
         (args : ContractCallInput) (st : vmContext) (token : ESDTData)
         (data : string),
    let n := length (Arguments args) in
    let destination :=
      if (n =? 3)%nat then Argument args 2 else OwnerAddress token in
    n = 2%nat \/ (n = 3%nat /\ len (Argument args 2) = len (CallerAddr args)) ->
    CallValue args = 0 ->
    ESDTOperations e <= gasRemaining st ->
    getExistingToken e (Argument args 0) st = inr token ->
    OwnerAddress token = CallerAddr args ->
    0 < SetBytes (Argument args 1) ->
    Mintable token = true ->
    MarshalToken (marshalizer e)
      {| OwnerAddress := OwnerAddress token;
         TokenName := TokenName token;
         MintedValue := MintedValue token + SetBytes (Argument args 1);
         BurntValue := BurntValue token;
         Burnable := Burnable token;
         Mintable := Mintable token;
         CanPause := CanPause token;
         CanFreeze := CanFreeze token;
         CanWipe := CanWipe token;
         Upgradable := Upgradable token;
         CanChangeOwner := CanChangeOwner token;
         IsPaused := IsPaused token |}
    = inr data ->
    (forall s t, transferError s t = None) ->
    mint e transferName transferError args st
    = (Ok,
       mkContext (<[TokenName token := data]> (storage st))
         (gasRemaining st - ESDTOperations e) (returnMessages st)
         (transfers st
          ++ [mkTransfer destination (eSDTSCAddress e) 0
                (transferName +:+ "@" +:+ EncodeToString (TokenName token)
                 +:+ "@" +:+ EncodeToString (Bytes (SetBytes (Argument args 1))))
                0])
         (globalSettings st) (output st)).
Proof.
  intros e tn te args st token data n destination Hn Hvalue Hgas Htoken
    Howner Hamount Hmintable Hmarshal Hte.
  unfold mint. fold n.
  rewrite (basicOwnershipChecks_owner e args st token Hvalue Hgas Htoken
             Howner).
  assert (Hcount : ((n <? 2)%nat || (3 <? n)%nat) = false)
    by (destruct Hn as [-> | [-> _]]; reflexivity).
  rewrite Hcount.
  destruct (Z.leb_spec (SetBytes (Argument args 1)) 0); [lia|].
  rewrite Hmintable. simpl negb. cbv iota.
  unfold saveToken, set_MintedValue. cbn [TokenName OwnerAddress].
  rewrite Hmarshal.
  subst destination.
  destruct Hn as [Hn | [Hn Hlen]]; rewrite Hn; cbn [Nat.eqb].
  - unfold Transfer. rewrite Hte. reflexivity.
  - rewrite Hlen, Z.eqb_refl. cbn [negb].
    unfold Transfer. rewrite Hte. reflexivity.
Qed.

Lemma mint_adds_and_transfers_witness :
  let result :=
    mint testContract "ESDTTransfer" noTransferError
      (mkInput "alice" ["ALICETOKEN"; Bytes 5; "carol"] 0 0 "esdt-sc-address")
      (contextWith aliceStorage 100) in
  fst result = Ok
  /\ map trDestination (transfers (snd result)) = ["carol"]
  /\ getExistingToken testContract "ALICETOKEN" (snd result)
     = inr (mkESDTData "alice" "ALICETOKEN" 1005 0 true true true true true
              true true false).
Proof.
  cbv zeta.
  rewrite (mint_adds_and_transfers testContract "ESDTTransfer"
    noTransferError
    (mkInput "alice" ["ALICETOKEN"; Bytes 5; "carol"] 0 0 "esdt-sc-address")
    (contextWith aliceStorage 100) aliceToken
    (match testMarshalToken
             (mkESDTData "alice" "ALICETOKEN" 1005 0 true true true true true
                true true false) with
     | inr d => d | inl _ => "" end)).
  - repeat split; vm_compute; reflexivity.
  - right. split; reflexivity.
  - reflexivity.
  - vm_compute. discriminate.
  - vm_compute. reflexivity.
  - reflexivity.
  - reflexivity.
  - reflexivity.
  - vm_compute. reflexivity.
  - intros s t. reflexivity.
Defined.

(** ** Queries and the dispatcher *)

(** X22. [claim], [getAllESDTTokens] and [getTokenProperties] never write
    to the storage of the contract, whatever they return; and a
    [getAllESDTTokens] that returns [Ok] has added to the output exactly
    what is stored under [allIssuedTokens]. *)
Theorem queries_leave_storage :
  forall (e : esdt) (dataCopyPerByte : Z)
         (getBalance : vmContext -> string -> Z)
         (transferError : vmContext -> transfer -> option error)
         (args : ContractCallInput) (st : vmContext),
    storage (snd (claim e getBalance transferError args st)) = storage st
    /\ storage (snd (getAllESDTTokens e dataCopyPerByte args st)) = storage st
    /\ storage (snd (getTokenProperties e args st)) = storage st
    /\ (fst (getAllESDTTokens e dataCopyPerByte args st) = Ok ->
        output (snd (getAllESDTTokens e dataCopyPerByte args st))
        = (output st ++ [GetStorage allIssuedTokens st])%list).
Proof.
  intros e d gb te args st. repeat split.
  - unfold claim, UseGas, Transfer.
    destruct (negb (CallerAddr args =? ownerAddress e)%string);
      [reflexivity|].
    destruct (negb (CallValue args =? 0)); [reflexivity|].
    destruct (gasRemaining st <? ESDTOperations e); [reflexivity|].
    destruct (negb (length (Arguments args) =? 0)%nat); [reflexivity|].
    cbv zeta. destruct (te _ _); reflexivity.
  - unfold getAllESDTTokens, UseGas.
    destruct (negb (CallValue args =? 0)); [reflexivity|].
    destruct (negb (length (Arguments args) =? 0)%nat); [reflexivity|].
    destruct (gasRemaining st <? ESDTOperations e); [reflexivity|].
    cbv zeta. cbn [gasRemaining].
    destruct (_ <? _); reflexivity.
  - unfold getTokenProperties, UseGas.
    destruct (negb (CallValue args =? 0)); [reflexivity|].
    destruct (negb (length (Arguments args) =? 1)%nat); [reflexivity|].
    destruct (gasRemaining st <? ESDTOperations e); [reflexivity|].
    destruct (getExistingToken e _ _); reflexivity.
  - unfold getAllESDTTokens, UseGas.
    destruct (negb (CallValue args =? 0)); [discriminate|].
    destruct (negb (length (Arguments args) =? 0)%nat); [discriminate|].
    destruct (gasRemaining st <? ESDTOperations e); [discriminate|].
    cbv zeta. cbn [gasRemaining].
    destruct (_ <? _); [discriminate|]. intros _. reflexivity.
Qed.

Lemma queries_witness :
  output
    (snd (getAllESDTTokens testContract 1
            (mkInput "bob" [] 0 0 "esdt-sc-address")
            (contextWith {[ allIssuedTokens := "ALICETOKEN" ]} 100)))
  = ["ALICETOKEN"].
Proof.
  destruct (queries_leave_storage testContract 1 (fun _ _ => 0)
              noTransferError (mkInput "bob" [] 0 0 "esdt-sc-address")
              (contextWith {[ allIssuedTokens := "ALICETOKEN" ]} 100))
    as (_ & _ & _ & H).
  rewrite H; vm_compute; reflexivity.
Defined.

(** X23. The dispatcher.  An input [CheckIfNil] rejects returns
    [UserError] and changes nothing.  Otherwise the initialisation runs
    whether the contract is enabled or not; while the contract is not
    enabled, every other function returns [UserError] with the one message
    "ESDT SC disabled"; and when it is enabled, a name that is none of the
    functions of the contract returns [FunctionNotFound] with the one
    message "invalid method to call". *)
Theorem Execute_gate_and_fallthrough :
  forall (e : esdt) (dataCopyPerByte : Z)
         (getBalance : vmContext -> string -> Z)
         (checkIfNil : string -> ContractCallInput -> option error)
         (initName transferName burnName freezeName unFreezeName wipeName
            pauseName unPauseName : string)
         (transferError : vmContext -> transfer -> option error)
         (flagEnabled : bool) (function : string) (args : ContractCallInput)
         (st : vmContext),
    let run :=
      Execute e dataCopyPerByte getBalance checkIfNil initName transferName
        burnName freezeName unFreezeName wipeName pauseName unPauseName
        transferError in
    (forall err, checkIfNil function args = Some err ->
       run flagEnabled function args st = (UserError, st))
    /\ (checkIfNil function args = None ->
        (function = initName ->
         run flagEnabled function args st = init e st)
        /\ (function <> initName ->
            run false function args st
            = abort UserError (Text "ESDT SC disabled") st)
        /\ (function <> initName ->
            ~ In function
                ["issue"; "issueProtected"; burnName; "mint"; "freeze";
                 "unFreeze"; "wipe"; "pause"; "unPause"; "claim";
                 "configChange"; "esdtControlChanges"; "transferOwnership";
                 "getAllESDTTokens"; "getTokenProperties"] ->
            run true function args st
            = abort FunctionNotFound (Text "invalid method to call") st)).
Proof.
  intros e d gb cn initName tn bn fn ufn wn pn un te flag f args st run.
  subst run. unfold Execute. split.
  - intros err Herr. rewrite Herr. reflexivity.
  - intros Hok. rewrite Hok. split; [|split].
    + intros ->. rewrite String.eqb_refl. reflexivity.
    + intros Hne. destruct (String.eqb_spec f initName); [contradiction|].
      reflexivity.
    + intros Hne Hnot. destruct (String.eqb_spec f initName); [contradiction|].
      cbn [negb].
      repeat match goal with
             | |- context [(f =? ?name)%string] =>
                 destruct (String.eqb_spec f name);
                 [exfalso; apply Hnot; subst f; simpl; tauto|]
             end.
      reflexivity.
Qed.

Lemma Execute_gate_witness :
  Execute testContract 1 (fun _ _ => 0) (fun _ _ => None) "_init"
    "ESDTTransfer" "ESDTBurn" "ESDTFreeze" "ESDTUnFreeze" "ESDTWipe"
    "ESDTPause" "ESDTUnPause" noTransferError false "mint"
    (mkInput "alice" ["ALICETOKEN"; Bytes 5] 0 0 "esdt-sc-address")
    (contextWith aliceStorage 100)
  = abort UserError (Text "ESDT SC disabled") (contextWith aliceStorage 100).
Proof.
  apply (Execute_gate_and_fallthrough testContract 1 (fun _ _ => 0)
           (fun _ _ => None) "_init" "ESDTTransfer" "ESDTBurn" "ESDTFreeze"
           "ESDTUnFreeze" "ESDTWipe" "ESDTPause" "ESDTUnPause"
           noTransferError false "mint"
           (mkInput "alice" ["ALICETOKEN"; Bytes 5] 0 0 "esdt-sc-address")
           (contextWith aliceStorage 100)).
  - reflexivity.
  - discriminate.
Defined.

(** ** Registering a token *)

Lemma upgradeProperties_TokenName (token token' : ESDTData)
    (args : list string) :
  upgradeProperties token args = inr token' ->
  TokenName token' = TokenName token.
Proof.
  intros H. unfold upgradeProperties in H.
  destruct (length args =? 0)%nat; [injection H as <-; reflexivity|].
  destruct (negb _); [discriminate|].
  apply (upgradeProperties_loop_keeps (length args) args token token'
           (Nat.le_refl _) H).
Qed.

(** The context [issueToken] leaves when it registers [token]. *)
Lemma issueToken_registers (e : esdt) (tn : string)
    (te : vmContext -> transfer -> option error) (owner : string)
    (arguments : list string) (st : vmContext) (token : ESDTData)
    (data : string) :
  0 < SetBytes (nth 1 arguments "") ->
  GetStorage (nth 0 arguments "") st = "" ->
  isTokenNameHumanReadable (nth 0 arguments "") = true ->
  upgradeProperties
    (freshToken owner (nth 0 arguments "") (SetBytes (nth 1 arguments "")))
    (skipn 2 arguments) = inr token ->
  MarshalToken (marshalizer e) token = inr data ->
  (forall s t, te s t = None) ->
  issueToken e tn te owner arguments st
  = (None,
     addToIssuedTokens (nth 0 arguments "")
       (mkContext (<[nth 0 arguments "" := data]> (storage st))
          (gasRemaining st) (returnMessages st)
          (transfers st
           ++ [mkTransfer owner (eSDTSCAddress e) 0
                 (tn +:+ "@" +:+ EncodeToString (nth 0 arguments "")
                  +:+ "@"
                  +:+ EncodeToString (Bytes (SetBytes (nth 1 arguments ""))))
                 0])%list
          (globalSettings st) (output st))).
Proof.
  intros Hsupply Hfree Hread Hup Hmarshal Hte.
  pose proof (upgradeProperties_TokenName _ _ _ Hup) as Hname.
  cbn [TokenName freshToken] in Hname.
  unfold issueToken.
  destruct (Z.leb_spec (SetBytes (nth 1 arguments "")) 0); [lia|].
  rewrite Hfree. change (0 <? len "") with false. cbv iota.
  rewrite Hread. cbn [negb].
  fold (freshToken owner (nth 0 arguments "") (SetBytes (nth 1 arguments ""))).
  rewrite Hup. unfold saveToken. rewrite Hmarshal, Hname.
  unfold Transfer. rewrite Hte. reflexivity.
Qed.

(** X24. [issue] registers the token.  With at least two arguments, gas
    for the cost of issuing, a name within the configured lengths made of
    letters and digits and not yet registered, the configured base issuing
    cost attached, a positive supply, optional properties
    [upgradeProperties] accepts, and a marshalizer and an environment that
    do not fail: [issue] returns [Ok], the storage holds under the name the
    marshalled record (the caller as owner, the supply minted, nothing
    burnt, the capabilities as the optional properties set them), one
    transfer of the supply to the caller is made, and the cost of issuing
    is charged.  The name must not be the key of the directory itself. *)
Theorem issue_registers_token :
  forall (e : esdt) (transferName : string)
         (transferError : vmContext -> transfer -> option error)
         (args : ContractCallInput) (st : vmContext) (cfg : ESDTConfig)
         (token : ESDTData) (data : string),
    let name := Argument args 0 in
    let supply := SetBytes (Argument args 1) in
    (2 <= length (Arguments args))%nat ->
    ESDTIssue e <= gasRemaining st ->
    getESDTConfig e st = inr cfg ->
    MinTokenNameLength cfg <= len name <= MaxTokenNameLength cfg ->
    CallValue args = BaseIssuingCost cfg ->
    0 < supply ->
    GetStorage name st = "" ->
    isTokenNameHumanReadable name = true ->
    name <> allIssuedTokens ->
    upgradeProperties (freshToken (CallerAddr args) name supply)
      (skipn 2 (Arguments args)) = inr token ->
    MarshalToken (marshalizer e) token = inr data ->
    (forall s t, transferError s t = None) ->
    let result := issue e transferName transferError args st in
    fst result = Ok
    /\ storage (snd result) !! name = Some data
    /\ transfers (snd result)
       = (transfers st
          ++ [mkTransfer (CallerAddr args) (eSDTSCAddress e) 0
                (transferName +:+ "@" +:+ EncodeToString name +:+ "@"
                 +:+ EncodeToString (Bytes supply)) 0])%list
    /\ gasRemaining (snd result) = gasRemaining st - ESDTIssue e.
Proof.
  intros e tn te args st cfg token data name supply Hn Hgas Hcfg Hlen Hvalue
    Hsupply Hfree Hread Hkey Hup Hmarshal Hte.
  cbv zeta. unfold issue.
  destruct (Nat.ltb_spec (length (Arguments args)) 2); [lia|].
  rewrite UseGas_enough by exact Hgas.
  erewrite getESDTConfig_storage; [rewrite Hcfg|reflexivity].
  fold name.
  destruct (Z.ltb_spec (len name) (MinTokenNameLength cfg)); [lia|].
  destruct (Z.ltb_spec (MaxTokenNameLength cfg) (len name)); [lia|].
  rewrite Hvalue, Z.eqb_refl. cbn [orb negb].
  rewrite (issueToken_registers e tn te (CallerAddr args) (Arguments args)
             (mkContext (storage st) (gasRemaining st - ESDTIssue e)
                (returnMessages st) (transfers st) (globalSettings st)
                (output st))
             token data Hsupply Hfree Hread Hup Hmarshal Hte).
  cbn [fst snd]. fold name. fold supply.
  split; [reflexivity|].
  unfold addToIssuedTokens.
  destruct (len _ =? 0); cbn [storage transfers gasRemaining SetStorage
                              set_storage];
    (split; [rewrite lookup_insert_ne by congruence; apply lookup_insert_eq|]);
    split; reflexivity.
Qed.

Lemma issue_registers_witness :
  let result :=
    issue testContract "ESDTTransfer" noTransferError
      (mkInput "bob" ["BOBSTOKEN1"; Bytes 300; canPause; "true"] 5000 0
         "esdt-sc-address")
      (contextWith aliceStorage 100) in
  fst result = Ok
  /\ getExistingToken testContract "BOBSTOKEN1" (snd result)
     = inr (mkESDTData "bob" "BOBSTOKEN1" 300 0 false false true false false
              true false false).
Proof.
  cbv zeta.
  pose proof (issue_registers_token testContract "ESDTTransfer"
    noTransferError
    (mkInput "bob" ["BOBSTOKEN1"; Bytes 300; canPause; "true"] 5000 0
       "esdt-sc-address")
    (contextWith aliceStorage 100)
    (mkESDTConfig "contract-owner" 5000 10 20)
    (set_CanPause true (freshToken "bob" "BOBSTOKEN1" 300))
    (match testMarshalToken
             (set_CanPause true (freshToken "bob" "BOBSTOKEN1" 300)) with
     | inr d => d | inl _ => "" end)) as H.
  cbv zeta in H.
  destruct H as (H1 & H2 & _).
  - simpl. lia.
  - vm_compute. discriminate.
  - reflexivity.
  - vm_compute. split; discriminate.
  - reflexivity.
  - vm_compute. reflexivity.
  - reflexivity.
  - reflexivity.
  - discriminate.
  - reflexivity.
  - vm_compute. reflexivity.
  - intros s t. reflexivity.
  - split; [exact H1|].
    unfold getExistingToken, GetStorage.
    change (Argument _ 0) with "BOBSTOKEN1" in H2. rewrite H2.
    vm_compute. reflexivity.
Defined.

Lemma getESDTConfig_lookup (e : esdt) (st1 st2 : vmContext) :
  storage st1 !! configKeyPrefix = storage st2 !! configKeyPrefix ->
  getESDTConfig e st1 = getESDTConfig e st2.
Proof.
  intros H. unfold getESDTConfig, GetStorage. rewrite H. reflexivity.
Qed.

(** X25. A name is registered once.  After an [issue] that registered a
    token (as in X24, with a marshalled record that is not empty and a
    name that is not a key the contract uses itself), the same call made
    again returns [UserError] with the error [ErrTokenAlreadyRegistered],
    and leaves the storage as the first call left it. *)
Theorem issue_twice_is_refused :
  forall (e : esdt) (transferName : string)
         (transferError : vmContext -> transfer -> option error)
         (args : ContractCallInput) (st : vmContext) (cfg : ESDTConfig)
         (token : ESDTData) (data : string),
    let name := Argument args 0 in
    let supply := SetBytes (Argument args 1) in
    (2 <= length (Arguments args))%nat ->
    0 <= ESDTIssue e ->
    2 * ESDTIssue e <= gasRemaining st ->
    getESDTConfig e st = inr cfg ->
    MinTokenNameLength cfg <= len name <= MaxTokenNameLength cfg ->
    CallValue args = BaseIssuingCost cfg ->
    0 < supply ->
    GetStorage name st = "" ->
    isTokenNameHumanReadable name = true ->
    name <> allIssuedTokens ->
    name <> configKeyPrefix ->
    upgradeProperties (freshToken (CallerAddr args) name supply)
      (skipn 2 (Arguments args)) = inr token ->
    MarshalToken (marshalizer e) token = inr data ->
    data <> "" ->
    (forall s t, transferError s t = None) ->
    let first := issue e transferName transferError args st in
    let second := issue e transferName transferError args (snd first) in
    fst first = Ok
    /\ fst second = UserError
    /\ returnMessages (snd second)
       = (returnMessages (snd first)
          ++ [ErrorText ErrTokenAlreadyRegistered])%list
    /\ storage (snd second) = storage (snd first).
Proof.
  intros e tn te args st cfg token data name supply Hn Hcost Hgas Hcfg Hlen
    Hvalue Hsupply Hfree Hread Hkey Hkey' Hup Hmarshal Hdata Hte.
  assert (Hfirst : exists st1,
            issue e tn te args st = (Ok, st1)
            /\ storage st1 !! name = Some data
            /\ storage st1 !! configKeyPrefix = storage st !! configKeyPrefix
            /\ gasRemaining st1 = gasRemaining st - ESDTIssue e).
  { unfold issue.
    destruct (Nat.ltb_spec (length (Arguments args)) 2); [lia|].
    rewrite UseGas_enough by lia.
    erewrite getESDTConfig_storage; [rewrite Hcfg|reflexivity].
    fold name.
    destruct (Z.ltb_spec (len name) (MinTokenNameLength cfg)); [lia|].
    destruct (Z.ltb_spec (MaxTokenNameLength cfg) (len name)); [lia|].
    rewrite Hvalue, Z.eqb_refl. cbn [orb negb].
    rewrite (issueToken_registers e tn te (CallerAddr args) (Arguments args)
               (mkContext (storage st) (gasRemaining st - ESDTIssue e)
                  (returnMessages st) (transfers st) (globalSettings st)
                  (output st))
               token data Hsupply Hfree Hread Hup Hmarshal Hte).
    eexists. split; [reflexivity|].
    change (nth 0 (Arguments args) "") with name.
    assert (Hk1 : allIssuedTokens <> name) by congruence.
    assert (Hk2 : allIssuedTokens <> configKeyPrefix) by discriminate.
    unfold addToIssuedTokens.
    destruct (len _ =? 0);
      cbn [storage gasRemaining SetStorage set_storage];
      (split; [rewrite lookup_insert_ne by exact Hk1; apply lookup_insert_eq|]);
      (split; [|reflexivity]);
      rewrite lookup_insert_ne by exact Hk2;
      rewrite lookup_insert_ne by exact Hkey';
      reflexivity. }
  destruct Hfirst as (st1 & Hissue & Hstored & Hconfig & Hgas1).
  cbv zeta. rewrite Hissue. cbn [fst snd]. split; [reflexivity|].
  assert (Hsecond : issue e tn te args st1
                    = abort UserError (ErrorText ErrTokenAlreadyRegistered)
                        (charged (ESDTIssue e) st1)).
  { unfold issue.
    destruct (Nat.ltb_spec (length (Arguments args)) 2); [lia|].
    rewrite UseGas_charged by lia.
    rewrite (getESDTConfig_lookup e _ st) by exact Hconfig. rewrite Hcfg.
    fold name.
    destruct (Z.ltb_spec (len name) (MinTokenNameLength cfg)); [lia|].
    destruct (Z.ltb_spec (MaxTokenNameLength cfg) (len name)); [lia|].
    rewrite Hvalue, Z.eqb_refl. cbn [orb negb].
    unfold issueToken.
    destruct (Z.leb_spec (SetBytes (nth 1 (Arguments args) "")) 0);
      [unfold supply, Argument in Hsupply; lia|].
    assert (Hget : GetStorage (nth 0 (Arguments args) "")
                     (charged (ESDTIssue e) st1) = data).
    { unfold GetStorage. cbn [storage charged].
      change (nth 0 (Arguments args) "") with name. rewrite Hstored.
      reflexivity. }
    rewrite Hget.
    destruct data as [|c data]; [contradiction|].
    change (0 <? len (String c data)) with
      (0 <? Z.of_nat (S (String.length data))).
    destruct (Z.ltb_spec 0 (Z.of_nat (S (String.length data)))); [|lia].
    reflexivity. }
  rewrite Hsecond. repeat split.
Qed.

Lemma issue_twice_witness :
  let args :=
    mkInput "bob" ["BOBSTOKEN1"; Bytes 300] 5000 0 "esdt-sc-address" in
  let first :=
    issue testContract "ESDTTransfer" noTransferError args
      (contextWith aliceStorage 100) in
  fst first = Ok
  /\ fst (issue testContract "ESDTTransfer" noTransferError args (snd first))
     = UserError.
Proof.
  cbv zeta.
  pose proof (issue_twice_is_refused testContract "ESDTTransfer"
    noTransferError
    (mkInput "bob" ["BOBSTOKEN1"; Bytes 300] 5000 0 "esdt-sc-address")
    (contextWith aliceStorage 100)
    (mkESDTConfig "contract-owner" 5000 10 20)
    (freshToken "bob" "BOBSTOKEN1" 300)
    (match testMarshalToken (freshToken "bob" "BOBSTOKEN1" 300) with
     | inr d => d | inl _ => "" end)) as H.
  cbv zeta in H.
  destruct H as (H1 & H2 & _).
  - simpl. lia.
  - vm_compute. discriminate.
  - vm_compute. discriminate.
  - reflexivity.
  - vm_compute. split; discriminate.
  - reflexivity.
  - vm_compute. reflexivity.
  - reflexivity.
  - reflexivity.
  - discriminate.
  - discriminate.
  - reflexivity.
  - vm_compute. reflexivity.
  - vm_compute. discriminate.
  - intros s t. reflexivity.
  - split; [exact H1|exact H2].
Defined.

Lemma nth_skipn_one (l : list string) (i : nat) :
  nth i (skipn 1 l) "" = nth (S i) l "".
Proof. destruct l; [destruct i; reflexivity|reflexivity]. Qed.

(** X26. [issueProtected] registers a token for another owner and does
    not look at the length of the name.  When the owner of the contract
    calls it with an owner address of the length of his own, a name and a
    supply, gas for the cost of issuing and the configured base issuing
    cost attached, for a name made of letters and digits and not yet
    registered, whatever its length: the call returns [Ok] and the storage
    holds under the name the marshalled record with the first argument as
    owner. *)
Theorem issueProtected_registers_for_given_owner :
  forall (e : esdt) (transferName : string)
         (transferError : vmContext -> transfer -> option error)
         (args : ContractCallInput) (st : vmContext) (cfg : ESDTConfig)
         (token : ESDTData) (data : string),
    let owner := Argument args 0 in
    let name := Argument args 1 in
    let supply := SetBytes (Argument args 2) in
    CallerAddr args = ownerAddress e ->
    (3 <= length (Arguments args))%nat ->
    len owner = len (CallerAddr args) ->
    ESDTIssue e <= gasRemaining st ->
    getESDTConfig e st = inr cfg ->
    CallValue args = BaseIssuingCost cfg ->
    0 < supply ->
    GetStorage name st = "" ->
    isTokenNameHumanReadable name = true ->
    name <> allIssuedTokens ->
    upgradeProperties (freshToken owner name supply)
      (skipn 3 (Arguments args)) = inr token ->
    MarshalToken (marshalizer e) token = inr data ->
    (forall s t, transferError s t = None) ->
    let result := issueProtected e transferName transferError args st in
    fst result = Ok
    /\ storage (snd result) !! name = Some data
    /\ OwnerAddress token = owner.
Proof.
  intros e tn te args st cfg token data owner name supply Hcaller Hn Howner
    Hgas Hcfg Hvalue Hsupply Hfree Hread Hkey Hup Hmarshal Hte.
  cbv zeta. unfold issueProtected.
  rewrite Hcaller, String.eqb_refl. cbn [negb].
  destruct (Nat.ltb_spec (length (Arguments args)) 3); [lia|].
  fold owner. rewrite <- Hcaller, Howner, Z.eqb_refl. cbn [negb].
  rewrite UseGas_enough by exact Hgas.
  erewrite getESDTConfig_storage; [rewrite Hcfg|reflexivity].
  rewrite Hvalue, Z.eqb_refl. cbn [negb].
  assert (H0 : nth 0 (skipn 1 (Arguments args)) "" = name)
    by apply nth_skipn_one.
  assert (H1 : nth 1 (skipn 1 (Arguments args)) "" = Argument args 2)
    by apply nth_skipn_one.
  assert (H2 : skipn 2 (skipn 1 (Arguments args)) = skipn 3 (Arguments args))
    by (rewrite skipn_skipn; reflexivity).
  rewrite (issueToken_registers e tn te owner (skipn 1 (Arguments args))
             (mkContext (storage st) (gasRemaining st - ESDTIssue e)
                (returnMessages st) (transfers st) (globalSettings st)
                (output st))
             token data).
  - cbn [fst snd]. split; [reflexivity|]. split.
    + rewrite H0. unfold addToIssuedTokens.
      destruct (len _ =? 0); cbn [storage SetStorage set_storage];
        rewrite lookup_insert_ne by congruence; apply lookup_insert_eq.
    + unfold upgradeProperties in Hup.
      destruct (length _ =? 0)%nat; [injection Hup as <-; reflexivity|].
      destruct (negb _); [discriminate|].
      apply (upgradeProperties_loop_keeps _ _ _ _ (Nat.le_refl _) Hup).
  - rewrite H1. exact Hsupply.
  - rewrite H0. exact Hfree.
  - rewrite H0. exact Hread.
  - rewrite H0, H1, H2. exact Hup.
  - exact Hmarshal.
  - exact Hte.
Qed.

Lemma issueProtected_witness :
  let result :=
    issueProtected testContract "ESDTTransfer" noTransferError
      (mkInput "contract-owner" ["dave-the-owner"; "ABC"; Bytes 9] 5000 0
         "esdt-sc-address")
      (contextWith aliceStorage 100) in
  fst result = Ok
  /\ getExistingToken testContract "ABC" (snd result)
     = inr (freshToken "dave-the-owner" "ABC" 9).
Proof.
  cbv zeta.
  pose proof (issueProtected_registers_for_given_owner testContract
    "ESDTTransfer" noTransferError
    (mkInput "contract-owner" ["dave-the-owner"; "ABC"; Bytes 9] 5000 0
       "esdt-sc-address")
    (contextWith aliceStorage 100)
    (mkESDTConfig "contract-owner" 5000 10 20)
    (freshToken "dave-the-owner" "ABC" 9)
    (match testMarshalToken (freshToken "dave-the-owner" "ABC" 9) with
     | inr d => d | inl _ => "" end)) as H.
  cbv zeta in H.
  destruct H as (H1 & H2 & _).
  - reflexivity.
  - simpl. lia.
  - reflexivity.
  - vm_compute. discriminate.
  - reflexivity.
  - reflexivity.
  - vm_compute. reflexivity.
  - reflexivity.
  - reflexivity.
  - discriminate.
  - reflexivity.
  - vm_compute. reflexivity.
  - intros s t. reflexivity.
  - split; [exact H1|].
    unfold getExistingToken, GetStorage.
    change (Argument _ 1) with "ABC" in H2. rewrite H2.
    vm_compute. reflexivity.
Defined.

End ESDTOperations.
